(** * EZsciplot: the data-aggregation and filter-evaluation engine of [entrance.py]

    A shallow embedding of class [TestData] (src/entrance.py): the dataset
    generator and its cache, the range aggregator, the parameter summary
    builder, the condition evaluator and the site statistics aggregator.

    Conventions of the embedding.
    - A Python [float] is a rational ([Q]) and arithmetic on it is exact: the
      rounding of binary64 operations, infinities and NaN are not represented.
      Every decision the code takes on a float ([==], [<=], formatting with
      [f"{v:.nf}"], which rounds the exact value half-to-even) is computed on
      that rational.
    - A Python [str] is a [string] of bytes (UTF-8); white space is the ASCII
      white space of [str.isspace], digits are ['0'..'9'].
    - A [dict] keyed by strings is a [gmap string _]; the ordered catalogue
      [self.sites] is an association list.
    - What the interpreter and numpy provide from outside the repository
      ([hash], the global random generator, [sin], [sqrt], ...) is a field of
      the class [Runtime].
    - Code that can raise returns a [result]; code that mutates [self.data_cache]
      or the global random generator passes a [state] along. *)

From Stdlib Require Import ZArith QArith Qabs Qround Qpower String Ascii List Bool Lia.
From stdpp Require Import base tactics option list gmap strings pretty.

Local Open Scope string_scope.
Local Open Scope list_scope.
Local Open Scope Z_scope.

(** ** Exceptions *)

Inductive exn : Set :=
| IndexError
| KeyError
| ValueError.

Inductive result (A : Type) : Type :=
| Ok (a : A)
| Raise (e : exn).
Arguments Ok {A} a.
Arguments Raise {A} e.

#[global] Instance result_ret : MRet result := fun A a => Ok a.
#[global] Instance result_bind : MBind result := fun A B k r =>
  match r with
  | Ok a => k a
  | Raise e => Raise e
  end.

Definition is_ok {A : Type} (r : result A) : bool :=
  match r with Ok _ => true | Raise _ => false end.

(** ** Comparisons on floats *)

Definition Qlt_bool (x y : Q) : bool := negb (Qle_bool y x).
Definition float_of_int (n : Z) : Q := inject_Z n.

(** ** Python strings *)

Module PyStr.

Definition chars (s : string) : list ascii := list_ascii_of_string s.
Definition of_chars (l : list ascii) : string := string_of_list_ascii l.

(** [str.isspace] on one ASCII character. *)
Definition is_space (c : ascii) : bool :=
  let n := nat_of_ascii c in
  ((9 <=? n) && (n <=? 13) || (28 <=? n) && (n <=? 32))%nat.

Definition is_digit (c : ascii) : bool :=
  let n := nat_of_ascii c in ((48 <=? n) && (n <=? 57))%nat.

Definition digit_value (c : ascii) : Z := Z.of_nat (nat_of_ascii c) - 48.

Fixpoint lstrip_chars (l : list ascii) : list ascii :=
  match l with
  | c :: l' => if is_space c then lstrip_chars l' else l
  | [] => []
  end.

Definition rstrip_chars (l : list ascii) : list ascii :=
  rev (lstrip_chars (rev l)).

(** [s.strip()] *)
Definition strip (s : string) : string :=
  of_chars (rstrip_chars (lstrip_chars (chars s))).

(** [not s or not s.strip()] *)
Definition is_blank (s : string) : bool :=
  match strip s with EmptyString => true | _ => false end.

Definition eqb (s t : string) : bool := String.eqb s t.

(** [l] starts with [p]: the rest of [l] after [p]. *)
Fixpoint strip_prefix (p l : list ascii) : option (list ascii) :=
  match p, l with
  | [], _ => Some l
  | a :: p', b :: l' => if Ascii.eqb a b then strip_prefix p' l' else None
  | _ :: _, [] => None
  end.

(** [s.split(sep)] for a non-empty separator: the pieces between the
    occurrences of [sep], scanned from the left. [skip] counts the characters
    of an occurrence that are still to be passed over. *)
Fixpoint split_chars (sep : list ascii) (skip : nat) (cur l : list ascii)
  : list (list ascii) :=
  match l with
  | [] => [rev cur]
  | c :: l' =>
      match skip with
      | S k => split_chars sep k cur l'
      | O =>
          match strip_prefix sep l with
          | Some _ => rev cur :: split_chars sep (length sep - 1) [] l'
          | None => split_chars sep O (c :: cur) l'
          end
      end
  end.

Definition split (sep s : string) : list string :=
  map of_chars (split_chars (chars sep) O [] (chars s)).

(** [sep in s] *)
Definition contains (sep s : string) : bool :=
  (1 <? length (split sep s))%nat.

End PyStr.

(** ** Number formatting: [f"{v:.nf}"], [f"{n:+d}"] and [format_significant_figures] *)

Module Fmt.

Definition pow10 (n : nat) : Z := 10 ^ Z.of_nat n.

(** Round a rational to the nearest integer, ties to the even one. *)
Definition round_half_even (q : Q) : Z :=
  let n := Qnum q in
  let d := Zpos (Qden q) in
  let f := n / d in
  match 2 * (n mod d) ?= d with
  | Lt => f
  | Gt => f + 1
  | Eq => if Z.even f then f else f + 1
  end.

(** The integer [f"{v:.nf}"] prints the digits of: [|v| * 10^n] rounded. *)
Definition scaled (v : Q) (prec : nat) : Z :=
  round_half_even (Qabs v * inject_Z (pow10 prec)).

Definition digits_of (m : Z) : list ascii := PyStr.chars (pretty (Z.to_N m)).

Definition pad_zeros (width : nat) (ds : list ascii) : list ascii :=
  repeat "0"%char (width - length ds) ++ ds.

(** [f"{v:.{prec}f}"] for [prec >= 0]. *)
Definition fixed (v : Q) (prec : nat) : string :=
  let ds := pad_zeros (S prec) (digits_of (scaled v prec)) in
  let k := (length ds - prec)%nat in
  let sign := if Qlt_bool v 0 then ["-"%char] else [] in
  let frac := match prec with O => [] | S _ => "."%char :: drop k ds end in
  PyStr.of_chars (sign ++ take k ds ++ frac).

(** [f"{v:.{prec}f}"]: a negative precision is a [ValueError]. *)
Definition format_f (v : Q) (prec : Z) : result string :=
  if prec <? 0 then Raise ValueError else Ok (fixed v (Z.to_nat prec)).

(** [f"{n:+d}"] *)
Definition plus_d (n : Z) : string :=
  if 0 <=? n then "+" +:+ pretty n else pretty n.

(** Largest [k] with [10^k <= n], for [1 <= n]. *)
Fixpoint ilog10_fuel (fuel : nat) (n : Z) : Z :=
  match fuel with
  | O => 0
  | S fuel' => if n <? 10 then 0 else 1 + ilog10_fuel fuel' (n / 10)
  end.

Definition ilog10 (n : Z) : Z := ilog10_fuel (S (Z.to_nat (Z.log2 n))) n.

(** [int(np.floor(np.log10(a)))] for [0 < a]. *)
Definition floor_log10 (a : Q) : Z :=
  let n := Qnum a in
  let d := Zpos (Qden a) in
  if d <=? n then ilog10 (n / d) else - (ilog10 ((d - 1) / n) + 1).

End Fmt.

(** ** Reading numbers: [float(s)] and the filter mini-language *)

Module Parse.

(** The longest prefix of digits, and what follows it. *)
Fixpoint span_digits (l : list ascii) : list ascii * list ascii :=
  match l with
  | c :: l' =>
      if PyStr.is_digit c
      then let '(ds, rest) := span_digits l' in (c :: ds, rest)
      else ([], l)
  | [] => ([], [])
  end.

Definition digits_value (ds : list ascii) : Z :=
  fold_left (fun acc c => 10 * acc + PyStr.digit_value c) ds 0.

(** The value of the decimal numeral [ip.fp]. *)
Definition decimal_value (ip fp : list ascii) : Q :=
  (inject_Z (digits_value ip)
   + inject_Z (digits_value fp) / inject_Z (Fmt.pow10 (length fp)))%Q.

Definition signed (neg : bool) (q : Q) : Q := if neg then (- q)%Q else q.

Definition take_sign (minus_only : bool) (l : list ascii) : bool * list ascii :=
  match l with
  | "-"%char :: l' => (true, l')
  | "+"%char :: l' => if minus_only then (false, l) else (false, l')
  | _ => (false, l)
  end.

(** The exponent at the end of a numeral: [e] or [E], a sign, digits. *)
Definition exponent (l : list ascii) : option Z :=
  match l with
  | [] => Some 0
  | c :: l' =>
      if Ascii.eqb c "e" || Ascii.eqb c "E" then
        let '(neg, l'') := take_sign false l' in
        match span_digits l'' with
        | ((_ :: _) as ds, []) =>
            Some (if neg then - digits_value ds else digits_value ds)
        | _ => None
        end
      else None
  end.

(** [float(s)] on decimal and scientific numerals ([inf] and [nan], which
    a rational cannot hold, are left out); anything else is a [ValueError]. *)
Definition py_float (s : string) : result Q :=
  let '(neg, l) := take_sign false (PyStr.chars (PyStr.strip s)) in
  let '(ip, l1) := span_digits l in
  let '(fp, l2) :=
    match l1 with
    | "."%char :: l1' => span_digits l1'
    | _ => ([], l1)
    end in
  match ip ++ fp, exponent l2 with
  | _ :: _, Some e => Ok (signed neg (decimal_value ip fp * 10 ^ e)%Q)
  | _, _ => Raise ValueError
  end.

(** The numeral of the patterns, an optional minus, digits, an optional
    point and more digits, up to the end of the text; then
    [float(match.group(1))]. *)
Definition number (l : list ascii) : option Q :=
  let '(neg, l0) := take_sign true l in
  match span_digits l0 with
  | ((_ :: _) as ip, []) => Some (signed neg (decimal_value ip []))
  | ((_ :: _) as ip, "."%char :: l1) =>
      match span_digits l1 with
      | (fp, []) => Some (signed neg (decimal_value ip fp))
      | _ => None
      end
  | _ => None
  end.

End Parse.

Inductive operator : Set := OpGe | OpLe | OpNe | OpGt | OpLt | OpEq.

(** The table [patterns] of [parse_filter_expression]: the text of the operator,
    whether white space may follow it, and the operator it stands for. *)
Definition patterns : list (string * bool * operator) :=
  [ (">=", true, OpGe); ("<=", true, OpLe); ("!=", true, OpNe);
    (">", true, OpGt); ("<", true, OpLt); ("=", true, OpEq);
    ("", false, OpEq) ].

Definition match_pattern (expression : list ascii) (p : string * bool * operator)
  : option (operator * Q) :=
  let '(prefix, spaces, op) := p in
  match PyStr.strip_prefix (PyStr.chars prefix) expression with
  | Some rest =>
      let rest := if spaces then PyStr.lstrip_chars rest else rest in
      match Parse.number rest with
      | Some value => Some (op, value)
      | None => None
      end
  | None => None
  end.

Fixpoint first_match (expression : list ascii) (ps : list (string * bool * operator))
  : option (operator * Q) :=
  match ps with
  | [] => None
  | p :: ps' =>
      match match_pattern expression p with
      | Some r => Some r
      | None => first_match expression ps'
      end
  end.

Definition parse_filter_expression (expression : string) : option (operator * Q) :=
  if PyStr.is_blank expression then None
  else first_match (PyStr.chars (PyStr.strip expression)) patterns.

Definition parse_formatted_value (formatted_str : string) : Q :=
  match Parse.py_float formatted_str with
  | Ok v => v
  | Raise _ => 0%Q
  end.

(** ** What the interpreter and numpy provide *)

Class Runtime : Type := {
  (** [hash] on strings: fixed during one run of the interpreter. *)
  py_hash : string -> Z;
  (** [str] on a float. *)
  float_str : Q -> string;
  (** The global generator behind [np.random]: [np.random.seed], one draw of
      [np.random.random] and one draw of [np.random.normal(loc, scale)]. *)
  rng_state : Type;
  np_random_seed : Z -> rng_state;
  np_random_random : rng_state -> Q * rng_state;
  np_random_normal : Q -> Q -> rng_state -> Q * rng_state;
  np_sin : Q -> Q;
  np_cos : Q -> Q;
  np_exp : Q -> Q;
  np_log : Q -> Q;
  np_pi : Q;
  np_sqrt : Q -> Q;
  np_sqrt_nonneg : forall q : Q, (0 <= q)%Q -> (0 <= np_sqrt q)%Q
}.

(** ** The data model *)

(** The dictionary a generator returns: one series ([x], [y]) or two
    ([x], [y1], [y2]), with the texts of the plot. *)
Inductive plot_data : Type :=
| SingleLine (x y : list Q) (title xlabel ylabel : string)
| MultiLine (x y1 y2 : list Q) (title xlabel ylabel : string).

Definition plot_x (d : plot_data) : list Q :=
  match d with
  | SingleLine x _ _ _ _ => x
  | MultiLine x _ _ _ _ _ => x
  end.

Inductive line_type : Set := single_line | multi_line.

(** An entry of [range_averages['plot_averages']]. *)
Inductive plot_average : Type :=
| SingleAverage (x_range_count : nat)
    (y_average y_std y_min y_max y_median : Q) (x_range : Q * Q)
| MultiAverage (x_range_count : nat)
    (y1_average y2_average combined_average y1_std y2_std : Q) (x_range : Q * Q)
| NoPoints (type : line_type).

Definition has_error (a : plot_average) : bool :=
  match a with NoPoints _ => true | _ => false end.

(** [range_averages['overall_statistics']]. *)
Inductive overall_statistics : Type :=
| Overall (total_data_points : nat)
    (overall_average overall_std overall_min overall_max overall_median : Q)
    (range_coverage : string) (valid_plots : nat)
| OverallError.

Record range_averages : Type := {
  ra_site : string;
  ra_specimen : string;
  ra_range_up : Z;
  ra_range_down : Z;
  plot_averages : gmap string plot_average;
  overall : overall_statistics
}.

(** The attributes of a [TestData] object that never change after
    [__init__]. *)
Record TestData : Type := {
  num_plots : nat;
  num_params : nat;
  sites : list (string * list string);
  parameter_labels : list string;
  data_display_labels : list string;
  plot_titles : list string
}.

(** The catalogue written in [__init__]. *)
Definition the_sites : list (string * list string) :=
  [ ("Site A", ["Sample A1"; "Sample A2"; "Sample A3"]);
    ("Site B", ["Sample B1"; "Sample B2"]);
    ("Site C", ["Sample C1"; "Sample C2"; "Sample C3"; "Sample C4"]);
    ("Site D", ["Sample D1"; "Sample D2"]) ].

Definition default_labels : list string :=
  [ "Temperature"; "Pressure"; "Humidity"; "Voltage"; "Current";
    "Resistance"; "Frequency"; "Amplitude"; "Phase"; "Power" ].

(** [f'plot{i+1}'] *)
Definition plot_key (i : nat) : string := "plot" +:+ pretty (S i).

(** [f"{site}_{specimen}"] *)
Definition cache_key (site specimen : string) : string :=
  site +:+ "_" +:+ specimen.

(** [self.sites.get(site)] *)
Fixpoint sites_lookup (l : list (string * list string)) (site : string)
  : option (list string) :=
  match l with
  | [] => None
  | (s, specimens) :: l' =>
      if String.eqb s site then Some specimens else sites_lookup l' site
  end.

Definition parameter_label (i : nat) : string :=
  match default_labels !! i with
  | Some l => l
  | None => "Param " +:+ pretty (S i)
  end.

(** The labels [__init__] chooses. *)
Definition initial_labels (num_params : nat) (custom_param_labels : option (list string))
  : list string :=
  match custom_param_labels with
  | Some ((_ :: _) as custom) =>
      if (num_params <=? length custom)%nat then take num_params custom
      else map parameter_label (seq 0 num_params)
  | _ => map parameter_label (seq 0 num_params)
  end.

Definition make_TestData (num_plots num_params : nat)
    (custom_param_labels : option (list string)) : TestData :=
  let labels := initial_labels num_params custom_param_labels in
  {| num_plots := num_plots;
     num_params := num_params;
     sites := the_sites;
     parameter_labels := labels;
     data_display_labels := labels;
     plot_titles := map (fun i => "Plot " +:+ pretty (S i)) (seq 0 num_plots) |}.

(** ** numpy on one-dimensional arrays *)

Module Np.

(** [np.linspace(start, stop, num)] *)
Definition linspace (start stop : Q) (num : nat) : list Q :=
  let step := ((stop - start) / inject_Z (Z.of_nat (num - 1)))%Q in
  map (fun i => (start + inject_Z (Z.of_nat i) * step)%Q) (seq 0 num).

(** The reductions keep their results in lowest terms ([Qred]), which does
    not change their value: a float has one representation. *)
Definition sum (l : list Q) : Q := fold_right (fun a b => Qred (a + b)) 0%Q l.

Definition mean (l : list Q) : Q :=
  Qred (sum l / inject_Z (Z.of_nat (length l))).

Definition variance (l : list Q) : Q :=
  let m := mean l in mean (map (fun v => Qred ((v - m) * (v - m))) l).

Definition std `{Runtime} (l : list Q) : Q := np_sqrt (variance l).

Definition min (l : list Q) : Q :=
  match l with
  | [] => 0%Q
  | v :: l' => fold_left (fun a b => if Qle_bool a b then a else b) l' v
  end.

Definition max (l : list Q) : Q :=
  match l with
  | [] => 0%Q
  | v :: l' => fold_left (fun a b => if Qle_bool a b then b else a) l' v
  end.

Fixpoint insert_sorted (v : Q) (l : list Q) : list Q :=
  match l with
  | [] => [v]
  | w :: l' => if Qle_bool v w then v :: l else w :: insert_sorted v l'
  end.

Definition sort (l : list Q) : list Q := fold_right insert_sorted [] l.

(** [np.median]: the middle of the sorted values, or the mean of the two
    in the middle. *)
Definition median (l : list Q) : Q :=
  let s := sort l in
  let n := length l in
  if Nat.even n
  then ((nth (n / 2 - 1) s 0 + nth (n / 2) s 0) / 2)%Q
  else nth (n / 2) s 0%Q.

(** [(x >= range_down) & (x <= range_up)] *)
Definition range_mask (x_values : list Q) (range_down range_up : Z) : list bool :=
  map (fun v => Qle_bool (inject_Z range_down) v && Qle_bool v (inject_Z range_up))
      x_values.

(** [np.any] *)
Definition any (mask : list bool) : bool := existsb id mask.

Fixpoint select {A : Type} (values : list A) (mask : list bool) : list A :=
  match values, mask with
  | v :: values', b :: mask' =>
      if b then v :: select values' mask' else select values' mask'
  | _, _ => []
  end.

(** [values[mask]]: an [IndexError] when the mask has another length than
    the array. *)
Definition index {A : Type} (values : list A) (mask : list bool) : result (list A) :=
  if (length values =? length mask)%nat then Ok (select values mask)
  else Raise IndexError.

End Np.

(** ** The dataset generator *)

Section Generator.
Context `{RT : Runtime}.
Local Open Scope Q_scope.

(** [np.random.random(n)] *)
Fixpoint random_sample (n : nat) (g : rng_state) : list Q * rng_state :=
  match n with
  | O => ([], g)
  | S n' =>
      let '(v, g1) := np_random_random g in
      let '(l, g2) := random_sample n' g1 in
      (v :: l, g2)
  end.

(** [np.random.normal(loc, scale, n)] *)
Fixpoint normal_sample (loc scale : Q) (n : nat) (g : rng_state)
  : list Q * rng_state :=
  match n with
  | O => ([], g)
  | S n' =>
      let '(v, g1) := np_random_normal loc scale g in
      let '(l, g2) := normal_sample loc scale n' g1 in
      (v :: l, g2)
  end.

Definition plot_title (plot_num : nat) (sample_name : string) : string :=
  "Plot " +:+ pretty plot_num +:+ " - " +:+ sample_name.

(** A series [signal(x) + amplitude * noise]. *)
Definition with_noise (signal : Q -> Q) (amplitude : Q) (x noise : list Q) : list Q :=
  zip_with (fun xi ni => (signal xi + amplitude * ni)%Q) x noise.

Definition single (x y : list Q) (plot_num : nat) (sample_name : string) : plot_data :=
  SingleLine x y (plot_title plot_num sample_name) "X Values" "Y Values".

Definition num (plot_num : nat) : Q := inject_Z (Z.of_nat plot_num).

Definition _generate_sin_data (plot_num : nat) (sample_name : string) (g : rng_state)
  : plot_data * rng_state :=
  let x := Np.linspace 0 10 50 in
  let '(noise, g') := random_sample 50 g in
  let y := with_noise (fun xi => np_sin (xi + num plot_num * 0.5)) 0.1 x noise in
  (single x y plot_num sample_name, g').

Definition _generate_exp_data (plot_num : nat) (sample_name : string) (g : rng_state)
  : plot_data * rng_state :=
  let x := Np.linspace 0 5 30 in
  let '(noise, g') := random_sample 30 g in
  let y := with_noise (fun xi => np_exp (- xi * num plot_num * 0.3)) 0.05 x noise in
  (single x y plot_num sample_name, g').

Definition _generate_multi_line_data (plot_num : nat) (sample_name : string)
    (g : rng_state) : plot_data * rng_state :=
  let x := Np.linspace 0 8 40 in
  let '(noise1, g1) := random_sample 40 g in
  let y1 := with_noise (fun xi => np_cos (xi + num plot_num * 0.2)) 0.1 x noise1 in
  let '(noise2, g2) := random_sample 40 g1 in
  let y2 := with_noise (fun xi => np_sin (xi + num plot_num * 0.3)) 0.1 x noise2 in
  (MultiLine x y1 y2 (plot_title plot_num sample_name) "X Values" "Y Values", g2).

Definition _generate_polynomial_data (plot_num : nat) (sample_name : string)
    (g : rng_state) : plot_data * rng_state :=
  let x := Np.linspace 0 6 25 in
  let '(noise, g') := random_sample 25 g in
  let y := with_noise (fun xi => (xi * xi) * (0.1 * num plot_num)) 0.05 x noise in
  (single x y plot_num sample_name, g').

Definition _generate_gaussian_data (plot_num : nat) (sample_name : string)
    (g : rng_state) : plot_data * rng_state :=
  let x := Np.linspace (-5) 5 100 in
  let '(noise, g') := random_sample 100 g in
  let y := with_noise (fun xi => (1 / (1 + xi * xi)) * num plot_num * 0.5) 0.02 x noise in
  (single x y plot_num sample_name, g').

Definition _generate_log_data (plot_num : nat) (sample_name : string) (g : rng_state)
  : plot_data * rng_state :=
  let x := Np.linspace 0.1 4 35 in
  let '(noise, g') := random_sample 35 g in
  let y := with_noise (fun xi => np_log (xi + num plot_num * 0.5)) 0.1 x noise in
  (single x y plot_num sample_name, g').

Definition _generate_damped_oscillation_data (plot_num : nat) (sample_name : string)
    (g : rng_state) : plot_data * rng_state :=
  let x := Np.linspace 0 10 50 in
  let '(noise, g') := random_sample 50 g in
  let y := with_noise (fun xi => np_exp (- xi * 0.2) * np_sin (xi * num plot_num))
                      0.05 x noise in
  (single x y plot_num sample_name, g').

Definition _generate_spiral_data (plot_num : nat) (sample_name : string)
    (g : rng_state) : plot_data * rng_state :=
  let t := Np.linspace 0 (4 * np_pi) 50 in
  let x := map (fun ti => ti * np_cos (ti + num plot_num)) t in
  let '(noise, g') := random_sample 50 g in
  let y := with_noise (fun ti => ti * np_sin (ti + num plot_num)) 0.1 t noise in
  (single x y plot_num sample_name, g').

Definition _generate_noise_data (plot_num : nat) (sample_name : string)
    (g : rng_state) : plot_data * rng_state :=
  let x := Np.linspace 0 5 30 in
  let '(noise, g') := normal_sample 0 0.5 30 g in
  let y := map (fun ni => num plot_num * 0.5 + ni) noise in
  (single x y plot_num sample_name, g').

Definition _generate_step_data (plot_num : nat) (sample_name : string)
    (g : rng_state) : plot_data * rng_state :=
  let x := Np.linspace 0 10 50 in
  let '(noise, g') := random_sample 50 g in
  let y := with_noise
             (fun xi => if Qlt_bool xi 5 then num plot_num * 0.3 else num plot_num * 0.8)
             0.1 x noise in
  (single x y plot_num sample_name, g').

Definition plot_types
  : list (nat -> string -> rng_state -> plot_data * rng_state) :=
  [ _generate_sin_data; _generate_exp_data; _generate_multi_line_data;
    _generate_polynomial_data; _generate_gaussian_data; _generate_log_data;
    _generate_damped_oscillation_data; _generate_spiral_data;
    _generate_noise_data; _generate_step_data ].

(** [f"{site_name}_{specimen}_{plot_index}"] *)
Definition seed_string (plot_index : nat) (specimen site_name : string) : string :=
  site_name +:+ "_" +:+ specimen +:+ "_" +:+ pretty plot_index.

Definition plot_seed (plot_index : nat) (specimen site_name : string) : Z :=
  (Z.abs (py_hash (seed_string plot_index specimen site_name)) mod 2 ^ 32)%Z.

(** The generator is called with the global random generator in any state
    [g]; it reseeds it before it draws. *)
Definition _generate_single_plot_data (plot_index : nat) (specimen site_name : string)
    (g : rng_state) : plot_data * rng_state :=
  let g0 := np_random_seed (plot_seed plot_index specimen site_name) in
  let plot_func :=
    nth (plot_index mod length plot_types)%nat plot_types _generate_sin_data in
  plot_func (S plot_index) specimen g0.

End Generator.

(** ** The formatter *)

Section Formatter.
Context `{RT : Runtime}.

(** The body of the [try] of [format_significant_figures]. *)
Definition format_body (val : Q) (sig_figs : Z) : result string :=
  if Qeq_bool val 0 then Ok "0.0000"
  else
    let magnitude := Fmt.floor_log10 (Qabs val) in
    if (4 <=? magnitude) || (magnitude <? -2) then
      let mantissa := (val / 10 ^ magnitude)%Q in
      formatted_mantissa ← Fmt.format_f mantissa (sig_figs - 1);
      Ok (formatted_mantissa +:+ "e" +:+ Fmt.plus_d magnitude)
    else if 0 <=? magnitude then
      Fmt.format_f val (Z.max 0 (sig_figs - magnitude - 1))
    else
      Fmt.format_f val (sig_figs - magnitude - 1).

(** [except (ValueError, TypeError): return str(value)] *)
Definition format_significant_figures (value : Q) (sig_figs : Z) : string :=
  match format_body value sig_figs with
  | Ok s => s
  | Raise _ => float_str value
  end.

End Formatter.

(** ** The dataset cache *)

(** What changes while the program runs: [self.data_cache] and numpy's global
    random generator. *)
Record state `{RT : Runtime} : Type := {
  data_cache : gmap string (gmap string plot_data);
  np_random : rng_state
}.

Record cache_info : Type := {
  total_specimens : nat;
  cached_specimens : nat;
  cache_complete : bool;
  info_sites : list string;
  cached_keys : gset string
}.

Section Cache.
Context `{RT : Runtime}.

(** The loop [for i in range(self.num_plots): specimen_data[plot_key] = ...]. *)
Fixpoint generate_plots (specimen site : string) (indices : list nat)
    (specimen_data : gmap string plot_data) (g : rng_state)
  : gmap string plot_data * rng_state :=
  match indices with
  | [] => (specimen_data, g)
  | i :: rest =>
      let '(d, g1) := _generate_single_plot_data i specimen site g in
      generate_plots specimen site rest (<[plot_key i := d]> specimen_data) g1
  end.

Definition generate_specimen (self : TestData) (specimen site : string)
    (g : rng_state) : gmap string plot_data * rng_state :=
  generate_plots specimen site (seq 0 (num_plots self)) ∅ g.

Fixpoint initialize_specimens (self : TestData) (site_name : string)
    (specimens : list string) (cache : gmap string (gmap string plot_data))
    (g : rng_state) : gmap string (gmap string plot_data) * rng_state :=
  match specimens with
  | [] => (cache, g)
  | specimen :: rest =>
      let '(specimen_data, g1) := generate_specimen self specimen site_name g in
      initialize_specimens self site_name rest
        (<[cache_key site_name specimen := specimen_data]> cache) g1
  end.

Fixpoint initialize_sites (self : TestData) (catalogue : list (string * list string))
    (cache : gmap string (gmap string plot_data)) (g : rng_state)
  : gmap string (gmap string plot_data) * rng_state :=
  match catalogue with
  | [] => (cache, g)
  | (site_name, specimens) :: rest =>
      let '(cache1, g1) := initialize_specimens self site_name specimens cache g in
      initialize_sites self rest cache1 g1
  end.

Definition _initialize_all_data (self : TestData) (st : state) : state :=
  let '(cache, g) :=
    initialize_sites self (sites self) (data_cache st) (np_random_seed 42) in
  {| data_cache := cache; np_random := g |}.

Definition clear_data_cache (self : TestData) (st : state) : state :=
  _initialize_all_data self {| data_cache := ∅; np_random := np_random st |}.

(** [TestData(num_plots, num_params, custom_param_labels)], called with the
    global random generator in state [g]. *)
Definition TestData_init (num_plots num_params : nat)
    (custom_param_labels : option (list string)) (g : rng_state)
  : TestData * state :=
  let self := make_TestData num_plots num_params custom_param_labels in
  (self, _initialize_all_data self {| data_cache := ∅; np_random := g |}).

Definition get_cache_info (self : TestData) (st : state) : cache_info :=
  let total := fold_right (fun s n => (length s.2 + n)%nat) O (sites self) in
  let cached := size (data_cache st) in
  {| total_specimens := total;
     cached_specimens := cached;
     cache_complete := (cached =? total)%nat;
     info_sites := map fst (sites self);
     cached_keys := dom (data_cache st) |}.

Definition generate_specimen_data_for_data_box (self : TestData)
    (site specimen : string) (st : state) : gmap string plot_data * state :=
  let key := cache_key site specimen in
  match data_cache st !! key with
  | Some specimen_data => (specimen_data, st)
  | None =>
      let '(specimen_data, g) := generate_specimen self specimen site (np_random st) in
      (specimen_data,
       {| data_cache := <[key := specimen_data]> (data_cache st); np_random := g |})
  end.

(** The site [generate_plot_data] finds for a sample: the first one of the
    catalogue that has it. *)
Fixpoint find_site (catalogue : list (string * list string)) (sample_name : string)
  : option string :=
  match catalogue with
  | [] => None
  | (site, specimens) :: rest =>
      if existsb (String.eqb sample_name) specimens then Some site
      else find_site rest sample_name
  end.

(** [generate_plot_data]: [None] stands for the empty dictionary that
    [.get(plot_key, {})] returns for a plot the cached data do not have. *)
Definition generate_plot_data (self : TestData) (plot_index : nat)
    (sample_name : string) (st : state) : option plot_data * state :=
  let fallback (site_name : string) :=
    let '(d, g) :=
      _generate_single_plot_data plot_index sample_name site_name (np_random st) in
    (Some d, {| data_cache := data_cache st; np_random := g |}) in
  match find_site (sites self) sample_name with
  | None => fallback "Unknown"
  | Some site_name =>
      match data_cache st !! cache_key site_name sample_name with
      | Some specimen_data => (specimen_data !! plot_key plot_index, st)
      | None => fallback site_name
      end
  end.

Definition generate_specimen_data_full_range (self : TestData)
    (site specimen : string) (st : state) : gmap string plot_data * state :=
  generate_specimen_data_for_data_box self site specimen st.

Definition generate_specimen_data (self : TestData)
    (site specimen : string) (st : state) : gmap string plot_data * state :=
  generate_specimen_data_full_range self site specimen st.

End Cache.

(** ** The range aggregator *)

Section Aggregator.
Context `{RT : Runtime}.

(** One turn of the loop over the plots: the entry of the plot and the
    values it adds to [all_y_values]. *)
Definition aggregate_plot (data : plot_data) (range_up range_down : Z)
  : result (plot_average * list Q) :=
  let x_values := plot_x data in
  let range_mask := Np.range_mask x_values range_down range_up in
  match data with
  | MultiLine _ y1_values y2_values _ _ _ =>
      if Np.any range_mask then
        y1_range ← Np.index y1_values range_mask;
        y2_range ← Np.index y2_values range_mask;
        x_range ← Np.index x_values range_mask;
        Ok (MultiAverage (length x_range)
              (Np.mean y1_range) (Np.mean y2_range)
              (Np.mean (y1_range ++ y2_range))
              (Np.std y1_range) (Np.std y2_range)
              (Np.min x_range, Np.max x_range),
            y1_range ++ y2_range)
      else Ok (NoPoints multi_line, [])
  | SingleLine _ y_values _ _ _ =>
      if Np.any range_mask then
        y_range ← Np.index y_values range_mask;
        x_range ← Np.index x_values range_mask;
        Ok (SingleAverage (length x_range)
              (Np.mean y_range) (Np.std y_range)
              (Np.min y_range) (Np.max y_range) (Np.median y_range)
              (Np.min x_range, Np.max x_range),
            y_range)
      else Ok (NoPoints single_line, [])
  end.

Fixpoint aggregate_plots (specimen_data : gmap string plot_data)
    (range_up range_down : Z) (indices : list nat)
    (averages : gmap string plot_average) (all_y_values : list Q)
  : result (gmap string plot_average * list Q) :=
  match indices with
  | [] => Ok (averages, all_y_values)
  | i :: rest =>
      match specimen_data !! plot_key i with
      | Some data =>
          '(entry, ys) ← aggregate_plot data range_up range_down;
          aggregate_plots specimen_data range_up range_down rest
            (<[plot_key i := entry]> averages) (all_y_values ++ ys)
      | None =>
          aggregate_plots specimen_data range_up range_down rest
            averages all_y_values
      end
  end.

Definition valid_plots_of (averages : gmap string plot_average) : nat :=
  length (List.filter (fun kv => negb (has_error kv.2)) (map_to_list averages)).

Definition overall_of (averages : gmap string plot_average) (all_y_values : list Q)
    (range_up range_down : Z) : overall_statistics :=
  match all_y_values with
  | [] => OverallError
  | _ :: _ =>
      Overall (length all_y_values)
        (Np.mean all_y_values) (Np.std all_y_values)
        (Np.min all_y_values) (Np.max all_y_values) (Np.median all_y_values)
        (pretty range_down +:+ " to " +:+ pretty range_up)
        (valid_plots_of averages)
  end.

(** [calculate_range_based_averages] once the specimen's data are at hand. *)
Definition range_averages_of (self : TestData) (specimen_data : gmap string plot_data)
    (site specimen : string) (range_up range_down : Z) : result range_averages :=
  '(averages, all_y_values) ←
    aggregate_plots specimen_data range_up range_down
      (seq 0 (num_plots self)) ∅ [];
  Ok {| ra_site := site;
        ra_specimen := specimen;
        ra_range_up := range_up;
        ra_range_down := range_down;
        plot_averages := averages;
        overall := overall_of averages all_y_values range_up range_down |}.

Definition calculate_range_based_averages (self : TestData) (site specimen : string)
    (range_up range_down : Z) (st : state) : result range_averages * state :=
  let '(specimen_data, st') :=
    generate_specimen_data_for_data_box self site specimen st in
  (range_averages_of self specimen_data site specimen range_up range_down, st').

(** ** The parameter summary builder *)

(** The text shown for the parameter [i]. *)
Definition summary_value (self : TestData) (ra : range_averages) (i : nat) : string :=
  let plot_index := i in
  if (plot_index <? num_plots self)%nat then
    match plot_averages ra !! plot_key plot_index with
    | Some (MultiAverage _ _ _ combined_average _ _ _) =>
        format_significant_figures combined_average 5
    | Some (SingleAverage _ y_average _ _ _ _ _) =>
        format_significant_figures y_average 5
    | Some (NoPoints _) | None => "N/A"
    end
  else "N/A".

Fixpoint summary_loop (self : TestData) (ra : range_averages) (indices : list nat)
    (summary : gmap string string) : result (gmap string string) :=
  match indices with
  | [] => Ok summary
  | i :: rest =>
      match data_display_labels self !! i with
      | Some label =>
          summary_loop self ra rest (<[label := summary_value self ra i]> summary)
      | None => Raise IndexError
      end
  end.

Definition get_range_based_specimen_summary (self : TestData) (site specimen : string)
    (range_up range_down : Z) (st : state) : result (gmap string string) * state :=
  let '(r, st') :=
    calculate_range_based_averages self site specimen range_up range_down st in
  (ra ← r; summary_loop self ra (seq 0 (num_params self)) ∅, st').

End Aggregator.

(** ** The condition evaluator *)

Section Evaluator.
Context `{RT : Runtime}.

(** The decision of [check_parameter_condition_independently] once the text
    shown for the parameter and the parsed condition are known. *)
Definition decide_condition (specimen_value_str : string) (op : operator)
    (threshold : Q) : bool :=
  if String.eqb specimen_value_str "N/A" || String.eqb specimen_value_str ""
  then true
  else
    match op with
    | OpEq =>
        let threshold_formatted := format_significant_figures threshold 5 in
        String.eqb (PyStr.strip specimen_value_str) (PyStr.strip threshold_formatted)
    | _ =>
        let specimen_value := parse_formatted_value specimen_value_str in
        let threshold_value := threshold in
        match op with
        | OpGt => Qlt_bool threshold_value specimen_value
        | OpGe => Qle_bool threshold_value specimen_value
        | OpLt => Qlt_bool specimen_value threshold_value
        | OpLe => Qle_bool specimen_value threshold_value
        | _ =>
            let threshold_formatted :=
              format_significant_figures threshold_value 5 in
            negb (String.eqb (PyStr.strip specimen_value_str)
                             (PyStr.strip threshold_formatted))
        end
    end.

Definition check_parameter_condition_independently (self : TestData)
    (site specimen : string) (parameter_index : Z) (condition_str : string)
    (range_up range_down : Z) (st : state) : result bool * state :=
  if (parameter_index <? 0)
     || (Z.of_nat (length (parameter_labels self)) <=? parameter_index)
  then (Ok true, st)
  else
    match parameter_labels self !! Z.to_nat parameter_index with
    | None => (Raise IndexError, st)
    | Some param_label =>
        if PyStr.is_blank condition_str then (Ok true, st)
        else
          let '(r, st') :=
            get_range_based_specimen_summary self site specimen
              range_up range_down st in
          (specimen_summary ← r;
           let specimen_value_str := default "0" (specimen_summary !! param_label) in
           match parse_filter_expression condition_str with
           | None => Ok true
           | Some (op, threshold) =>
               Ok (decide_condition specimen_value_str op threshold)
           end,
           st')
    end.

End Evaluator.

(** ** The site statistics aggregator *)

(** An entry of [selected_items]: a text, a dictionary with a site and a
    specimen, or anything else. *)
Inductive selected_item : Type :=
| ItemStr (s : string)
| ItemDict (site specimen : string)
| ItemOther.

Record parameter_stat : Type := {
  stat_mean : Q;
  stat_std : Q;
  upper_1sigma : Q;
  lower_1sigma : Q;
  stat_count : nat
}.

Record site_plot_data : Type := {
  spd_site : string;
  spd_specimens : list string;
  spd_range_up : Z;
  spd_range_down : Z;
  spd_plot_averages : list (string * list Q);
  parameter_stats : list parameter_stat;
  specimen_count : nat
}.

(** An entry of [plot_data['sites_data']]. *)
Record site_entry : Type := {
  se_specimens : list (string * list Q);
  site_stats : list parameter_stat;
  site_averages : list Q;
  se_specimen_count : nat
}.

(** The result of [generate_all_sites_plot_data]; [sites_data] lists the
    entries in the order the dictionary got them, and an empty [global_stats]
    stands for the empty dictionary. *)
Record all_sites_plot_data : Type := {
  asp_range_up : Z;
  asp_range_down : Z;
  sites_data : list (string * site_entry);
  global_stats : list parameter_stat
}.

Section SiteStatistics.
Context `{RT : Runtime}.

(** The text between a site and a specimen in a selected item. *)
Definition item_separator : string := " → ".

(** The specimens the selection names for [site_name]. *)
Definition selected_specimen (site_name : string) (item : selected_item)
  : list string :=
  match item with
  | ItemStr s =>
      if PyStr.contains item_separator s then
        match PyStr.split item_separator s with
        | [item_site; item_specimen] =>
            if String.eqb (PyStr.strip item_site) site_name
            then [PyStr.strip item_specimen] else []
        | _ => []
        end
      else []
  | ItemDict site specimen =>
      if String.eqb site site_name then [specimen] else []
  | ItemOther => []
  end.

(** The numbers of one specimen: a value for every label below [num_params]. *)
Definition specimen_values (self : TestData) (specimen_summary : gmap string string)
  : list Q :=
  flat_map
    (fun '(i, label) =>
       if (i <? num_params self)%nat then
         let value_str := default "N/A" (specimen_summary !! label) in
         if negb (String.eqb value_str "N/A")
         then [parse_formatted_value value_str]
         else [0%Q]
       else [])
    (imap (fun i label => (i, label)) (data_display_labels self)).

(** The loop over [site_specimens]: [specimen_data_list] and
    [all_specimen_values]. *)
Fixpoint collect_specimens (self : TestData) (site_name : string)
    (site_specimens : list string) (range_up range_down : Z)
    (specimen_data_list : list (string * list Q))
    (all_specimen_values : list (list Q)) (st : state)
  : result (list (string * list Q) * list (list Q)) * state :=
  match site_specimens with
  | [] => (Ok (specimen_data_list, all_specimen_values), st)
  | specimen :: rest =>
      let '(r, st') :=
        get_range_based_specimen_summary self site_name specimen
          range_up range_down st in
      match r with
      | Raise e => (Raise e, st')
      | Ok specimen_summary =>
          let values := specimen_values self specimen_summary in
          collect_specimens self site_name rest range_up range_down
            (specimen_data_list ++ [(specimen, values)])
            (match values with
             | [] => all_specimen_values
             | _ :: _ => all_specimen_values ++ [values]
             end)
            st'
      end
  end.

Definition parameter_stat_of (all_specimen_values : list (list Q)) (param_idx : nat)
  : parameter_stat :=
  let param_values :=
    flat_map (fun specimen_values =>
                match specimen_values !! param_idx with
                | Some v => [v]
                | None => []
                end) all_specimen_values in
  match param_values with
  | _ :: _ =>
      let mean_val := Np.mean param_values in
      let std_val := Np.std param_values in
      {| stat_mean := mean_val;
         stat_std := std_val;
         upper_1sigma := (mean_val + std_val)%Q;
         lower_1sigma := (mean_val - std_val)%Q;
         stat_count := length param_values |}
  | [] =>
      {| stat_mean := 0; stat_std := 0; upper_1sigma := 0; lower_1sigma := 0;
         stat_count := 0 |}
  end.

Definition parameter_stats_of (self : TestData) (all_specimen_values : list (list Q))
  : list parameter_stat :=
  match all_specimen_values with
  | [] => []
  | first :: _ =>
      let max_params := Nat.min (num_params self) (length first) in
      map (parameter_stat_of all_specimen_values) (seq 0 max_params)
  end.

(** [None] stands for the empty dictionary the function returns when there
    is nothing to show. *)
Definition generate_single_site_plot_data (self : TestData) (site_name : string)
    (selected_items : list selected_item) (range_up range_down : Z) (st : state)
  : result (option site_plot_data) * state :=
  if String.eqb site_name "" || String.eqb site_name "Select a site..."
  then (Ok None, st)
  else
    let selected := flat_map (selected_specimen site_name) selected_items in
    let site_specimens :=
      match selected with
      | _ :: _ => Some selected
      | [] => sites_lookup (sites self) site_name
      end in
    match site_specimens with
    | None => (Ok None, st)
    | Some site_specimens =>
        let '(r, st') :=
          collect_specimens self site_name site_specimens range_up range_down
            [] [] st in
        ('(specimen_data_list, all_specimen_values) ← r;
         Ok (Some {| spd_site := site_name;
                     spd_specimens := site_specimens;
                     spd_range_up := range_up;
                     spd_range_down := range_down;
                     spd_plot_averages := specimen_data_list;
                     parameter_stats :=
                       parameter_stats_of self all_specimen_values;
                     specimen_count := length site_specimens |}),
         st')
    end.

(** [sites_specimens[site].append(specimen)], with a new list for a new site:
    the sites stay in the order they came first. *)
Fixpoint group_add (site specimen : string) (groups : list (string * list string))
  : list (string * list string) :=
  match groups with
  | [] => [(site, [specimen])]
  | (s, l) :: rest =>
      if String.eqb s site then (s, l ++ [specimen]) :: rest
      else (s, l) :: group_add site specimen rest
  end.

Definition group_item (groups : list (string * list string)) (item : selected_item)
  : list (string * list string) :=
  match item with
  | ItemStr s =>
      if PyStr.contains item_separator s then
        match PyStr.split item_separator s with
        | [item_site; item_specimen] =>
            group_add (PyStr.strip item_site) (PyStr.strip item_specimen) groups
        | _ => groups
        end
      else groups
  | ItemDict site specimen =>
      if negb (String.eqb site "") && negb (String.eqb specimen "")
      then group_add site specimen groups else groups
  | ItemOther => groups
  end.

Definition group_selection (selected_items : list selected_item)
  : list (string * list string) :=
  fold_left group_item selected_items [].

(** The loop over the sites: [plot_data['sites_data']] and
    [all_site_averages]. *)
Fixpoint collect_sites (self : TestData) (sites_specimens : list (string * list string))
    (range_up range_down : Z) (entries : list (string * site_entry))
    (all_site_averages : list (list Q)) (st : state)
  : result (list (string * site_entry) * list (list Q)) * state :=
  match sites_specimens with
  | [] => (Ok (entries, all_site_averages), st)
  | (site_name, specimens) :: rest =>
      let '(r, st') :=
        collect_specimens self site_name specimens range_up range_down [] [] st in
      match r with
      | Raise e => (Raise e, st')
      | Ok (site_data, site_specimen_values) =>
          let stats := parameter_stats_of self site_specimen_values in
          let averages := map stat_mean stats in
          collect_sites self rest range_up range_down
            (entries ++ [(site_name,
                          {| se_specimens := site_data;
                             site_stats := stats;
                             site_averages := averages;
                             se_specimen_count := length specimens |})])
            (match averages with
             | [] => all_site_averages
             | _ :: _ => all_site_averages ++ [averages]
             end)
            st'
      end
  end.

Definition generate_all_sites_plot_data (self : TestData)
    (selected_items : list selected_item) (range_up range_down : Z) (st : state)
  : result all_sites_plot_data * state :=
  let sites_specimens :=
    match group_selection selected_items with
    | [] => sites self
    | (_ :: _) as groups => groups
    end in
  let '(r, st') :=
    collect_sites self sites_specimens range_up range_down [] [] st in
  ('(entries, all_site_averages) ← r;
   Ok {| asp_range_up := range_up;
         asp_range_down := range_down;
         sites_data := entries;
         global_stats := parameter_stats_of self all_site_averages |},
   st').

End SiteStatistics.

(** ** A runtime to run the model on

    The generator is a linear congruential one and the transcendental
    functions are rational stand-ins: enough to evaluate the definitions
    above on concrete inputs. *)

Module Reference.

Definition hash (s : string) : Z :=
  fold_left (fun h c => (31 * h + Z.of_nat (nat_of_ascii c)) mod 2 ^ 61 - 2 ^ 60)
            (PyStr.chars s) 7.

Definition next (g : Z) : Z := (1103515245 * g + 12345) mod 2 ^ 31.

(** A rational cut to a multiple of [1/1024]. *)
Definition grid (q : Q) : Q := Qred (Qfloor (q * 1024) # 1024).

Definition random (g : Z) : Q * Z := (grid (next g # 2147483648), next g).

Definition normal (loc scale : Q) (g : Z) : Q * Z :=
  (grid (loc + scale * ((next g # 1073741824) - 1)), next g).

Definition sqrt (q : Q) : Q :=
  Z.sqrt (Qnum q * Zpos (Qden q) * 10 ^ 12) # (Qden q * 1000000).

Definition sqrt_nonneg (q : Q) (H : (0 <= q)%Q) : (0 <= sqrt q)%Q :=
  eq_ind_r (fun z => (0 <= z)%Z) (Z.sqrt_nonneg _) (Z.mul_1_r _).

#[local] Instance runtime : Runtime := {|
  py_hash := hash;
  float_str := fun q => pretty (Qnum q) +:+ "/" +:+ pretty (Zpos (Qden q));
  rng_state := Z;
  np_random_seed := fun seed => seed;
  np_random_random := random;
  np_random_normal := normal;
  np_sin := fun x => grid (x / (1 + x * x));
  np_cos := fun x => grid (1 / (1 + x * x));
  np_exp := fun x => grid (1 / (1 + x * x));
  np_log := fun x => grid (x - 1);
  np_pi := 3.141592653589793%Q;
  np_sqrt := sqrt;
  np_sqrt_nonneg := sqrt_nonneg
|}.

End Reference.

(** [TestData()] with its default arguments on the reference runtime, the
    random generator being in state [0] when it is called. *)
Definition default_app : TestData * @state Reference.runtime :=
  @TestData_init Reference.runtime 8 5 None 0%Z.

(** * Verification *)

(** ** Well-formed data

    An array of x values goes with arrays of y values of the same length, and
    a specimen's data hold a plot for every index below [num_plots]. *)

Definition plot_data_ok (d : plot_data) : Prop :=
  match d with
  | SingleLine x y _ _ _ => length y = length x
  | MultiLine x y1 y2 _ _ _ => length y1 = length x /\ length y2 = length x
  end.

Definition specimen_data_ok (n : nat) (specimen_data : gmap string plot_data) : Prop :=
  forall i, (i < n)%nat ->
    exists d, specimen_data !! plot_key i = Some d /\ plot_data_ok d.

Definition cache_ok `{RT : Runtime} (self : TestData) (st : state) : Prop :=
  forall key specimen_data,
    data_cache st !! key = Some specimen_data ->
    specimen_data_ok (num_plots self) specimen_data.

(** The labels are as [__init__] leaves them: one for every parameter, no
    label twice. *)
Definition labels_ok (self : TestData) : Prop :=
  length (data_display_labels self) = num_params self
  /\ parameter_labels self = data_display_labels self
  /\ NoDup (data_display_labels self).

(** The x values of a series that lie in the window. *)
Definition in_window (range_down range_up : Z) (v : Q) : bool :=
  Qle_bool (inject_Z range_down) v && Qle_bool v (inject_Z range_up).

Definition points_in_window (d : plot_data) (range_down range_up : Z) : nat :=
  length (List.filter (in_window range_down range_up) (plot_x d)).

Definition line_type_of (d : plot_data) : line_type :=
  match d with SingleLine _ _ _ _ _ => single_line | MultiLine _ _ _ _ _ _ => multi_line end.

(** The y values of a series whose x value lies in the window. *)
Definition y_in_window (d : plot_data) (range_down range_up : Z) : list Q :=
  let keep (ys : list Q) :=
    map snd (List.filter (fun p => in_window range_down range_up p.1)
                         (zip (plot_x d) ys)) in
  match d with
  | SingleLine _ y _ _ _ => keep y
  | MultiLine _ y1 y2 _ _ _ => keep y1 ++ keep y2
  end.

(** The digits of a formatted number that carry its precision: those of the
    mantissa, from the first one that is not zero. *)
Fixpoint drop_zeros (l : list ascii) : list ascii :=
  match l with
  | "0"%char :: l' => drop_zeros l'
  | _ => l
  end.

Fixpoint mantissa_chars (l : list ascii) : list ascii :=
  match l with
  | [] => []
  | c :: l' => if Ascii.eqb c "e" then [] else c :: mantissa_chars l'
  end.

Definition significant_digits (s : string) : nat :=
  length (drop_zeros (List.filter PyStr.is_digit (mantissa_chars (PyStr.chars s)))).

(** ** Vocabulary of the statements *)

Section Vocabulary.
Context `{RT : Runtime}.

(** The keys [_initialize_all_data] writes. *)
Definition catalogue_keys (catalogue : list (string * list string)) : list string :=
  flat_map (fun '(site, specimens) => map (cache_key site) specimens) catalogue.

(** The mean an entry shows: of [y], or of [y1] and [y2] together. *)
Definition shown_mean (e : plot_average) : option Q :=
  match e with
  | SingleAverage _ y_average _ _ _ _ _ => Some y_average
  | MultiAverage _ _ _ combined_average _ _ _ => Some combined_average
  | NoPoints _ => None
  end.

(** No array of the plots below [n] has another length than its x values. *)
Definition plots_ok (n : nat) (specimen_data : gmap string plot_data) : Prop :=
  forall i d, (i < n)%nat -> specimen_data !! plot_key i = Some d -> plot_data_ok d.

(** What the plot [i] adds to [all_y_values]. *)
Definition pooled_of (specimen_data : gmap string plot_data)
    (range_down range_up : Z) (i : nat) : list Q :=
  match specimen_data !! plot_key i with
  | Some d => y_in_window d range_down range_up
  | None => []
  end.

Definition labels_at (self : TestData) (indices : list nat) : list string :=
  flat_map (fun i => match data_display_labels self !! i with
                     | Some label => [label]
                     | None => []
                     end) indices.

(** The number a summary gives for a label. *)
Definition value_of (summary : gmap string string) (label : string) : Q :=
  match summary !! label with
  | Some shown => if String.eqb shown "N/A" then 0%Q else parse_formatted_value shown
  | None => 0%Q
  end.

(** A row of [specimen_data_list] is made from a summary of its specimen. *)
Definition row_ok (self : TestData) (site_name : string) (range_up range_down : Z)
    (row : string * list Q) : Prop :=
  exists st summary,
    cache_ok self st
    /\ (get_range_based_specimen_summary self site_name row.1
          range_up range_down st).1 = Ok summary
    /\ row.2 = specimen_values self summary.

(** The text the summary shows for parameter [i], read off the data of the
    specimen. *)
Definition shown_text (self : TestData) (specimen_data : gmap string plot_data)
    (range_down range_up : Z) (i : nat) : string :=
  if (i <? num_plots self)%nat then
    match specimen_data !! plot_key i with
    | Some d =>
        if (points_in_window d range_down range_up =? 0)%nat then "N/A"
        else format_significant_figures
               (Np.mean (y_in_window d range_down range_up)) 5
    | None => "N/A"
    end
  else "N/A".

(** An entry of [sites_data] for a site and the specimens chosen for it. *)
Definition site_entry_ok (self : TestData) (specimens : list string)
    (entry : site_entry) : Prop :=
  se_specimen_count entry = length specimens
  /\ map fst (se_specimens entry) = specimens
  /\ site_averages entry = map stat_mean (site_stats entry)
  /\ Forall (fun s => (0 <= stat_std s)%Q /\ stat_count s = length specimens)
            (site_stats entry)
  /\ (length (site_stats entry) = num_params self \/ site_stats entry = [])
  /\ (specimens <> [] -> num_params self <> O ->
      length (site_stats entry) = num_params self).

(** The sites [generate_all_sites_plot_data] works on: those of the
    selection, or the whole catalogue when the selection names none. *)
Definition chosen_sites (self : TestData) (selected_items : list selected_item)
  : list (string * list string) :=
  match group_selection selected_items with
  | [] => sites self
  | (_ :: _) as groups => groups
  end.

Definition has_averages (e : string * site_entry) : bool :=
  negb (Nat.eqb (length (site_averages e.2)) 0).

(** The text of an operator of the filter language, and [k] blanks. *)
Definition operator_text (op : operator) : string :=
  match op with
  | OpGe => ">=" | OpLe => "<=" | OpNe => "!="
  | OpGt => ">" | OpLt => "<" | OpEq => "="
  end.

Definition blanks (k : nat) : string := PyStr.of_chars (repeat " "%char k).

(** The characters of a numeral: a sign, the digits before the point, the
    point and the digits behind it when there are any, and an exponent. *)
Definition numeral_chars (neg : bool) (ip fp etail : list ascii) : list ascii :=
  (if neg then ["-"%char] else [])
  ++ ip ++ match fp with [] => [] | _ :: _ => "."%char :: fp end ++ etail.


(** The title of a plot. *)
Definition title_of (d : plot_data) : string :=
  match d with
  | SingleLine _ _ title _ _ => title
  | MultiLine _ _ _ title _ _ => title
  end.

(** What the ten kinds of plot fix, in the order of [plot_types]: the number
    of points, and the interval of the x values (the spiral has none that
    does not depend on [np.cos]). *)
Definition points_of_kind : list nat :=
  [50; 30; 40; 25; 100; 35; 50; 50; 30; 50]%nat.

Definition x_interval_of_kind : list (option (Q * Q)) :=
  [Some (0, 10); Some (0, 5); Some (0, 8); Some (0, 6); Some (-5, 5);
   Some (0.1, 4); Some (0, 10); None; Some (0, 5); Some (0, 10)]%Q.

Definition within (interval : option (Q * Q)) (v : Q) : Prop :=
  match interval with
  | Some (lo, hi) => (lo <= v)%Q /\ (v <= hi)%Q
  | None => True
  end.


(** The number of series of a plot. *)
Definition series_of (d : plot_data) : nat :=
  match d with SingleLine _ _ _ _ _ => 1 | MultiLine _ _ _ _ _ _ => 2 end.

(** What the plot [i] adds to the number of pooled values, and the plots
    among the first [n] that have a point in the window. *)
Definition pooled_points (specimen_data : gmap string plot_data)
    (range_down range_up : Z) (i : nat) : nat :=
  match specimen_data !! plot_key i with
  | Some d => series_of d * points_in_window d range_down range_up
  | None => 0
  end.

Definition plots_in_window (specimen_data : gmap string plot_data)
    (range_down range_up : Z) (n : nat) : list nat :=
  List.filter
    (fun i => match specimen_data !! plot_key i with
              | Some d => negb (points_in_window d range_down range_up =? 0)%nat
              | None => false
              end)
    (seq 0 n).

End Vocabulary.

Section Proofs.
Context `{RT : Runtime}.

(** *** Lengths of generated arrays *)

Lemma linspace_length start stop n : length (Np.linspace start stop n) = n.
Proof. unfold Np.linspace. by rewrite length_map, length_seq. Qed.

Lemma random_sample_length n g : length (random_sample n g).1 = n.
Proof.
  revert g. induction n as [|n IH]; intros g; simpl; [done|].
  destruct (np_random_random g) as [v g1].
  specialize (IH g1). destruct (random_sample n g1) as [l g2].
  simpl in *. by rewrite IH.
Qed.

Lemma normal_sample_length loc scale n g :
  length (normal_sample loc scale n g).1 = n.
Proof.
  revert g. induction n as [|n IH]; intros g; simpl; [done|].
  destruct (np_random_normal loc scale g) as [v g1].
  specialize (IH g1). destruct (normal_sample loc scale n g1) as [l g2].
  simpl in *. by rewrite IH.
Qed.

Lemma with_noise_length signal amplitude x noise :
  length noise = length x ->
  length (with_noise signal amplitude x noise) = length x.
Proof. intros H. unfold with_noise. rewrite length_zip_with. lia. Qed.

Ltac sample_ok n g :=
  let H := fresh "Hlen" in
  pose proof (random_sample_length n g) as H;
  destruct (random_sample n g) as [? ?];
  cbn [fst snd] in H; cbn [fst snd single plot_data_ok].

Lemma generator_sin_ok p s g : plot_data_ok (_generate_sin_data p s g).1.
Proof.
  unfold _generate_sin_data. sample_ok 50%nat g.
  apply with_noise_length. by rewrite linspace_length.
Qed.

Lemma generator_exp_ok p s g : plot_data_ok (_generate_exp_data p s g).1.
Proof.
  unfold _generate_exp_data. sample_ok 30%nat g.
  apply with_noise_length. by rewrite linspace_length.
Qed.

Lemma generator_multi_line_ok p s g : plot_data_ok (_generate_multi_line_data p s g).1.
Proof.
  unfold _generate_multi_line_data. sample_ok 40%nat g.
  match goal with |- context [random_sample 40 ?g1] => sample_ok 40%nat g1 end.
  split; apply with_noise_length; by rewrite linspace_length.
Qed.

Lemma generator_polynomial_ok p s g : plot_data_ok (_generate_polynomial_data p s g).1.
Proof.
  unfold _generate_polynomial_data. sample_ok 25%nat g.
  apply with_noise_length. by rewrite linspace_length.
Qed.

Lemma generator_gaussian_ok p s g : plot_data_ok (_generate_gaussian_data p s g).1.
Proof.
  unfold _generate_gaussian_data. sample_ok 100%nat g.
  apply with_noise_length. by rewrite linspace_length.
Qed.

Lemma generator_log_ok p s g : plot_data_ok (_generate_log_data p s g).1.
Proof.
  unfold _generate_log_data. sample_ok 35%nat g.
  apply with_noise_length. by rewrite linspace_length.
Qed.

Lemma generator_damped_ok p s g :
  plot_data_ok (_generate_damped_oscillation_data p s g).1.
Proof.
  unfold _generate_damped_oscillation_data. sample_ok 50%nat g.
  apply with_noise_length. by rewrite linspace_length.
Qed.

Lemma generator_spiral_ok p s g : plot_data_ok (_generate_spiral_data p s g).1.
Proof.
  unfold _generate_spiral_data. sample_ok 50%nat g.
  rewrite length_map. apply with_noise_length. by rewrite linspace_length.
Qed.

Lemma generator_noise_ok p s g : plot_data_ok (_generate_noise_data p s g).1.
Proof.
  unfold _generate_noise_data.
  pose proof (normal_sample_length 0 0.5 30 g) as Hlen.
  destruct (normal_sample 0 0.5 30 g) as [? ?].
  cbn [fst snd] in Hlen; cbn [fst snd single plot_data_ok].
  by rewrite length_map, linspace_length.
Qed.

Lemma generator_step_ok p s g : plot_data_ok (_generate_step_data p s g).1.
Proof.
  unfold _generate_step_data. sample_ok 50%nat g.
  apply with_noise_length. by rewrite linspace_length.
Qed.

Lemma plot_types_ok f p s g :
  In f plot_types -> plot_data_ok (f p s g).1.
Proof.
  unfold plot_types. simpl.
  intros [<-|[<-|[<-|[<-|[<-|[<-|[<-|[<-|[<-|[<-|[]]]]]]]]]]];
    auto using generator_sin_ok, generator_exp_ok, generator_multi_line_ok,
      generator_polynomial_ok, generator_gaussian_ok, generator_log_ok,
      generator_damped_ok, generator_spiral_ok, generator_noise_ok,
      generator_step_ok.
Qed.

Lemma generate_single_plot_data_ok i specimen site g :
  plot_data_ok (_generate_single_plot_data i specimen site g).1.
Proof.
  unfold _generate_single_plot_data. cbv zeta.
  apply plot_types_ok.
  destruct (nth_in_or_default (i mod length plot_types) plot_types
              _generate_sin_data) as [H| ->]; [done|].
  simpl. by left.
Qed.

(** *** The generated data of a specimen *)

Lemma plot_key_inj i j : plot_key i = plot_key j -> i = j.
Proof.
  unfold plot_key. intros H. simpl in H.
  injection H as H. apply pretty_nat_inj in H. lia.
Qed.

Lemma generate_plots_other specimen site indices sd g key :
  (forall i, In i indices -> plot_key i <> key) ->
  (generate_plots specimen site indices sd g).1 !! key = sd !! key.
Proof.
  revert sd g. induction indices as [|i rest IH]; intros sd g Hne; simpl; [done|].
  destruct (_generate_single_plot_data i specimen site g) as [d g1].
  rewrite IH by (intros j Hj; apply Hne; by right).
  apply lookup_insert_ne, Hne. by left.
Qed.

Lemma generate_plots_lookup specimen site indices sd g i :
  NoDup indices -> In i indices ->
  (generate_plots specimen site indices sd g).1 !! plot_key i
  = Some (_generate_single_plot_data i specimen site g).1.
Proof.
  revert sd g. induction indices as [|j rest IH]; intros sd g Hnd Hin; [done|].
  apply NoDup_cons in Hnd as [Hj Hnd]. simpl.
  destruct (_generate_single_plot_data j specimen site g) as [d g1] eqn:Hd.
  destruct Hin as [->|Hin].
  - rewrite generate_plots_other.
    + rewrite lookup_insert_eq. unfold _generate_single_plot_data in *.
      by rewrite Hd.
    + intros k Hk Heq. apply plot_key_inj in Heq as ->.
      apply Hj. by apply list_elem_of_In.
  - by rewrite (IH _ g1 Hnd Hin).
Qed.

Lemma generate_plots_state_free specimen site indices sd g g' :
  (generate_plots specimen site indices sd g).1
  = (generate_plots specimen site indices sd g').1.
Proof.
  revert sd g g'. induction indices as [|i rest IH]; intros sd g g'; [done|].
  simpl. unfold _generate_single_plot_data. cbv zeta.
  destruct (nth _ _ _ _ _ _) as [d g1]. apply IH.
Qed.

Lemma generate_specimen_ok self specimen site g :
  specimen_data_ok (num_plots self) (generate_specimen self specimen site g).1.
Proof.
  intros i Hi. eexists. split.
  - unfold generate_specimen. apply generate_plots_lookup.
    + apply NoDup_ListNoDup, seq_NoDup.
    + apply in_seq. lia.
  - apply generate_single_plot_data_ok.
Qed.

(** *** The cache *)

Lemma initialize_specimens_ok self site specimens cache g :
  (forall key sd, cache !! key = Some sd -> specimen_data_ok (num_plots self) sd) ->
  forall key sd,
    (initialize_specimens self site specimens cache g).1 !! key = Some sd ->
    specimen_data_ok (num_plots self) sd.
Proof.
  revert cache g. induction specimens as [|sp rest IH]; intros cache g Hc; [done|].
  simpl. pose proof (generate_specimen_ok self sp site g) as Hok.
  destruct (generate_specimen self sp site g) as [d g1]. apply IH.
  intros key sd. rewrite lookup_insert. case_decide; [|by apply Hc].
  by intros [= <-].
Qed.

Lemma initialize_sites_ok self catalogue cache g :
  (forall key sd, cache !! key = Some sd -> specimen_data_ok (num_plots self) sd) ->
  forall key sd,
    (initialize_sites self catalogue cache g).1 !! key = Some sd ->
    specimen_data_ok (num_plots self) sd.
Proof.
  revert cache g. induction catalogue as [|[site specimens] rest IH];
    intros cache g Hc; [done|].
  simpl. pose proof (initialize_specimens_ok self site specimens cache g Hc) as H.
  destruct (initialize_specimens self site specimens cache g) as [c1 g1].
  by apply IH.
Qed.

Lemma initialize_all_data_ok self st :
  cache_ok self st -> cache_ok self (_initialize_all_data self st).
Proof.
  intros H. unfold _initialize_all_data, cache_ok.
  pose proof (initialize_sites_ok self (sites self) (data_cache st)
                (np_random_seed 42) H) as Hi.
  by destruct (initialize_sites _ _ _ _).
Qed.

Lemma empty_cache_ok self g :
  cache_ok self {| data_cache := ∅; np_random := g |}.
Proof. intros key sd. simpl. by rewrite lookup_empty. Qed.

Lemma clear_data_cache_ok self st : cache_ok self (clear_data_cache self st).
Proof. apply initialize_all_data_ok, empty_cache_ok. Qed.

Lemma TestData_init_ok num_plots num_params custom g :
  cache_ok (TestData_init num_plots num_params custom g).1
           (TestData_init num_plots num_params custom g).2.
Proof. apply initialize_all_data_ok, empty_cache_ok. Qed.

Lemma data_box_ok self site specimen st :
  cache_ok self st ->
  specimen_data_ok (num_plots self)
    (generate_specimen_data_for_data_box self site specimen st).1
  /\ cache_ok self (generate_specimen_data_for_data_box self site specimen st).2.
Proof.
  intros Hc. unfold generate_specimen_data_for_data_box.
  destruct (data_cache st !! cache_key site specimen) as [sd|] eqn:Hk.
  - split; [by eapply Hc|done].
  - pose proof (generate_specimen_ok self specimen site (np_random st)) as Hok.
    destruct (generate_specimen self specimen site (np_random st)) as [sd g].
    split; [done|]. intros key sd'. simpl. rewrite lookup_insert.
    case_decide; [by intros [= <-]|by apply Hc].
Qed.

Lemma initialize_specimens_dom self site specimens cache g :
  dom (initialize_specimens self site specimens cache g).1
  = dom cache ∪ list_to_set (map (cache_key site) specimens).
Proof.
  revert cache g. induction specimens as [|sp rest IH]; intros cache g; simpl.
  - set_solver.
  - destruct (generate_specimen self sp site g) as [d g1].
    rewrite IH, dom_insert_L. set_solver.
Qed.

Lemma initialize_sites_dom self catalogue cache g :
  dom (initialize_sites self catalogue cache g).1
  = dom cache ∪ list_to_set (catalogue_keys catalogue).
Proof.
  revert cache g. induction catalogue as [|[site specimens] rest IH];
    intros cache g; simpl.
  - set_solver.
  - pose proof (initialize_specimens_dom self site specimens cache g) as H.
    destruct (initialize_specimens self site specimens cache g) as [c1 g1].
    simpl in H. rewrite IH, H, list_to_set_app_L. set_solver.
Qed.

Lemma catalogue_keys_length catalogue :
  length (catalogue_keys catalogue)
  = fold_right (fun s n => (length s.2 + n)%nat) O catalogue.
Proof.
  induction catalogue as [|[site specimens] rest IH]; [done|].
  simpl. by rewrite length_app, length_map, IH.
Qed.

Lemma initialize_from_empty_size self g :
  NoDup (catalogue_keys (sites self)) ->
  size (data_cache (_initialize_all_data self {| data_cache := ∅; np_random := g |}))
  = fold_right (fun s n => (length s.2 + n)%nat) O (sites self).
Proof.
  intros Hnd. unfold _initialize_all_data. simpl.
  pose proof (initialize_sites_dom self (sites self) ∅ (np_random_seed 42)) as H.
  destruct (initialize_sites self (sites self) ∅ (np_random_seed 42)) as [c g1].
  simpl in *. rewrite <- size_dom, H, dom_empty_L, (left_id_L ∅ (∪)).
  rewrite size_list_to_set by done. apply catalogue_keys_length.
Qed.

(** *** Masks and the values they keep *)

Lemma range_mask_in_window xs range_down range_up :
  Np.range_mask xs range_down range_up = map (in_window range_down range_up) xs.
Proof. done. Qed.

Lemma any_map_false {A} (f : A -> bool) (xs : list A) :
  Np.any (map f xs) = false <-> List.filter f xs = [].
Proof.
  unfold Np.any. induction xs as [|x xs IH]; simpl; [done|].
  unfold id at 1. destruct (f x); simpl; [split; discriminate|done].
Qed.

Lemma any_mask_points d range_down range_up :
  Np.any (Np.range_mask (plot_x d) range_down range_up) = false
  <-> points_in_window d range_down range_up = O.
Proof.
  rewrite range_mask_in_window, any_map_false. unfold points_in_window.
  split; [by intros ->|]. by destruct (List.filter _ _).
Qed.

Lemma select_mask {A} (f : Q -> bool) (xs : list Q) (ys : list A) :
  Np.select ys (map f xs) = map snd (List.filter (fun p => f p.1) (zip xs ys)).
Proof.
  revert ys. induction xs as [|x xs IH]; intros [|y ys]; simpl; try done.
  destruct (f x); simpl; by rewrite IH.
Qed.

Lemma select_none {A} (f : Q -> bool) (xs : list Q) (ys : list A) :
  List.filter f xs = [] -> Np.select ys (map f xs) = [].
Proof.
  revert ys. induction xs as [|x xs IH]; intros [|y ys]; simpl; try done.
  destruct (f x); [discriminate|]. apply IH.
Qed.

Lemma index_ok {A} (ys : list A) (mask : list bool) :
  length ys = length mask -> Np.index ys mask = Ok (Np.select ys mask).
Proof. intros H. unfold Np.index. by rewrite H, Nat.eqb_refl. Qed.

Lemma index_mismatch {A} (ys : list A) (mask : list bool) :
  length ys <> length mask -> Np.index ys mask = Raise IndexError.
Proof.
  intros H. unfold Np.index. by apply Nat.eqb_neq in H as ->.
Qed.

Lemma y_in_window_none d range_down range_up :
  points_in_window d range_down range_up = O ->
  y_in_window d range_down range_up = [].
Proof.
  unfold points_in_window. intros H.
  assert (Hf : List.filter (in_window range_down range_up) (plot_x d) = [])
    by by destruct (List.filter _ _).
  unfold y_in_window.
  destruct d; simpl in *; rewrite <- !select_mask, !select_none; done.
Qed.

(** *** One plot *)

Lemma aggregate_plot_ok d range_up range_down :
  plot_data_ok d ->
  exists e,
    aggregate_plot d range_up range_down
    = Ok (e, y_in_window d range_down range_up)
    /\ (points_in_window d range_down range_up = O ->
        e = NoPoints (line_type_of d))
    /\ (points_in_window d range_down range_up <> O ->
        shown_mean e = Some (Np.mean (y_in_window d range_down range_up))).
Proof.
  intros Hok. unfold aggregate_plot. cbv zeta.
  destruct (Np.any _) eqn:Hany.
  - assert (Hp : points_in_window d range_down range_up <> O).
    { intros H. apply any_mask_points in H. congruence. }
    destruct d as [x y ? ? ?|x y1 y2 ? ? ?]; simpl in Hok |- *.
    + rewrite !index_ok by (by rewrite ?range_mask_in_window, length_map).
      simpl. eexists. unfold y_in_window. simpl.
      rewrite range_mask_in_window, !select_mask. split; [done|]. split; done.
    + destruct Hok as [H1 H2].
      rewrite !index_ok by (by rewrite ?range_mask_in_window, length_map).
      simpl. eexists. unfold y_in_window. simpl.
      rewrite range_mask_in_window, !select_mask. split; [done|]. split; done.
  - apply any_mask_points in Hany.
    rewrite (y_in_window_none _ _ _ Hany).
    destruct d; eexists; (split; [done|]); split; done.
Qed.

(** *** All plots of a specimen *)

Lemma specimen_data_ok_plots n sd : specimen_data_ok n sd -> plots_ok n sd.
Proof.
  intros H i d Hi Hd. destruct (H i Hi) as (d' & Hd' & Hok). congruence.
Qed.

Lemma aggregate_plots_spec sd range_up range_down indices averages ys :
  NoDup indices ->
  (forall i d, In i indices -> sd !! plot_key i = Some d -> plot_data_ok d) ->
  exists averages',
    aggregate_plots sd range_up range_down indices averages ys
    = Ok (averages', ys ++ flat_map (pooled_of sd range_down range_up) indices)
    /\ (forall i d, In i indices -> sd !! plot_key i = Some d ->
        exists e ys_i,
          aggregate_plot d range_up range_down = Ok (e, ys_i)
          /\ averages' !! plot_key i = Some e)
    /\ (forall i, In i indices -> sd !! plot_key i = None ->
        averages' !! plot_key i = averages !! plot_key i)
    /\ (forall key, (forall i, In i indices -> plot_key i <> key) ->
        averages' !! key = averages !! key).
Proof.
  revert averages ys. induction indices as [|i rest IH]; intros averages ys Hnd Hok.
  - exists averages. simpl. rewrite app_nil_r. repeat split; done.
  - apply NoDup_cons in Hnd as [Hi Hnd]. simpl.
    assert (Hrest : forall j, In j rest -> plot_key j <> plot_key i).
    { intros j Hj Heq. apply plot_key_inj in Heq as ->.
      apply Hi. by apply list_elem_of_In. }
    unfold pooled_of at 1.
    destruct (sd !! plot_key i) as [d|] eqn:Hd.
    + destruct (aggregate_plot_ok d range_up range_down) as (e & He & _).
      { apply (Hok i); [by left|done]. }
      rewrite He. simpl.
      destruct (IH (<[plot_key i := e]> averages)
                   (ys ++ y_in_window d range_down range_up) Hnd)
        as (averages' & Hrun & Hin & Hnone & Hother).
      { intros j dj Hj. apply Hok. by right. }
      exists averages'. rewrite Hrun, <- app_assoc. split; [done|].
      split; [|split].
      * intros j dj [<-|Hj] Hdj.
        -- rewrite Hd in Hdj. injection Hdj as <-. exists e. eexists.
           split; [done|]. rewrite Hother by done. apply lookup_insert_eq.
        -- by apply Hin.
      * intros j [<-|Hj] Hdj; [congruence|].
        rewrite Hnone by done. apply lookup_insert_ne. intros Heq.
        by apply (Hrest j).
      * intros key Hkey. rewrite Hother by (intros j Hj; apply Hkey; by right).
        apply lookup_insert_ne, Hkey. by left.
    + destruct (IH averages ys Hnd) as (averages' & Hrun & Hin & Hnone & Hother).
      { intros j dj Hj. apply Hok. by right. }
      exists averages'. rewrite Hrun. split; [done|]. split; [|split].
      * intros j dj [<-|Hj] Hdj; [congruence|]. by apply Hin.
      * intros j [<-|Hj] Hdj; [|by apply Hnone].
        apply Hother. intros k Hk. by apply Hrest.
      * intros key Hkey. apply Hother. intros j Hj. apply Hkey. by right.
Qed.

Lemma range_averages_of_spec self sd site specimen range_up range_down :
  plots_ok (num_plots self) sd ->
  exists ra,
    range_averages_of self sd site specimen range_up range_down = Ok ra
    /\ overall ra
       = overall_of (plot_averages ra)
           (flat_map (pooled_of sd range_down range_up) (seq 0 (num_plots self)))
           range_up range_down
    /\ (forall i d, (i < num_plots self)%nat -> sd !! plot_key i = Some d ->
        exists e ys_i,
          aggregate_plot d range_up range_down = Ok (e, ys_i)
          /\ plot_averages ra !! plot_key i = Some e)
    /\ (forall i, (i < num_plots self)%nat -> sd !! plot_key i = None ->
        plot_averages ra !! plot_key i = None).
Proof.
  intros Hok. unfold range_averages_of.
  destruct (aggregate_plots_spec sd range_up range_down
              (seq 0 (num_plots self)) ∅ [])
    as (averages & Hrun & Hin & Hnone & _).
  { apply NoDup_ListNoDup, seq_NoDup. }
  { intros i d Hi. apply Hok. apply in_seq in Hi. lia. }
  rewrite Hrun. simpl. eexists. split; [done|]. simpl. split; [done|].
  split.
  - intros i d Hi. apply Hin, in_seq. lia.
  - intros i Hi Hd. rewrite Hnone; [apply lookup_empty| |done].
    apply in_seq. lia.
Qed.

(** *** The range aggregator *)

Lemma calculate_spec self site specimen range_up range_down st :
  cache_ok self st ->
  let sd := (generate_specimen_data_for_data_box self site specimen st).1 in
  exists ra,
    (calculate_range_based_averages self site specimen range_up range_down st).1
    = Ok ra
    /\ overall ra
       = overall_of (plot_averages ra)
           (flat_map (pooled_of sd range_down range_up) (seq 0 (num_plots self)))
           range_up range_down
    /\ (forall i, (i < num_plots self)%nat ->
        exists d e ys_i,
          sd !! plot_key i = Some d
          /\ plot_data_ok d
          /\ aggregate_plot d range_up range_down = Ok (e, ys_i)
          /\ plot_averages ra !! plot_key i = Some e).
Proof.
  intros Hc sd. unfold calculate_range_based_averages.
  destruct (data_box_ok self site specimen st Hc) as [Hsd _].
  fold sd in Hsd.
  destruct (generate_specimen_data_for_data_box self site specimen st)
    as [sd' st'] eqn:Hbox.
  simpl in sd. subst sd. simpl.
  destruct (range_averages_of_spec self sd' site specimen range_up range_down)
    as (ra & Hra & Hov & Hin & _).
  { by apply specimen_data_ok_plots. }
  exists ra. split; [done|]. split; [done|].
  intros i Hi. destruct (Hsd i Hi) as (d & Hd & Hok).
  destruct (Hin i d Hi Hd) as (e & ys_i & He & Hl).
  by exists d, e, ys_i.
Qed.

Lemma flat_map_nil {A B} (f : A -> list B) (l : list A) :
  (forall a, In a l -> f a = []) -> flat_map f l = [].
Proof.
  induction l as [|a l IH]; intros H; simpl; [done|].
  rewrite (H a) by (by left). apply IH. intros b Hb. apply H. by right.
Qed.

Lemma flat_map_ext_in {A B} (f g : A -> list B) (l : list A) :
  (forall a, In a l -> f a = g a) -> flat_map f l = flat_map g l.
Proof.
  induction l as [|a l IH]; intros H; simpl; [done|].
  rewrite (H a) by (by left). f_equal. apply IH. intros b Hb. apply H. by right.
Qed.

(** C3: a plot with no x value in the window gets the error entry and adds
    nothing to the pooled values of the overall statistics; when no plot has
    a point in the window the overall statistics are the error entry; and
    the aggregator returns, it does not raise. *)
Theorem empty_window_is_an_error_entry self site specimen range_up range_down st :
  cache_ok self st ->
  let sd := (generate_specimen_data_for_data_box self site specimen st).1 in
  let pooled :=
    flat_map
      (fun i =>
         match sd !! plot_key i with
         | Some d =>
             if (points_in_window d range_down range_up =? 0)%nat then []
             else y_in_window d range_down range_up
         | None => []
         end)
      (seq 0 (num_plots self)) in
  exists ra,
    (calculate_range_based_averages self site specimen range_up range_down st).1
    = Ok ra
    /\ (forall i d, (i < num_plots self)%nat -> sd !! plot_key i = Some d ->
        points_in_window d range_down range_up = O ->
        plot_averages ra !! plot_key i = Some (NoPoints (line_type_of d)))
    /\ overall ra = overall_of (plot_averages ra) pooled range_up range_down
    /\ ((forall i d, (i < num_plots self)%nat -> sd !! plot_key i = Some d ->
         points_in_window d range_down range_up = O) ->
        overall ra = OverallError).
Proof.
  intros Hc sd pooled.
  destruct (calculate_spec self site specimen range_up range_down st Hc)
    as (ra & Hra & Hov & Hin).
  fold sd in Hov, Hin.
  assert (Hpooled :
    flat_map (pooled_of sd range_down range_up) (seq 0 (num_plots self)) = pooled).
  { apply flat_map_ext_in. intros i _. unfold pooled_of.
    destruct (sd !! plot_key i) as [d|]; [|done].
    destruct (Nat.eqb_spec (points_in_window d range_down range_up) 0); [|done].
    by apply y_in_window_none. }
  exists ra. split; [done|]. split; [|split].
  - intros i d Hi Hd Hp.
    destruct (Hin i Hi) as (d' & e & ys_i & Hd' & Hok & He & Hl).
    rewrite Hd in Hd'. injection Hd' as <-.
    destruct (aggregate_plot_ok d range_up range_down Hok) as (e' & He' & Hnone & _).
    rewrite He in He'. injection He' as <- _. rewrite Hl. f_equal. by apply Hnone.
  - by rewrite Hov, Hpooled.
  - intros Hall. rewrite Hov.
    rewrite flat_map_nil; [done|].
    intros i Hi. apply in_seq in Hi. unfold pooled_of.
    destruct (sd !! plot_key i) as [d|] eqn:Hd; [|done].
    apply y_in_window_none. apply (Hall i); [lia|done].
Qed.

Lemma in_window_reversed range_down range_up v :
  range_up < range_down -> in_window range_down range_up v = false.
Proof.
  intros H. unfold in_window. apply andb_false_iff.
  destruct (Qle_bool (inject_Z range_down) v) eqn:H1; [right|by left].
  destruct (Qle_bool v (inject_Z range_up)) eqn:H2; [|done].
  apply Qle_bool_iff in H1, H2.
  pose proof (Qle_trans _ _ _ H1 H2) as H3.
  rewrite <- Zle_Qle in H3. lia.
Qed.

Lemma points_in_window_reversed d range_down range_up :
  range_up < range_down -> points_in_window d range_down range_up = O.
Proof.
  intros H. unfold points_in_window.
  induction (plot_x d) as [|v l IH]; simpl; [done|].
  by rewrite in_window_reversed.
Qed.

(** C7: with [range_down > range_up] no x value is in the window: every
    plot of the specimen gets the error entry and the overall statistics are
    the error entry. *)
Theorem reversed_window_is_empty self site specimen range_up range_down st :
  cache_ok self st ->
  range_up < range_down ->
  exists ra,
    (calculate_range_based_averages self site specimen range_up range_down st).1
    = Ok ra
    /\ (forall i, (i < num_plots self)%nat ->
        exists type, plot_averages ra !! plot_key i = Some (NoPoints type))
    /\ overall ra = OverallError.
Proof.
  intros Hc Hrev.
  destruct (calculate_spec self site specimen range_up range_down st Hc)
    as (ra & Hra & Hov & Hin).
  exists ra. split; [done|]. split.
  - intros i Hi.
    destruct (Hin i Hi) as (d & e & ys_i & Hd & Hok & He & Hl).
    destruct (aggregate_plot_ok d range_up range_down Hok) as (e' & He' & Hnone & _).
    rewrite He in He'. injection He' as <- _.
    exists (line_type_of d). rewrite Hl. f_equal.
    by apply Hnone, points_in_window_reversed.
  - rewrite Hov, flat_map_nil; [done|].
    intros i _. unfold pooled_of. destruct (_ !! _); [|done].
    by apply y_in_window_none, points_in_window_reversed.
Qed.

(** *** The summary builder *)

Lemma labels_at_cons self i rest label :
  data_display_labels self !! i = Some label ->
  labels_at self (i :: rest) = label :: labels_at self rest.
Proof. intros H. unfold labels_at. simpl. by rewrite H. Qed.

Lemma labels_at_seq self n :
  (n <= length (data_display_labels self))%nat ->
  labels_at self (seq 0 n) = take n (data_display_labels self).
Proof.
  unfold labels_at. induction n as [|n IH]; intros Hn; [done|].
  rewrite seq_S, flat_map_app, IH by lia. simpl.
  destruct (lookup_lt_is_Some_2 (data_display_labels self) n) as [label Hl]; [lia|].
  rewrite Hl, (take_S_r _ _ _ Hl). done.
Qed.

Lemma summary_loop_other self ra indices summary summary' label :
  summary_loop self ra indices summary = Ok summary' ->
  label ∉ labels_at self indices ->
  summary' !! label = summary !! label.
Proof.
  revert summary. induction indices as [|k rest IH]; intros summary Hs Hn.
  - simpl in Hs. by injection Hs as <-.
  - simpl in Hs.
    destruct (data_display_labels self !! k) as [lk|] eqn:Hk; [|done].
    rewrite (labels_at_cons _ _ _ _ Hk) in Hn.
    rewrite (IH _ Hs) by set_solver.
    apply lookup_insert_ne. set_solver.
Qed.

Lemma summary_loop_spec self ra indices summary :
  NoDup (data_display_labels self) ->
  NoDup indices ->
  (forall i, In i indices -> (i < length (data_display_labels self))%nat) ->
  exists summary',
    summary_loop self ra indices summary = Ok summary'
    /\ (forall i label, In i indices -> data_display_labels self !! i = Some label ->
        summary' !! label = Some (summary_value self ra i))
    /\ dom summary' = dom summary ∪ list_to_set (labels_at self indices).
Proof.
  intros Hlabels. revert summary.
  induction indices as [|i rest IH]; intros summary Hnd Hlt.
  - exists summary. split; [done|]. split; [done|]. set_solver.
  - apply NoDup_cons in Hnd as [Hi Hnd]. cbn [summary_loop].
    destruct (lookup_lt_is_Some_2 (data_display_labels self) i) as [label Hl].
    { apply Hlt. by left. }
    rewrite Hl.
    destruct (IH (<[label := summary_value self ra i]> summary) Hnd)
      as (summary' & Hrun & Hin & Hdom).
    { intros j Hj. apply Hlt. by right. }
    exists summary'. split; [done|]. split.
    + intros j label' [<-|Hj] Hl'; [|by apply Hin].
      rewrite Hl in Hl'. injection Hl' as <-.
      rewrite (summary_loop_other _ _ _ _ _ _ Hrun); [apply lookup_insert_eq|].
      unfold labels_at. intros Hel. apply list_elem_of_In, in_flat_map in Hel.
      destruct Hel as (j & Hj & Hlj).
      destruct (data_display_labels self !! j) as [lj|] eqn:Hj'; [|done].
      destruct Hlj as [->|[]].
      pose proof (NoDup_lookup _ i j label Hlabels Hl Hj') as ->.
      apply Hi. by apply list_elem_of_In.
    + rewrite Hdom, dom_insert_L, (labels_at_cons _ _ _ _ Hl). set_solver.
Qed.

Lemma summary_spec self site specimen range_up range_down st ra :
  labels_ok self ->
  (calculate_range_based_averages self site specimen range_up range_down st).1
  = Ok ra ->
  exists summary,
    (get_range_based_specimen_summary self site specimen range_up range_down st).1
    = Ok summary
    /\ size summary = num_params self
    /\ (forall i label, data_display_labels self !! i = Some label ->
        summary !! label = Some (summary_value self ra i)).
Proof.
  intros (Hlen & _ & Hnd) Hra. unfold get_range_based_specimen_summary.
  destruct (calculate_range_based_averages _ _ _ _ _ _) as [r st'].
  simpl in Hra. subst r. simpl.
  destruct (summary_loop_spec self ra (seq 0 (num_params self)) ∅ Hnd)
    as (summary & Hrun & Hin & Hdom).
  { apply NoDup_ListNoDup, seq_NoDup. }
  { intros i Hi. apply in_seq in Hi. lia. }
  exists summary. split; [done|]. split.
  - rewrite <- size_dom, Hdom, dom_empty_L, (left_id_L ∅ (∪)).
    rewrite labels_at_seq by lia.
    rewrite <- Hlen, firstn_all, size_list_to_set by done. done.
  - intros i label Hl. apply Hin; [|done].
    apply in_seq. apply lookup_lt_Some in Hl. lia.
Qed.

Lemma summary_state self site specimen range_up range_down st :
  (get_range_based_specimen_summary self site specimen range_up range_down st).2
  = (generate_specimen_data_for_data_box self site specimen st).2.
Proof.
  unfold get_range_based_specimen_summary, calculate_range_based_averages.
  by destruct (generate_specimen_data_for_data_box self site specimen st).
Qed.

Lemma calculate_state self site specimen range_up range_down st :
  (calculate_range_based_averages self site specimen range_up range_down st).2
  = (generate_specimen_data_for_data_box self site specimen st).2.
Proof.
  unfold calculate_range_based_averages.
  by destruct (generate_specimen_data_for_data_box self site specimen st).
Qed.


(** *** The formatter never returns the empty text for 5 figures *)

Lemma of_chars_nil l : PyStr.of_chars l = "" -> l = [].
Proof. by destruct l. Qed.

Lemma of_chars_app l1 l2 :
  PyStr.of_chars (l1 ++ l2) = PyStr.of_chars l1 +:+ PyStr.of_chars l2.
Proof. induction l1 as [|c l1 IH]; simpl; [done|]. by rewrite IH. Qed.

Lemma fixed_nonempty v n : Fmt.fixed v (S n) <> "".
Proof.
  unfold Fmt.fixed. cbv zeta. intros H. apply of_chars_nil in H.
  apply app_eq_nil in H as [_ H]. apply app_eq_nil in H as [_ H]. done.
Qed.

Lemma format_f_positive v prec :
  0 < prec -> exists n, Fmt.format_f v prec = Ok (Fmt.fixed v (S n)).
Proof.
  intros H. unfold Fmt.format_f.
  destruct (Z.ltb_spec prec 0); [lia|].
  exists (Z.to_nat (prec - 1)). do 2 f_equal. lia.
Qed.

Lemma append_nonempty_l s t : s <> "" -> s +:+ t <> "".
Proof. by destruct s. Qed.

Lemma format_5_nonempty v : format_significant_figures v 5 <> "".
Proof.
  unfold format_significant_figures, format_body.
  destruct (Qeq_bool v 0); [done|]. cbv zeta.
  set (m := Fmt.floor_log10 (Qabs v)).
  destruct ((4 <=? m) || (m <? -2)) eqn:Hsci.
  - destruct (format_f_positive (v / 10 ^ m)%Q (5 - 1)) as [n ->]; [lia|].
    simpl. apply append_nonempty_l, fixed_nonempty.
  - apply orb_false_iff in Hsci as [H1 H2].
    apply Z.leb_gt in H1. apply Z.ltb_ge in H2.
    destruct (0 <=? m).
    + destruct (format_f_positive v (Z.max 0 (5 - m - 1))) as [n ->]; [lia|].
      apply fixed_nonempty.
    + destruct (format_f_positive v (5 - m - 1)) as [n ->]; [lia|].
      apply fixed_nonempty.
Qed.

Lemma summary_value_nonempty self ra i : summary_value self ra i <> "".
Proof.
  unfold summary_value. cbv zeta. destruct (_ <? _)%nat; [|done].
  destruct (plot_averages ra !! plot_key i) as [[]|];
    try done; apply format_5_nonempty.
Qed.

(** *** The condition evaluator *)

Lemma parse_some_not_blank condition_str r :
  parse_filter_expression condition_str = Some r ->
  PyStr.is_blank condition_str = false.
Proof.
  unfold parse_filter_expression. by destruct (PyStr.is_blank condition_str).
Qed.

Lemma check_out_of_bounds self site specimen parameter_index condition_str
    range_up range_down st :
  parameter_index < 0
  \/ Z.of_nat (length (parameter_labels self)) <= parameter_index ->
  check_parameter_condition_independently self site specimen parameter_index
    condition_str range_up range_down st = (Ok true, st).
Proof.
  intros H. unfold check_parameter_condition_independently.
  assert ((parameter_index <? 0)
          || (Z.of_nat (length (parameter_labels self)) <=? parameter_index)
          = true) as ->; [|done].
  apply orb_true_iff.
  destruct H; [left; by apply Z.ltb_lt|right; by apply Z.leb_le].
Qed.

Lemma check_in_bounds self site specimen parameter_index condition_str
    range_up range_down st :
  0 <= parameter_index < Z.of_nat (length (parameter_labels self)) ->
  exists label,
    parameter_labels self !! Z.to_nat parameter_index = Some label
    /\ check_parameter_condition_independently self site specimen parameter_index
         condition_str range_up range_down st
       = if PyStr.is_blank condition_str then (Ok true, st)
         else
           let '(r, st') :=
             get_range_based_specimen_summary self site specimen
               range_up range_down st in
           (specimen_summary ← r;
            match parse_filter_expression condition_str with
            | None => Ok true
            | Some (op, threshold) =>
                Ok (decide_condition
                      (default "0" (specimen_summary !! label)) op threshold)
            end, st').
Proof.
  intros H. unfold check_parameter_condition_independently.
  assert ((parameter_index <? 0)
          || (Z.of_nat (length (parameter_labels self)) <=? parameter_index)
          = false) as ->.
  { apply orb_false_iff. split; [apply Z.ltb_ge|apply Z.leb_gt]; lia. }
  destruct (lookup_lt_is_Some_2 (parameter_labels self) (Z.to_nat parameter_index))
    as [label Hl]; [lia|].
  exists label. by rewrite Hl.
Qed.

Lemma summary_ok self site specimen range_up range_down st :
  cache_ok self st -> labels_ok self ->
  exists ra summary,
    (calculate_range_based_averages self site specimen range_up range_down st).1
    = Ok ra
    /\ (get_range_based_specimen_summary self site specimen range_up range_down st).1
       = Ok summary
    /\ size summary = num_params self
    /\ (forall i label, data_display_labels self !! i = Some label ->
        summary !! label = Some (summary_value self ra i)).
Proof.
  intros Hc Hl.
  destruct (calculate_spec self site specimen range_up range_down st Hc)
    as (ra & Hra & _).
  destruct (summary_spec self site specimen range_up range_down st ra Hl Hra)
    as (summary & Hs).
  by exists ra, summary.
Qed.



(** *** What the readers do to the cache *)

Lemma data_box_hit self site specimen st sd :
  data_cache st !! cache_key site specimen = Some sd ->
  generate_specimen_data_for_data_box self site specimen st = (sd, st).
Proof. intros H. unfold generate_specimen_data_for_data_box. by rewrite H. Qed.

Lemma data_box_miss self site specimen st :
  data_cache st !! cache_key site specimen = None ->
  data_cache (generate_specimen_data_for_data_box self site specimen st).2
  = <[cache_key site specimen :=
        (generate_specimen self specimen site (np_random st)).1]> (data_cache st).
Proof.
  intros H. unfold generate_specimen_data_for_data_box. rewrite H.
  by destruct (generate_specimen self specimen site (np_random st)).
Qed.

Lemma check_state self site specimen parameter_index condition_str
    range_up range_down st :
  (check_parameter_condition_independently self site specimen parameter_index
     condition_str range_up range_down st).2
  = if (parameter_index <? 0)
       || (Z.of_nat (length (parameter_labels self)) <=? parameter_index)
       || PyStr.is_blank condition_str
    then st
    else (generate_specimen_data_for_data_box self site specimen st).2.
Proof.
  destruct ((parameter_index <? 0)
            || (Z.of_nat (length (parameter_labels self)) <=? parameter_index))
    eqn:Hb.
  - rewrite check_out_of_bounds; [done|].
    apply orb_true_iff in Hb as [H|H]; [left; by apply Z.ltb_lt|right; by apply Z.leb_le].
  - apply orb_false_iff in Hb as [H1 H2].
    apply Z.ltb_ge in H1. apply Z.leb_gt in H2.
    destruct (check_in_bounds self site specimen parameter_index condition_str
                range_up range_down st) as (label & _ & ->); [lia|].
    simpl. destruct (PyStr.is_blank condition_str); [done|].
    rewrite <- (summary_state self site specimen range_up range_down st).
    by destruct (get_range_based_specimen_summary _ _ _ _ _ _).
Qed.


(** *** Completeness of the cache *)

Lemma the_sites_keys_NoDup : NoDup (catalogue_keys the_sites).
Proof. apply (bool_decide_unpack (NoDup (catalogue_keys the_sites))). by vm_compute. Qed.

(** C8: after [__init__], and after every [clear_data_cache], the cache
    holds one entry for each specimen of the catalogue: [get_cache_info]
    reports as many cached specimens as there are specimens, and that the
    cache is complete. *)
Theorem cache_is_complete num_plots num_params custom_param_labels g :
  let self := (TestData_init num_plots num_params custom_param_labels g).1 in
  let st0 := (TestData_init num_plots num_params custom_param_labels g).2 in
  (cached_specimens (get_cache_info self st0)
   = total_specimens (get_cache_info self st0)
   /\ cache_complete (get_cache_info self st0) = true)
  /\ (forall st,
      cached_specimens (get_cache_info self (clear_data_cache self st))
      = total_specimens (get_cache_info self (clear_data_cache self st))
      /\ cache_complete (get_cache_info self (clear_data_cache self st)) = true).
Proof.
  intros self st0.
  assert (H : forall g', let st := _initialize_all_data self
                                     {| data_cache := ∅; np_random := g' |} in
            cached_specimens (get_cache_info self st)
            = total_specimens (get_cache_info self st)
            /\ cache_complete (get_cache_info self st) = true).
  { intros g' st. unfold get_cache_info. simpl.
    subst st. rewrite (initialize_from_empty_size self g').
    - split; [done|]. apply Nat.eqb_refl.
    - apply the_sites_keys_NoDup. }
  split; [apply H|]. intros st. apply H.
Qed.

(** *** Determinism of the generator *)

Lemma plot_seed_range plot_index specimen site :
  0 <= plot_seed plot_index specimen site < 2 ^ 32.
Proof. unfold plot_seed. apply Z.mod_pos_bound. lia. Qed.


(** *** Means and standard deviations *)

Lemma sum_nonneg l : Forall (fun v => (0 <= v)%Q) l -> (0 <= Np.sum l)%Q.
Proof.
  induction 1 as [|v l Hv _ IH]; simpl; [done|].
  rewrite Qred_correct. replace 0%Q with (0 + 0)%Q by done.
  by apply Qplus_le_compat.
Qed.

Lemma mean_nonneg l : Forall (fun v => (0 <= v)%Q) l -> (0 <= Np.mean l)%Q.
Proof.
  intros H. unfold Np.mean. rewrite Qred_correct. unfold Qdiv.
  apply Qmult_le_0_compat; [by apply sum_nonneg|].
  apply Qinv_le_0_compat. replace 0%Q with (inject_Z 0) by done.
  rewrite <- Zle_Qle. lia.
Qed.

Lemma square_nonneg (a : Q) : (0 <= a * a)%Q.
Proof. unfold Qle. simpl. nia. Qed.

Lemma variance_nonneg l : (0 <= Np.variance l)%Q.
Proof.
  unfold Np.variance. cbv zeta. apply mean_nonneg.
  apply Forall_forall. intros v Hv. apply list_elem_of_In, in_map_iff in Hv.
  destruct Hv as (w & <- & _). rewrite Qred_correct. apply square_nonneg.
Qed.

Lemma std_nonneg l : (0 <= Np.std l)%Q.
Proof. unfold Np.std. apply np_sqrt_nonneg, variance_nonneg. Qed.

(** *** The values of a specimen *)

Lemma flat_map_imap_below (self : TestData) (summary : gmap string string)
    (labels : list string) (k : nat) :
  (k + length labels <= num_params self)%nat ->
  flat_map
    (fun '(i, label) =>
       if (i <? num_params self)%nat then
         let value_str := default "N/A" (summary !! label) in
         if negb (String.eqb value_str "N/A")
         then [parse_formatted_value value_str]
         else [0%Q]
       else [])
    (imap (fun i label => ((k + i)%nat, label)) labels)
  = map (value_of summary) labels.
Proof.
  revert k. induction labels as [|label labels IH]; intros k Hk; [done|].
  simpl in Hk. cbn [imap flat_map map].
  assert (k + 0 <? num_params self = true)%nat as -> by (apply Nat.ltb_lt; lia).
  assert (forall a b (l1 l2 : list Q), a = [b] -> l1 = l2 -> a ++ l1 = b :: l2)
    as Happ by (by intros a b l1 l2 -> ->).
  apply Happ.
  - unfold value_of. destruct (summary !! label) as [shown|]; simpl; [|done].
    by destruct (String.eqb shown "N/A").
  - rewrite <- (IH (S k)) by lia. f_equal. apply imap_ext.
    intros i x _. simpl. f_equal. lia.
Qed.

Lemma specimen_values_map self summary :
  length (data_display_labels self) = num_params self ->
  specimen_values self summary = map (value_of summary) (data_display_labels self).
Proof.
  intros H. unfold specimen_values.
  rewrite <- (flat_map_imap_below self summary _ 0) by (simpl; lia). done.
Qed.

Lemma specimen_values_length self summary :
  length (data_display_labels self) = num_params self ->
  length (specimen_values self summary) = num_params self.
Proof. intros H. by rewrite specimen_values_map, length_map. Qed.

(** *** The loop over the specimens of a site *)

Lemma summary_keeps_cache_ok self site specimen range_up range_down st :
  cache_ok self st ->
  cache_ok self
    (get_range_based_specimen_summary self site specimen range_up range_down st).2.
Proof. intros H. rewrite summary_state. by apply data_box_ok. Qed.

Lemma collect_specimens_spec self site_name site_specimens range_up range_down
    rows all_values st :
  cache_ok self st -> labels_ok self ->
  exists new_rows,
    (collect_specimens self site_name site_specimens range_up range_down
       rows all_values st).1
    = Ok (rows ++ new_rows,
          all_values
          ++ List.filter (fun v => negb (Nat.eqb (length v) 0)) (map snd new_rows))
    /\ map fst new_rows = site_specimens
    /\ Forall (row_ok self site_name range_up range_down) new_rows
    /\ cache_ok self
         (collect_specimens self site_name site_specimens range_up range_down
            rows all_values st).2.
Proof.
  intros Hc Hl. revert rows all_values st Hc.
  induction site_specimens as [|specimen rest IH]; intros rows all_values st Hc.
  - exists []. simpl. by rewrite !app_nil_r.
  - cbn [collect_specimens].
    destruct (summary_ok self site_name specimen range_up range_down st Hc Hl)
      as (ra & summary & _ & Hs & _).
    pose proof (summary_keeps_cache_ok self site_name specimen range_up range_down
                  st Hc) as Hc'.
    destruct (get_range_based_specimen_summary self site_name specimen
                range_up range_down st) as [r st'] eqn:Hrun.
    simpl in Hs, Hc'. subst r.
    set (values := specimen_values self summary).
    destruct (IH (rows ++ [(specimen, values)])
                 (match values with [] => all_values | _ :: _ => all_values ++ [values] end)
                 st' Hc') as (new_rows & Hrun' & Hfst & Hrows & Hc'').
    exists ((specimen, values) :: new_rows).
    rewrite Hrun'. split; [|split; [|split]].
    + rewrite <- app_assoc. simpl. do 2 f_equal.
      destruct values; simpl; [done|]. by rewrite <- app_assoc.
    + simpl. by rewrite Hfst.
    + constructor; [|done]. exists st, summary. simpl. by rewrite Hrun.
    + done.
Qed.

(** *** Statistics of one parameter *)

Lemma param_values_length (all_values : list (list Q)) idx :
  Forall (fun v => (idx < length v)%nat) all_values ->
  length (flat_map (fun specimen_values =>
                      match specimen_values !! idx with
                      | Some v => [v]
                      | None => []
                      end) all_values)
  = length all_values.
Proof.
  induction 1 as [|v l Hv _ IH]; [done|]. simpl.
  destruct (lookup_lt_is_Some_2 v idx Hv) as [x ->]. simpl. by rewrite IH.
Qed.

Lemma parameter_stat_of_props all_values idx :
  Forall (fun v => (idx < length v)%nat) all_values ->
  (0 <= stat_std (parameter_stat_of all_values idx))%Q
  /\ stat_count (parameter_stat_of all_values idx) = length all_values.
Proof.
  intros H. pose proof (param_values_length all_values idx H) as Hlen.
  unfold parameter_stat_of. cbv zeta.
  destruct (flat_map _ all_values) as [|v l] eqn:Hv; simpl.
  - split; [done|]. by rewrite <- Hlen.
  - split; [apply std_nonneg|]. by rewrite <- Hlen.
Qed.

Lemma parameter_stats_of_props self all_values :
  Forall (fun v => length v = num_params self) all_values ->
  Forall (fun s => (0 <= stat_std s)%Q /\ stat_count s = length all_values)
         (parameter_stats_of self all_values)
  /\ (all_values <> [] ->
      length (parameter_stats_of self all_values) = num_params self).
Proof.
  intros H. unfold parameter_stats_of.
  destruct all_values as [|first rest] eqn:Hall; [done|]. rewrite <- Hall in *.
  assert (Hfirst : length first = num_params self).
  { rewrite Hall in H. by apply Forall_cons in H as [? _]. }
  cbv zeta. rewrite Hfirst, Nat.min_id. split.
  - apply Forall_forall. intros s Hs. apply list_elem_of_In, in_map_iff in Hs.
    destruct Hs as (idx & <- & Hidx). apply in_seq in Hidx.
    apply parameter_stat_of_props. eapply Forall_impl; [exact H|].
    intros v Hv. simpl in Hv. lia.
  - intros _. by rewrite length_map, length_seq.
Qed.

(** C2, as the code has it: the aggregator returns; every bundle of
    [parameter_stats] has [std >= 0] and a count equal to the number of
    specimens of the site that were processed, because every specimen adds
    a value for every parameter: the number read from its summary, or [0.0]
    where the summary shows ["N/A"]. *)
Theorem site_statistics_count_every_specimen self site_name selected_items
    range_up range_down st :
  cache_ok self st ->
  labels_ok self ->
  exists r,
    (generate_single_site_plot_data self site_name selected_items
       range_up range_down st).1 = Ok r
    /\ forall pd, r = Some pd ->
         Forall (fun s => (0 <= stat_std s)%Q
                          /\ stat_count s = length (spd_specimens pd))
                (parameter_stats pd)
         /\ (spd_specimens pd <> [] -> num_params self <> O ->
             length (parameter_stats pd) = num_params self)
         /\ map fst (spd_plot_averages pd) = spd_specimens pd
         /\ Forall (fun row =>
              exists st' summary,
                (get_range_based_specimen_summary self site_name row.1
                   range_up range_down st').1 = Ok summary
                /\ length row.2 = num_params self
                /\ forall i label,
                     data_display_labels self !! i = Some label ->
                     row.2 !! i
                     = Some match summary !! label with
                            | Some shown =>
                                if String.eqb shown "N/A" then 0%Q
                                else parse_formatted_value shown
                            | None => 0%Q
                            end)
              (spd_plot_averages pd).
Proof.
  intros Hc Hl. unfold generate_single_site_plot_data.
  destruct (String.eqb site_name "" || String.eqb site_name "Select a site...").
  { exists None. split; [done|]. discriminate. }
  cbv zeta.
  set (chosen := match flat_map (selected_specimen site_name) selected_items with
                 | [] => sites_lookup (sites self) site_name
                 | _ :: _ => Some (flat_map (selected_specimen site_name) selected_items)
                 end).
  destruct chosen as [site_specimens|].
  2:{ exists None. split; [done|]. discriminate. }
  destruct (collect_specimens_spec self site_name site_specimens range_up range_down
              [] [] st Hc Hl) as (rows & Hrun & Hfst & Hrows & _).
  destruct (collect_specimens self site_name site_specimens range_up range_down
              [] [] st) as [r st'].
  simpl in Hrun. subst r. simpl. eexists. split; [done|].
  intros pd [= <-]. simpl.
  destruct Hl as (Hlen & Hpar & Hnd).
  assert (Hrowlen : Forall (fun v => length v = num_params self) (map snd rows)).
  { apply Forall_forall. intros v Hv. apply list_elem_of_In, in_map_iff in Hv.
    destruct Hv as (row & <- & Hrow).
    apply list_elem_of_In in Hrow.
    destruct (proj1 (Forall_forall _ _) Hrows row Hrow) as (st1 & summary & _ & _ & ->).
    by apply specimen_values_length. }
  assert (Hspec : length site_specimens = length rows).
  { by rewrite <- Hfst, length_map. }
  set (all_values := List.filter (fun v => negb (Nat.eqb (length v) 0)) (map snd rows)).
  assert (Hall : Forall (fun v => length v = num_params self) all_values).
  { apply Forall_forall. intros v Hv. apply list_elem_of_In, filter_In in Hv as [Hv _].
    apply list_elem_of_In in Hv. by apply (proj1 (Forall_forall _ _) Hrowlen). }
  destruct (parameter_stats_of_props self all_values Hall) as [Hstats Hcount].
  assert (Hfull : num_params self <> O -> all_values = map snd rows).
  { intros Hn. subst all_values. clear -Hrowlen Hn.
    induction (map snd rows) as [|v l IH]; [done|].
    apply Forall_cons in Hrowlen as [Hv Hl]. simpl.
    destruct (Nat.eqb_spec (length v) 0); [lia|]. simpl. by rewrite IH. }
  split; [|split; [|split]].
  - destruct (Nat.eq_dec (num_params self) 0%nat) as [Hz|Hnz].
    + (* no parameter: no row has a value, and there is no bundle *)
      assert (all_values = []) as ->; [|done].
      subst all_values. clear -Hrowlen Hz.
      induction (map snd rows) as [|v l IH]; [done|].
      apply Forall_cons in Hrowlen as [Hv Hl]. simpl.
      destruct (Nat.eqb_spec (length v) 0); [simpl; by apply IH|lia].
    + eapply Forall_impl; [exact Hstats|]. intros s [Hstd Hcnt]. split; [done|].
      rewrite Hcnt, (Hfull Hnz), length_map. lia.
  - intros Hne Hnz. apply Hcount. rewrite (Hfull Hnz).
    destruct rows; [|done]. destruct site_specimens; done.
  - done.
  - eapply Forall_impl; [exact Hrows|].
    intros row (st1 & summary & _ & Hs & Hrow). exists st1, summary.
    split; [done|]. split; [rewrite Hrow; by apply specimen_values_length|].
    intros i label Hi. rewrite Hrow, specimen_values_map by done.
    rewrite list_lookup_fmap_Some. exists label. done.
Qed.

(** *** The formatter at a value that rounds up to the next power of ten *)

(** C6 at the input [9.99999]: its magnitude is 0, so the formatter prints
    it in fixed notation with [5 - 0 - 1 = 4] decimals; rounding carries
    into a new leading digit and the text has 6 significant digits, not 5. *)
Theorem format_carry_shows_six_digits :
  Fmt.floor_log10 (Qabs 9.99999) = 0
  /\ format_significant_figures 9.99999 5 = "10.0000"
  /\ significant_digits (format_significant_figures 9.99999 5) = 6%nat.
Proof. by vm_compute. Qed.

(** *** What initialization writes *)

Lemma generate_specimen_state_free self specimen site g g' :
  (generate_specimen self specimen site g).1
  = (generate_specimen self specimen site g').1.
Proof. apply generate_plots_state_free. Qed.

Lemma initialize_specimens_other self site specimens cache g key :
  key ∉ map (cache_key site) specimens ->
  (initialize_specimens self site specimens cache g).1 !! key = cache !! key.
Proof.
  revert cache g. induction specimens as [|sp rest IH]; intros cache g Hn; [done|].
  simpl in *. destruct (generate_specimen self sp site g) as [d g1].
  rewrite IH by set_solver. apply lookup_insert_ne. set_solver.
Qed.

Lemma initialize_specimens_lookup self site specimens cache g g' specimen :
  NoDup (map (cache_key site) specimens) ->
  In specimen specimens ->
  (initialize_specimens self site specimens cache g).1 !! cache_key site specimen
  = Some (generate_specimen self specimen site g').1.
Proof.
  revert cache g. induction specimens as [|sp rest IH]; intros cache g Hnd Hin; [done|].
  simpl in Hnd. apply NoDup_cons in Hnd as [Hsp Hnd]. simpl.
  destruct (generate_specimen self sp site g) as [d g1] eqn:Hd.
  destruct (decide (cache_key site specimen = cache_key site sp)) as [Heq|Hne].
  - rewrite Heq, initialize_specimens_other, lookup_insert_eq by done.
    assert (specimen = sp) as ->.
    { destruct Hin as [->|Hin]; [done|]. exfalso. apply Hsp. rewrite <- Heq.
      apply list_elem_of_In, in_map, Hin. }
    f_equal. rewrite <- (generate_specimen_state_free self sp site g g').
    by rewrite Hd.
  - destruct Hin as [->|Hin]; [done|]. by apply IH.
Qed.

Lemma initialize_sites_other self catalogue cache g key :
  key ∉ catalogue_keys catalogue ->
  (initialize_sites self catalogue cache g).1 !! key = cache !! key.
Proof.
  revert cache g. induction catalogue as [|[site specimens] rest IH];
    intros cache g Hn; [done|].
  simpl in *.
  pose proof (initialize_specimens_other self site specimens cache g key) as H.
  destruct (initialize_specimens self site specimens cache g) as [c1 g1].
  rewrite IH by set_solver. apply H. set_solver.
Qed.

Lemma initialize_sites_lookup self catalogue cache g g' site specimens specimen :
  NoDup (catalogue_keys catalogue) ->
  In (site, specimens) catalogue ->
  In specimen specimens ->
  (initialize_sites self catalogue cache g).1 !! cache_key site specimen
  = Some (generate_specimen self specimen site g').1.
Proof.
  revert cache g. induction catalogue as [|[s sps] rest IH];
    intros cache g Hnd Hin Hsp; [done|].
  simpl in Hnd. apply NoDup_app in Hnd as (Hnd1 & Hdisj & Hnd2). simpl.
  pose proof (initialize_specimens_lookup self s sps cache g g' specimen Hnd1) as H.
  destruct (initialize_specimens self s sps cache g) as [c1 g1].
  destruct (decide (cache_key site specimen ∈ catalogue_keys rest)) as [Hel|Hnel].
  - destruct Hin as [[= -> ->]|Hin]; [|by apply IH].
    exfalso. apply (Hdisj (cache_key site specimen)); [|done].
    apply list_elem_of_In, in_map, Hsp.
  - rewrite initialize_sites_other by done.
    destruct Hin as [[= -> ->]|Hin]; [by apply H|].
    exfalso. apply Hnel. unfold catalogue_keys. apply list_elem_of_In, in_flat_map.
    exists (site, specimens). split; [done|]. by apply in_map.
Qed.

Lemma initialize_sites_state_free self catalogue cache g g' :
  (initialize_sites self catalogue cache g).1
  = (initialize_sites self catalogue cache g').1.
Proof.
  assert (Hsp : forall site specimens cache g g',
            (initialize_specimens self site specimens cache g).1
            = (initialize_specimens self site specimens cache g').1).
  { intros site specimens. induction specimens as [|sp rest IH]; intros c h h'; [done|].
    simpl. pose proof (generate_specimen_state_free self sp site h h') as Hd.
    destruct (generate_specimen self sp site h) as [d1 h1].
    destruct (generate_specimen self sp site h') as [d2 h2].
    simpl in Hd. subst d2. apply IH. }
  revert cache g g'. induction catalogue as [|[site specimens] rest IH];
    intros cache g g'; [done|].
  simpl. pose proof (Hsp site specimens cache g g') as H.
  destruct (initialize_specimens self site specimens cache g) as [c1 g1].
  destruct (initialize_specimens self site specimens cache g') as [c2 g2].
  simpl in H. subst c2. apply IH.
Qed.

Lemma initialize_all_data_lookup self st g' site specimens specimen :
  NoDup (catalogue_keys (sites self)) ->
  In (site, specimens) (sites self) ->
  In specimen specimens ->
  data_cache (_initialize_all_data self st) !! cache_key site specimen
  = Some (generate_specimen self specimen site g').1.
Proof.
  intros Hnd Hsite Hsp. unfold _initialize_all_data.
  pose proof (initialize_sites_lookup self (sites self) (data_cache st)
                (np_random_seed 42) g' site specimens specimen Hnd Hsite Hsp) as H.
  by destruct (initialize_sites _ _ _ _).
Qed.

Lemma initialize_all_data_other self st key :
  key ∉ catalogue_keys (sites self) ->
  data_cache (_initialize_all_data self st) !! key = data_cache st !! key.
Proof.
  intros Hkey. unfold _initialize_all_data.
  pose proof (initialize_sites_other self (sites self) (data_cache st)
                (np_random_seed 42) key Hkey) as H.
  by destruct (initialize_sites _ _ _ _).
Qed.

Lemma initialize_all_data_state_free self cache g g' :
  data_cache (_initialize_all_data self {| data_cache := cache; np_random := g |})
  = data_cache (_initialize_all_data self {| data_cache := cache; np_random := g' |}).
Proof. done. Qed.

(** After [__init__] every specimen of the catalogue is in the cache, with
    the data the generator gives for it: reading it is a hit that returns
    these data and changes nothing. *)
Theorem catalogue_specimens_are_cached num_plots num_params custom g g'
    site specimens specimen :
  let self := (TestData_init num_plots num_params custom g).1 in
  let st0 := (TestData_init num_plots num_params custom g).2 in
  In (site, specimens) (sites self) ->
  In specimen specimens ->
  generate_specimen_data_for_data_box self site specimen st0
  = ((generate_specimen self specimen site g').1, st0).
Proof.
  intros self st0 Hsite Hsp. apply data_box_hit.
  apply (initialize_all_data_lookup self _ g' site specimens specimen);
    [apply the_sites_keys_NoDup|done|done].
Qed.


Lemma data_box_twice self site specimen st :
  let first := generate_specimen_data_for_data_box self site specimen st in
  generate_specimen_data_for_data_box self site specimen first.2 = first.
Proof.
  intros first. subst first.
  destruct (data_cache st !! cache_key site specimen) as [sd|] eqn:Hk.
  - rewrite (data_box_hit _ _ _ _ _ Hk). simpl. by apply data_box_hit.
  - unfold generate_specimen_data_for_data_box. rewrite Hk.
    destruct (generate_specimen self specimen site (np_random st)) as [sd g1].
    simpl. by rewrite lookup_insert_eq.
Qed.

(** Reading a specimen twice: the second read is a hit, it returns the data
    of the first and leaves the state of the first. *)
Theorem second_read_is_a_hit self site specimen st :
  let first := generate_specimen_data_for_data_box self site specimen st in
  generate_specimen_data_for_data_box self site specimen first.2 = first.
Proof. apply data_box_twice. Qed.

(** Reading a specimen that the catalogue does not have adds its data to the
    cache: [get_cache_info] then counts one cached specimen more than the
    catalogue has, and reports the cache as not complete. *)
Theorem unknown_specimen_makes_cache_incomplete num_plots num_params custom g
    site specimen :
  let self := (TestData_init num_plots num_params custom g).1 in
  let st0 := (TestData_init num_plots num_params custom g).2 in
  cache_key site specimen ∉ catalogue_keys (sites self) ->
  let st1 := (generate_specimen_data_for_data_box self site specimen st0).2 in
  cached_specimens (get_cache_info self st1)
  = S (total_specimens (get_cache_info self st1))
  /\ cache_complete (get_cache_info self st1) = false.
Proof.
  intros self st0 Hkey st1.
  assert (Hmiss : data_cache st0 !! cache_key site specimen = None).
  { subst st0. unfold TestData_init. cbn [snd].
    by rewrite initialize_all_data_other. }
  assert (Hsize : size (data_cache st1)
                  = S (fold_right (fun s n => (length s.2 + n)%nat) O (sites self))).
  { subst st1. rewrite (data_box_miss _ _ _ _ Hmiss).
    rewrite map_size_insert_None by done. f_equal.
    apply (initialize_from_empty_size self g), the_sites_keys_NoDup. }
  unfold get_cache_info. cbn [cached_specimens total_specimens cache_complete].
  rewrite Hsize. split; [done|]. apply Nat.eqb_neq. lia.
Qed.

(** *** The labels [__init__] chooses *)

Lemma parameter_label_default i :
  (i < 10)%nat -> parameter_label i ∈ default_labels.
Proof.
  intros H. unfold parameter_label.
  destruct (lookup_lt_is_Some_2 default_labels i) as [l Hl]; [done|].
  rewrite Hl. by eapply list_elem_of_lookup_2.
Qed.

Lemma parameter_label_param i :
  (10 <= i)%nat -> parameter_label i = "Param " +:+ pretty (S i).
Proof.
  intros H. unfold parameter_label.
  by rewrite (lookup_ge_None_2 default_labels i).
Qed.

Lemma default_labels_not_param l s : l ∈ default_labels -> l <> "Param " +:+ s.
Proof.
  unfold default_labels. intros H. repeat (apply elem_of_cons in H as [->|H]);
    try discriminate. by apply not_elem_of_nil in H.
Qed.

Lemma parameter_label_inj i j : parameter_label i = parameter_label j -> i = j.
Proof.
  intros H.
  destruct (Nat.lt_ge_cases i 10) as [Hi|Hi], (Nat.lt_ge_cases j 10) as [Hj|Hj].
  - unfold parameter_label in H.
    destruct (lookup_lt_is_Some_2 default_labels i) as [li Hli]; [done|].
    destruct (lookup_lt_is_Some_2 default_labels j) as [lj Hlj]; [done|].
    rewrite Hli, Hlj in H. subst lj.
    eapply NoDup_lookup; [|exact Hli|exact Hlj].
    apply (bool_decide_unpack (NoDup default_labels)). by vm_compute.
  - rewrite (parameter_label_param j Hj) in H.
    by apply default_labels_not_param in H; [|apply parameter_label_default].
  - rewrite (parameter_label_param i Hi) in H. symmetry in H.
    by apply default_labels_not_param in H; [|apply parameter_label_default].
  - rewrite (parameter_label_param i Hi), (parameter_label_param j Hj) in H.
    simpl in H. injection H as H. apply pretty_nat_inj in H. lia.
Qed.

Lemma generated_labels_NoDup n : NoDup (map parameter_label (seq 0 n)).
Proof.
  assert (H : forall l : list nat, NoDup l -> NoDup (map parameter_label l)).
  { induction 1 as [|i l Hi _ IH]; simpl; constructor; [|done].
    intros Hin. apply list_elem_of_In, in_map_iff in Hin as (j & Hj & Hin).
    apply parameter_label_inj in Hj as ->. by apply Hi, list_elem_of_In. }
  apply H, NoDup_ListNoDup, seq_NoDup.
Qed.

(** The labels of a new object: one for each parameter. Without custom
    labels, or with fewer custom labels than parameters, they are the default
    ones followed by ["Param 11"], ["Param 12"], ..., and no label comes
    twice; with enough custom labels they are the first [num_params] of
    them, and no label comes twice when the custom labels are distinct. *)
Theorem initial_labels_are_distinct num_plots num_params custom :
  let self := make_TestData num_plots num_params custom in
  length (data_display_labels self) = num_params
  /\ parameter_labels self = data_display_labels self
  /\ match custom with
     | Some l =>
         if (num_params <=? length l)%nat
         then parameter_labels self = take num_params l
              /\ (NoDup l -> labels_ok self)
         else parameter_labels self = map parameter_label (seq 0 num_params)
              /\ labels_ok self
     | None =>
         parameter_labels self = map parameter_label (seq 0 num_params)
         /\ labels_ok self
     end.
Proof.
  intros self. subst self. unfold labels_ok, make_TestData.
  cbn [data_display_labels parameter_labels].
  assert (Hgen : length (map parameter_label (seq 0 num_params)) = num_params)
    by (by rewrite length_map, length_seq).
  pose proof (generated_labels_NoDup num_params) as Hnd.
  destruct custom as [[|c l]|].
  - cbn [initial_labels].
    destruct (Nat.leb_spec num_params (length (@nil string))) as [Hle|Hgt];
      [|by repeat split].
    simpl in Hle. assert (num_params = O) as -> by lia.
    repeat split; try done; constructor.
  - cbn [initial_labels].
    destruct (Nat.leb_spec num_params (length (c :: l))) as [Hle|Hgt];
      [|by repeat split].
    assert (Hlen : length (take num_params (c :: l)) = num_params)
      by (rewrite length_take; lia).
    repeat split; try done.
    eapply sublist_NoDup; [|apply sublist_take]. done.
  - cbn [initial_labels]. by repeat split.
Qed.

(** *** Smallest and largest value, and the mean between them *)

Lemma fold_min_le l v w :
  (fold_left (fun a b => if Qle_bool a b then a else b) l v <= v)%Q
  /\ (In w l -> (fold_left (fun a b => if Qle_bool a b then a else b) l v <= w)%Q).
Proof.
  revert v. induction l as [|b l IH]; intros v; simpl.
  - split; [apply Qle_refl|done].
  - destruct (Qle_bool v b) eqn:Hvb.
    + apply Qle_bool_iff in Hvb. destruct (IH v) as [H1 H2].
      split; [done|]. intros [<-|Hw]; [|by apply H2].
      by apply Qle_trans with v.
    + assert (Hbv : (b <= v)%Q).
      { destruct (Qlt_le_dec b v) as [H|H]; [by apply Qlt_le_weak|].
        apply Qle_bool_iff in H. congruence. }
      destruct (IH b) as [H1 H2]. split; [by apply Qle_trans with b|].
      intros [<-|Hw]; [done|by apply H2].
Qed.

Lemma fold_max_ge l v w :
  (v <= fold_left (fun a b => if Qle_bool a b then b else a) l v)%Q
  /\ (In w l -> (w <= fold_left (fun a b => if Qle_bool a b then b else a) l v)%Q).
Proof.
  revert v. induction l as [|b l IH]; intros v; simpl.
  - split; [apply Qle_refl|done].
  - destruct (Qle_bool v b) eqn:Hvb.
    + apply Qle_bool_iff in Hvb. destruct (IH b) as [H1 H2].
      split; [by apply Qle_trans with b|]. intros [<-|Hw]; [done|by apply H2].
    + assert (Hbv : (b <= v)%Q).
      { destruct (Qlt_le_dec b v) as [H|H]; [by apply Qlt_le_weak|].
        apply Qle_bool_iff in H. congruence. }
      destruct (IH v) as [H1 H2]. split; [done|].
      intros [<-|Hw]; [by apply Qle_trans with v|by apply H2].
Qed.

Lemma min_le l w : In w l -> (Np.min l <= w)%Q.
Proof.
  destruct l as [|v l]; [done|]. simpl.
  destruct (fold_min_le l v w) as [H1 H2]. intros [<-|Hw]; [done|by apply H2].
Qed.

Lemma max_ge l w : In w l -> (w <= Np.max l)%Q.
Proof.
  destruct l as [|v l]; [done|]. simpl.
  destruct (fold_max_ge l v w) as [H1 H2]. intros [<-|Hw]; [done|by apply H2].
Qed.

Lemma fold_min_in l v :
  In (fold_left (fun a b => if Qle_bool a b then a else b) l v) (v :: l).
Proof.
  revert v. induction l as [|b l IH]; intros v; simpl; [by left|].
  destruct (Qle_bool v b).
  - destruct (IH v) as [H|H]; [by left|right; by right].
  - right. apply IH.
Qed.

Lemma fold_max_in l v :
  In (fold_left (fun a b => if Qle_bool a b then b else a) l v) (v :: l).
Proof.
  revert v. induction l as [|b l IH]; intros v; simpl; [by left|].
  destruct (Qle_bool v b).
  - right. apply IH.
  - destruct (IH v) as [H|H]; [by left|right; by right].
Qed.

Lemma min_in l : l <> [] -> In (Np.min l) l.
Proof. destruct l as [|v l]; [done|]. intros _. apply fold_min_in. Qed.

Lemma max_in l : l <> [] -> In (Np.max l) l.
Proof. destruct l as [|v l]; [done|]. intros _. apply fold_max_in. Qed.

Lemma sum_bounds l lo hi :
  (forall v, In v l -> (lo <= v <= hi)%Q) ->
  (inject_Z (Z.of_nat (length l)) * lo <= Np.sum l
   <= inject_Z (Z.of_nat (length l)) * hi)%Q.
Proof.
  induction l as [|v l IH]; intros H.
  - simpl. rewrite !Qmult_0_l. split; apply Qle_refl.
  - destruct (H v) as [Hlo Hhi]; [by left|].
    destruct IH as [IH1 IH2]; [intros w Hw; apply H; by right|].
    cbn [Np.sum fold_right length]. fold (Np.sum l). rewrite Qred_correct.
    rewrite Nat2Z.inj_succ, <- Z.add_1_l, inject_Z_plus.
    rewrite !Qmult_plus_distr_l, !Qmult_1_l.
    split; by apply Qplus_le_compat.
Qed.

Lemma mean_bounds l lo hi :
  l <> [] ->
  (forall v, In v l -> (lo <= v <= hi)%Q) ->
  (lo <= Np.mean l <= hi)%Q.
Proof.
  intros Hne H. destruct (sum_bounds l lo hi H) as [H1 H2].
  unfold Np.mean. rewrite Qred_correct.
  assert (Hn : (0 < inject_Z (Z.of_nat (length l)))%Q).
  { replace 0%Q with (inject_Z 0) by done. rewrite <- Zlt_Qlt.
    destruct l; [done|]. simpl. lia. }
  split.
  - apply Qle_shift_div_l; [done|]. by rewrite Qmult_comm.
  - apply Qle_shift_div_r; [done|]. by rewrite Qmult_comm.
Qed.

Lemma mean_between_min_and_max l :
  l <> [] -> (Np.min l <= Np.mean l <= Np.max l)%Q.
Proof.
  intros Hne. apply mean_bounds; [done|].
  intros v Hv. split; [by apply min_le|by apply max_ge].
Qed.

(** *** What an entry of the range aggregator says *)

Lemma select_self (f : Q -> bool) (xs : list Q) :
  Np.select xs (map f xs) = List.filter f xs.
Proof.
  induction xs as [|x xs IH]; simpl; [done|]. destruct (f x); by rewrite IH.
Qed.

Lemma select_length {A} (f : Q -> bool) (xs : list Q) (ys : list A) :
  length ys = length xs ->
  length (Np.select ys (map f xs)) = length (List.filter f xs).
Proof.
  revert ys. induction xs as [|x xs IH]; intros [|y ys] H; simpl in *; try done.
  destruct (f x); simpl; rewrite IH; lia.
Qed.

Lemma sum_app l1 l2 : (Np.sum (l1 ++ l2) == Np.sum l1 + Np.sum l2)%Q.
Proof.
  induction l1 as [|v l1 IH]; simpl.
  - by rewrite Qplus_0_l.
  - fold (Np.sum (l1 ++ l2)). fold (Np.sum l1).
    rewrite !Qred_correct, IH. ring.
Qed.

Lemma mean_app_same_length l1 l2 :
  l1 <> [] -> length l1 = length l2 ->
  (Np.mean (l1 ++ l2) == (Np.mean l1 + Np.mean l2) / 2)%Q.
Proof.
  intros Hne Hlen. unfold Np.mean.
  rewrite !Qred_correct, sum_app, length_app, <- Hlen.
  assert (Hn : ~ (inject_Z (Z.of_nat (length l1)) == 0)%Q).
  { destruct l1; [done|]. simpl. unfold Qeq. simpl. lia. }
  replace (Z.of_nat (length l1 + length l1)) with (2 * Z.of_nat (length l1)) by lia.
  rewrite inject_Z_mult. change (inject_Z 2) with 2%Q. by field.
Qed.

Lemma filter_window_bounds range_down range_up xs v :
  In v (List.filter (in_window range_down range_up) xs) ->
  (inject_Z range_down <= v <= inject_Z range_up)%Q.
Proof.
  intros H. apply filter_In in H as [_ H]. unfold in_window in H.
  apply andb_true_iff in H as [H1 H2]. by apply Qle_bool_iff in H1, H2.
Qed.


(** *** The summary, read off the data *)

Lemma summary_from_data self site specimen range_up range_down st :
  cache_ok self st -> labels_ok self ->
  let sd := (generate_specimen_data_for_data_box self site specimen st).1 in
  exists summary,
    (get_range_based_specimen_summary self site specimen range_up range_down st).1
    = Ok summary
    /\ forall i label, data_display_labels self !! i = Some label ->
         summary !! label = Some (shown_text self sd range_down range_up i).
Proof.
  intros Hc Hl sd.
  destruct (calculate_spec self site specimen range_up range_down st Hc)
    as (ra & Hra & _ & Hin).
  destruct (summary_spec self site specimen range_up range_down st ra Hl Hra)
    as (summary & Hs & _ & Hval).
  exists summary. split; [done|]. intros i label Hi.
  rewrite (Hval i label Hi). f_equal. unfold summary_value, shown_text. cbv zeta.
  destruct (Nat.ltb_spec i (num_plots self)) as [Hlt|Hge]; [|done].
  destruct (Hin i Hlt) as (d & e & ys_i & Hd & Hok & He & Hle).
  fold sd in Hd. rewrite Hd, Hle.
  destruct (aggregate_plot_ok d range_up range_down Hok) as (e' & He' & Hnone & Hsome).
  rewrite He in He'. injection He' as <- _.
  destruct (Nat.eqb_spec (points_in_window d range_down range_up) 0) as [H0|H0].
  - by rewrite (Hnone H0).
  - specialize (Hsome H0). destruct e; simpl in Hsome; by simplify_eq.
Qed.

Lemma chars_of_chars l : PyStr.chars (PyStr.of_chars l) = l.
Proof. apply list_ascii_of_string_of_list_ascii. Qed.

Lemma of_chars_chars s : PyStr.of_chars (PyStr.chars s) = s.
Proof. apply string_of_list_ascii_of_string. Qed.

Lemma chars_app s t : PyStr.chars (s +:+ t) = PyStr.chars s ++ PyStr.chars t.
Proof. induction s as [|c s IH]; simpl; [done|]. by rewrite IH. Qed.

Lemma fixed_has_point v n : In "."%char (PyStr.chars (Fmt.fixed v (S n))).
Proof.
  unfold Fmt.fixed. cbv zeta. rewrite chars_of_chars.
  apply in_or_app. right. apply in_or_app. right. by left.
Qed.

Lemma format_5_has_point v :
  In "."%char (PyStr.chars (format_significant_figures v 5)).
Proof.
  unfold format_significant_figures, format_body.
  destruct (Qeq_bool v 0); [simpl; tauto|]. cbv zeta.
  set (m := Fmt.floor_log10 (Qabs v)).
  destruct ((4 <=? m) || (m <? -2)) eqn:Hsci.
  - destruct (format_f_positive (v / 10 ^ m)%Q (5 - 1)) as [n ->]; [lia|].
    simpl. rewrite chars_app. apply in_or_app. left. apply fixed_has_point.
  - apply orb_false_iff in Hsci as [H1 H2].
    apply Z.leb_gt in H1. apply Z.ltb_ge in H2.
    destruct (0 <=? m).
    + destruct (format_f_positive v (Z.max 0 (5 - m - 1))) as [n ->]; [lia|].
      apply fixed_has_point.
    + destruct (format_f_positive v (5 - m - 1)) as [n ->]; [lia|].
      apply fixed_has_point.
Qed.

Lemma format_5_not_NA v : format_significant_figures v 5 <> "N/A".
Proof.
  intros H. pose proof (format_5_has_point v) as Hp. rewrite H in Hp.
  simpl in Hp. intuition discriminate.
Qed.

Lemma in_window_wider down up down' up' v :
  down' <= down -> up <= up' ->
  in_window down up v = true -> in_window down' up' v = true.
Proof.
  intros Hd Hu H. unfold in_window in *.
  apply andb_true_iff in H as [H1 H2]. apply Qle_bool_iff in H1, H2.
  apply andb_true_iff. split; apply Qle_bool_iff.
  - apply Qle_trans with (inject_Z down); [by rewrite <- Zle_Qle|done].
  - apply Qle_trans with (inject_Z up); [done|by rewrite <- Zle_Qle].
Qed.

Lemma points_in_window_wider d down up down' up' :
  down' <= down -> up <= up' ->
  (points_in_window d down up <= points_in_window d down' up')%nat.
Proof.
  intros Hd Hu. unfold points_in_window.
  induction (plot_x d) as [|v l IH]; simpl; [done|].
  destruct (in_window down up v) eqn:H.
  - rewrite (in_window_wider _ _ _ _ _ Hd Hu H). simpl. lia.
  - destruct (in_window down' up' v); simpl; lia.
Qed.

(** A wider window never loses a value: a parameter that shows a number for
    the window [down, up] shows a number for every window that contains
    it. *)
Theorem wider_window_keeps_values self site specimen st
    range_up range_down range_up' range_down' :
  cache_ok self st ->
  labels_ok self ->
  range_down' <= range_down ->
  range_up <= range_up' ->
  exists narrow wide,
    (get_range_based_specimen_summary self site specimen range_up range_down st).1
    = Ok narrow
    /\ (get_range_based_specimen_summary self site specimen
          range_up' range_down' st).1 = Ok wide
    /\ forall label, label ∈ data_display_labels self ->
         wide !! label = Some "N/A" -> narrow !! label = Some "N/A".
Proof.
  intros Hc Hl Hd Hu.
  destruct (summary_from_data self site specimen range_up range_down st Hc Hl)
    as (narrow & Hn & Hnv).
  destruct (summary_from_data self site specimen range_up' range_down' st Hc Hl)
    as (wide & Hw & Hwv).
  exists narrow, wide. split; [done|]. split; [done|].
  intros label Hlabel. apply list_elem_of_lookup in Hlabel as [i Hi].
  rewrite (Hnv i label Hi), (Hwv i label Hi). unfold shown_text.
  destruct (i <? num_plots self)%nat; [|done].
  destruct (_ !! plot_key i) as [d|]; [|done].
  pose proof (points_in_window_wider d _ _ _ _ Hd Hu) as Hp.
  destruct (Nat.eqb_spec (points_in_window d range_down' range_up') 0) as [H0|H0].
  - intros _. assert (points_in_window d range_down range_up = O) as -> by lia. done.
  - intros [= H]. by apply format_5_not_NA in H.
Qed.

(** *** Reads do not disturb one another *)

Lemma summary_result self site specimen range_up range_down st :
  (get_range_based_specimen_summary self site specimen range_up range_down st).1
  = (ra ← range_averages_of self
            (generate_specimen_data_for_data_box self site specimen st).1
            site specimen range_up range_down;
     summary_loop self ra (seq 0 (num_params self)) ∅).
Proof.
  unfold get_range_based_specimen_summary, calculate_range_based_averages.
  by destruct (generate_specimen_data_for_data_box self site specimen st).
Qed.

Lemma data_box_value self site specimen st g :
  (generate_specimen_data_for_data_box self site specimen st).1
  = match data_cache st !! cache_key site specimen with
    | Some sd => sd
    | None => (generate_specimen self specimen site g).1
    end.
Proof.
  unfold generate_specimen_data_for_data_box.
  destruct (data_cache st !! cache_key site specimen); [done|].
  rewrite (generate_specimen_state_free self specimen site g (np_random st)).
  by destruct (generate_specimen self specimen site (np_random st)).
Qed.

Lemma data_box_cache self site specimen st :
  data_cache (generate_specimen_data_for_data_box self site specimen st).2
  = match data_cache st !! cache_key site specimen with
    | Some _ => data_cache st
    | None =>
        <[cache_key site specimen :=
            (generate_specimen self specimen site (np_random st)).1]> (data_cache st)
    end.
Proof.
  destruct (data_cache st !! cache_key site specimen) as [sd|] eqn:Hk.
  - by rewrite (data_box_hit _ _ _ _ _ Hk).
  - by apply data_box_miss.
Qed.

(** Reading the summary of one specimen, in any window, does not change what
    the summary of a specimen shows afterwards, whether it was in the cache
    or not. The keys of the two specimens differ, or they are the same
    specimen. *)
Theorem reads_do_not_interfere self site1 specimen1 up1 down1
    site2 specimen2 range_up range_down st :
  cache_key site1 specimen1 <> cache_key site2 specimen2
  \/ (site1 = site2 /\ specimen1 = specimen2) ->
  let st1 :=
    (get_range_based_specimen_summary self site1 specimen1 up1 down1 st).2 in
  (get_range_based_specimen_summary self site2 specimen2 range_up range_down st1).1
  = (get_range_based_specimen_summary self site2 specimen2 range_up range_down st).1.
Proof.
  intros Hkeys st1. rewrite !summary_result. f_equal.
  subst st1. rewrite summary_state.
  rewrite (data_box_value self site2 specimen2 _ (np_random st)).
  rewrite (data_box_value self site2 specimen2 st (np_random st)).
  rewrite data_box_cache.
  destruct Hkeys as [Hne|[-> ->]].
  - destruct (data_cache st !! cache_key site1 specimen1); [done|].
    by rewrite lookup_insert_ne.
  - destruct (data_cache st !! cache_key site2 specimen2) as [sd|] eqn:Hk.
    + by rewrite Hk.
    + by rewrite lookup_insert_eq.
Qed.

(** Asking for the same summary a second time gives the same answer and
    changes nothing more. *)
Theorem summary_is_repeatable self site specimen range_up range_down st :
  let first :=
    get_range_based_specimen_summary self site specimen range_up range_down st in
  get_range_based_specimen_summary self site specimen range_up range_down first.2
  = first.
Proof.
  intros first. subst first.
  pose proof (data_box_twice self site specimen st) as H. cbv zeta in H.
  rewrite summary_state.
  unfold get_range_based_specimen_summary, calculate_range_based_averages.
  rewrite H. by destruct (generate_specimen_data_for_data_box self site specimen st).
Qed.

(** *** [generate_plot_data] *)

Lemma find_site_the_sites site specimens sample_name :
  In (site, specimens) the_sites -> In sample_name specimens ->
  find_site the_sites sample_name = Some site.
Proof.
  unfold the_sites. simpl.
  intros [[= <- <-]|[[= <- <-]|[[= <- <-]|[[= <- <-]|[]]]]]; simpl;
    intuition (subst; reflexivity).
Qed.

Lemma generate_specimen_lookup self specimen site g g' i :
  (generate_specimen self specimen site g).1 !! plot_key i
  = if (i <? num_plots self)%nat
    then Some (_generate_single_plot_data i specimen site g').1
    else None.
Proof.
  unfold generate_specimen.
  destruct (Nat.ltb_spec i (num_plots self)) as [Hlt|Hge].
  - rewrite generate_plots_lookup;
      [done|apply NoDup_ListNoDup, seq_NoDup|apply in_seq; lia].
  - rewrite generate_plots_other; [apply lookup_empty|].
    intros j Hj Heq. apply plot_key_inj in Heq as ->. apply in_seq in Hj. lia.
Qed.

(** [generate_plot_data] never writes to the cache. After [__init__] it
    returns, for a sample of the catalogue, the plot the generator gives for
    the sample and its site when the index is below [num_plots], and the
    empty dictionary for any other index; the state stays as it is. *)
Theorem generate_plot_data_reads_the_cache num_plots num_params custom g g'
    site specimens sample_name plot_index st :
  let self := (TestData_init num_plots num_params custom g).1 in
  let st0 := (TestData_init num_plots num_params custom g).2 in
  data_cache (generate_plot_data self plot_index sample_name st).2 = data_cache st
  /\ (In (site, specimens) (sites self) -> In sample_name specimens ->
      generate_plot_data self plot_index sample_name st0
      = (if (plot_index <? num_plots)%nat
         then Some (_generate_single_plot_data plot_index sample_name site g').1
         else None,
         st0)).
Proof.
  intros self st0. split.
  - unfold generate_plot_data. cbv zeta.
    destruct (find_site (sites self) sample_name) as [s|].
    + destruct (data_cache st !! cache_key s sample_name); [done|].
      by destruct (_generate_single_plot_data _ _ _ _).
    + by destruct (_generate_single_plot_data _ _ _ _).
  - intros Hsite Hsample. unfold generate_plot_data. cbv zeta.
    change (sites self) with the_sites in *.
    rewrite (find_site_the_sites site specimens sample_name Hsite Hsample).
    subst st0. unfold TestData_init. cbn [snd].
    rewrite (initialize_all_data_lookup self _ g' site specimens sample_name);
      [|apply the_sites_keys_NoDup|done|done].
    by rewrite (generate_specimen_lookup self sample_name site g' g').
Qed.

(** *** Statistics of all sites *)

Lemma nonempty_rows self (values : list (list Q)) :
  Forall (fun v => length v = num_params self) values ->
  let kept := List.filter (fun v => negb (Nat.eqb (length v) 0)) values in
  Forall (fun v => length v = num_params self) kept
  /\ (num_params self <> O -> kept = values)
  /\ (num_params self = O -> kept = []).
Proof.
  intros H kept. subst kept. split; [|split].
  - apply Forall_forall. intros v Hv.
    apply list_elem_of_In, filter_In in Hv as [Hv _].
    apply list_elem_of_In in Hv. by apply (proj1 (Forall_forall _ _) H).
  - intros Hn. induction H as [|v l Hv _ IH]; [done|]. simpl.
    destruct (Nat.eqb_spec (length v) 0); [lia|]. simpl. by rewrite IH.
  - intros Hz. induction H as [|v l Hv _ IH]; [done|]. simpl.
    destruct (Nat.eqb_spec (length v) 0); [simpl; by apply IH|lia].
Qed.

Lemma rows_lengths self site_name range_up range_down rows :
  labels_ok self ->
  Forall (row_ok self site_name range_up range_down) rows ->
  Forall (fun v => length v = num_params self) (map snd rows).
Proof.
  intros (Hlen & _) Hrows. apply Forall_forall. intros v Hv.
  apply list_elem_of_In, in_map_iff in Hv. destruct Hv as (row & <- & Hrow).
  apply list_elem_of_In in Hrow.
  destruct (proj1 (Forall_forall _ _) Hrows row Hrow) as (st1 & summary & _ & _ & ->).
  by apply specimen_values_length.
Qed.

Lemma site_entry_spec self site_name specimens range_up range_down rows :
  labels_ok self ->
  map fst rows = specimens ->
  Forall (row_ok self site_name range_up range_down) rows ->
  let stats :=
    parameter_stats_of self
      (List.filter (fun v => negb (Nat.eqb (length v) 0)) (map snd rows)) in
  site_entry_ok self specimens
    {| se_specimens := rows;
       site_stats := stats;
       site_averages := map stat_mean stats;
       se_specimen_count := length specimens |}.
Proof.
  intros Hl Hfst Hrows stats.
  pose proof (rows_lengths self site_name range_up range_down rows Hl Hrows) as Hlen.
  destruct (nonempty_rows self (map snd rows) Hlen) as (Hkept & Hfull & Hnone).
  destruct (parameter_stats_of_props self _ Hkept) as [Hstats Hcount].
  fold stats in Hstats, Hcount.
  assert (Hspec : length specimens = length rows) by (by rewrite <- Hfst, length_map).
  unfold site_entry_ok. simpl. split; [done|]. split; [done|]. split; [done|].
  destruct (Nat.eq_dec (num_params self) 0%nat) as [Hz|Hnz].
  - assert (stats = []) as ->; [|split; [done|split; [by right|done]]].
    subst stats. by rewrite (Hnone Hz).
  - split; [|split].
    + eapply Forall_impl; [exact Hstats|]. intros s [Hstd Hcnt]. split; [done|].
      rewrite Hcnt, (Hfull Hnz), length_map. lia.
    + destruct rows as [|row rows]; [right; subst stats; by rewrite (Hfull Hnz)|].
      left. apply Hcount. by rewrite (Hfull Hnz).
    + intros Hne _. apply Hcount. rewrite (Hfull Hnz).
      destruct rows; [|done]. by destruct specimens.
Qed.

Lemma collect_sites_spec self groups range_up range_down entries all_averages st :
  cache_ok self st -> labels_ok self ->
  exists new_entries,
    (collect_sites self groups range_up range_down entries all_averages st).1
    = Ok (entries ++ new_entries,
          all_averages ++ map (fun e => site_averages e.2)
                              (List.filter has_averages new_entries))
    /\ Forall2 (fun g e => e.1 = g.1 /\ site_entry_ok self g.2 e.2) groups new_entries
    /\ cache_ok self
         (collect_sites self groups range_up range_down entries all_averages st).2.
Proof.
  intros Hc Hl. revert entries all_averages st Hc.
  induction groups as [|[site_name specimens] rest IH]; intros entries all_averages st Hc.
  - exists []. simpl. rewrite !app_nil_r. split; [done|]. split; [constructor|done].
  - cbn [collect_sites].
    destruct (collect_specimens_spec self site_name specimens range_up range_down
                [] [] st Hc Hl) as (rows & Hrun & Hfst & Hrows & Hc').
    destruct (collect_specimens self site_name specimens range_up range_down [] [] st)
      as [r st'].
    simpl in Hrun, Hc'. subst r. simpl.
    pose proof (site_entry_spec self site_name specimens range_up range_down rows
                  Hl Hfst Hrows) as Hentry.
    cbv zeta in Hentry.
    set (stats := parameter_stats_of self
                    (List.filter (fun v => negb (Nat.eqb (length v) 0)) (map snd rows)))
      in *.
    set (entry := {| se_specimens := rows; site_stats := stats;
                     site_averages := map stat_mean stats;
                     se_specimen_count := length specimens |}) in *.
    destruct (IH (entries ++ [(site_name, entry)])
                 (match map stat_mean stats with
                  | [] => all_averages
                  | _ :: _ => all_averages ++ [map stat_mean stats]
                  end) st' Hc') as (new_entries & Hrun' & Hall & Hc'').
    exists ((site_name, entry) :: new_entries). rewrite Hrun'.
    split; [|split; [by constructor|done]].
    rewrite <- app_assoc. simpl. f_equal. f_equal.
    unfold has_averages at 2. simpl.
    destruct (map stat_mean stats) eqn:Hm; simpl; [done|].
    by rewrite <- app_assoc.
Qed.

(** [generate_all_sites_plot_data] returns. It has one entry for each chosen
    site, in order (the sites of the selection, or the whole catalogue when
    the selection names none); the entry counts the specimens chosen for the
    site, has a row for each of them, and every bundle of its statistics has
    [std >= 0] and counts all these specimens. Every bundle of the global
    statistics has [std >= 0] and counts the sites that have averages. *)
Theorem all_sites_statistics self selected_items range_up range_down st :
  cache_ok self st ->
  labels_ok self ->
  exists pd,
    (generate_all_sites_plot_data self selected_items range_up range_down st).1
    = Ok pd
    /\ Forall2 (fun g e => e.1 = g.1 /\ site_entry_ok self g.2 e.2)
               (chosen_sites self selected_items) (sites_data pd)
    /\ Forall (fun s =>
                 (0 <= stat_std s)%Q
                 /\ stat_count s
                    = length (List.filter has_averages (sites_data pd)))
              (global_stats pd)
    /\ (group_selection selected_items = [] ->
        map fst (sites_data pd) = map fst (sites self)).
Proof.
  intros Hc Hl. unfold generate_all_sites_plot_data. cbv zeta.
  fold (chosen_sites self selected_items).
  destruct (collect_sites_spec self (chosen_sites self selected_items)
              range_up range_down [] [] st Hc Hl) as (entries & Hrun & Hall & _).
  destruct (collect_sites self (chosen_sites self selected_items)
              range_up range_down [] [] st) as [r st'].
  simpl in Hrun. subst r. simpl. eexists. split; [done|]. simpl.
  split; [done|]. split.
  - assert (Hlen : Forall (fun v => length v = num_params self)
                     (map (fun e => site_averages e.2)
                          (List.filter has_averages entries))).
    { apply Forall_forall. intros v Hv.
      apply list_elem_of_In, in_map_iff in Hv. destruct Hv as (e & <- & He).
      apply filter_In in He as [He Hhas].
      apply list_elem_of_In, list_elem_of_lookup in He as [k Hk].
      destruct (Forall2_lookup_r _ _ _ _ _ Hall Hk) as (g & _ & _ & Hok).
      destruct Hok as (_ & _ & Havg & _ & [Hn|Hnil] & _).
      - by rewrite Havg, length_map.
      - unfold has_averages in Hhas. rewrite Havg, Hnil in Hhas. done. }
    destruct (parameter_stats_of_props self _ Hlen) as [Hstats _].
    eapply Forall_impl; [exact Hstats|]. intros s [Hstd Hcnt].
    split; [done|]. by rewrite Hcnt, length_map.
  - intros Hempty. unfold chosen_sites in Hall. rewrite Hempty in Hall.
    clear -Hall. induction Hall as [|g e gs es [He _] _ IH]; [done|].
    simpl. by rewrite He, IH.
Qed.

(** *** Decimal numerals *)

Lemma digit_char x :
  (x < 10)%N ->
  PyStr.is_digit (pretty_N_char x) = true
  /\ PyStr.digit_value (pretty_N_char x) = Z.of_N x.
Proof.
  intros H.
  assert (x = 0 \/ x = 1 \/ x = 2 \/ x = 3 \/ x = 4 \/ x = 5 \/ x = 6 \/ x = 7
          \/ x = 8 \/ x = 9)%N as Hx by lia.
  repeat (destruct Hx as [->|Hx]; [by vm_compute|]). subst. by vm_compute.
Qed.

Lemma digits_value_app l1 l2 :
  Parse.digits_value (l1 ++ l2)
  = Parse.digits_value l1 * 10 ^ Z.of_nat (length l2) + Parse.digits_value l2.
Proof.
  unfold Parse.digits_value. rewrite fold_left_app.
  generalize (fold_left (fun acc c => 10 * acc + PyStr.digit_value c) l1 0).
  induction l2 as [|c l2 IH]; intros a.
  - simpl. lia.
  - cbn [fold_left length]. rewrite IH, (IH (10 * 0 + _)).
    rewrite Nat2Z.inj_succ, Z.pow_succ_r by lia. ring.
Qed.

Lemma digits_value_cons c l :
  Parse.digits_value (c :: l)
  = PyStr.digit_value c * 10 ^ Z.of_nat (length l) + Parse.digits_value l.
Proof.
  change (c :: l) with ([c] ++ l). rewrite digits_value_app.
  unfold Parse.digits_value at 1. simpl. lia.
Qed.

Lemma pretty_go_digits x s :
  Forall (fun c => PyStr.is_digit c = true) (PyStr.chars s) ->
  Forall (fun c => PyStr.is_digit c = true) (PyStr.chars (pretty_N_go x s))
  /\ Parse.digits_value (PyStr.chars (pretty_N_go x s))
     = Z.of_N x * 10 ^ Z.of_nat (length (PyStr.chars s))
       + Parse.digits_value (PyStr.chars s).
Proof.
  revert s. induction (N.lt_wf_0 x) as [x _ IH]. intros s Hs.
  destruct (N.eq_dec x 0%N) as [->|Hx].
  - rewrite pretty_N_go_0. split; [done|]. lia.
  - rewrite pretty_N_go_step by lia.
    destruct (digit_char (x mod 10)) as [Hd Hv]; [by apply N.mod_lt|].
    destruct (IH (x / 10)%N) with (s := String (pretty_N_char (x mod 10)) s)
      as [H1 H2].
    { apply N.div_lt; lia. }
    { simpl. by constructor. }
    split; [done|]. rewrite H2. cbn [PyStr.chars list_ascii_of_string].
    fold (PyStr.chars s). rewrite digits_value_cons, Hv. cbn [length].
    rewrite Nat2Z.inj_succ, Z.pow_succ_r by lia.
    rewrite (N.div_mod x 10) at 3 by done. rewrite N2Z.inj_add, N2Z.inj_mul.
    change (Z.of_N 10) with 10. ring.
Qed.

Lemma pretty_N_digits (x : N) :
  Forall (fun c => PyStr.is_digit c = true) (PyStr.chars (pretty x))
  /\ Parse.digits_value (PyStr.chars (pretty x)) = Z.of_N x
  /\ PyStr.chars (pretty x) <> [].
Proof.
  unfold pretty, pretty_N. destruct (decide (x = 0%N)) as [->|Hx].
  - split; [|done]. repeat constructor.
  - destruct (pretty_go_digits x "") as [H1 H2]; [constructor|].
    change (PyStr.chars "") with (@nil ascii) in H2.
    change (Parse.digits_value []) with 0 in H2.
    change (Z.of_nat (length (@nil ascii))) with 0 in H2.
    rewrite Z.pow_0_r in H2.
    split; [done|]. split; [rewrite H2; lia|].
    intros Hnil. rewrite Hnil in H2. change (Parse.digits_value []) with 0 in H2. lia.
Qed.

Lemma span_digits_all l rest :
  Forall (fun c => PyStr.is_digit c = true) l ->
  match rest with c :: _ => PyStr.is_digit c = false | [] => True end ->
  Parse.span_digits (l ++ rest) = (l, rest).
Proof.
  intros Hl Hrest. induction Hl as [|c l Hc _ IH]; simpl.
  - destruct rest as [|c rest]; [done|]. simpl. by rewrite Hrest.
  - by rewrite Hc, IH.
Qed.

(** *** Stripping white space *)

Lemma lstrip_blanks k l :
  PyStr.lstrip_chars (repeat " "%char k ++ l) = PyStr.lstrip_chars l.
Proof. induction k as [|k IH]; [done|]. simpl. exact IH. Qed.

Lemma lstrip_head c l :
  PyStr.is_space c = false -> PyStr.lstrip_chars (c :: l) = c :: l.
Proof. intros H. simpl. by rewrite H. Qed.

Lemma rstrip_blanks k l :
  PyStr.rstrip_chars (l ++ repeat " "%char k) = PyStr.rstrip_chars l.
Proof.
  unfold PyStr.rstrip_chars. rewrite rev_app_distr.
  assert (rev (repeat " "%char k) = repeat " "%char k) as ->.
  { induction k as [|k IH]; [done|]. simpl. rewrite IH.
    clear. induction k as [|k IH]; [done|]. simpl. by rewrite IH. }
  by rewrite lstrip_blanks.
Qed.

Lemma rstrip_last l c :
  PyStr.is_space c = false -> PyStr.rstrip_chars (l ++ [c]) = l ++ [c].
Proof.
  intros H. unfold PyStr.rstrip_chars. rewrite rev_app_distr. simpl.
  rewrite H. simpl. by rewrite rev_involutive.
Qed.

Lemma strip_blanks k1 k2 c l d :
  PyStr.is_space c = false -> PyStr.is_space d = false ->
  PyStr.strip (blanks k1 +:+ PyStr.of_chars (c :: l ++ [d]) +:+ blanks k2)
  = PyStr.of_chars (c :: l ++ [d]).
Proof.
  intros Hc Hd. unfold PyStr.strip, blanks.
  rewrite !chars_app, !chars_of_chars, lstrip_blanks.
  rewrite <- app_comm_cons, lstrip_head by done.
  rewrite app_comm_cons, rstrip_blanks.
  change (c :: l ++ [d]) with ((c :: l) ++ [d]). by rewrite rstrip_last.
Qed.

(** *** Reading an integer *)

Lemma digit_not_sign c :
  PyStr.is_digit c = true ->
  c <> "-"%char /\ c <> "+"%char /\ c <> "="%char /\ c <> ">"%char
  /\ c <> "<"%char /\ c <> "!"%char /\ c <> "."%char /\ PyStr.is_space c = false.
Proof. intros H. repeat split; try (intros ->; by vm_compute in H).
  unfold PyStr.is_digit, PyStr.is_space in *.
  destruct (nat_of_ascii c) as [|n] eqn:Hn; [done|].
  apply andb_true_iff in H as [H1 H2].
  apply Nat.leb_le in H1, H2.
  apply orb_false_iff. split; apply andb_false_iff.
  - right. apply Nat.leb_gt. lia.
  - right. apply Nat.leb_gt. lia.
Qed.

Lemma number_of_digits ds :
  ds <> [] -> Forall (fun c => PyStr.is_digit c = true) ds ->
  Parse.number ds = Some (inject_Z (Parse.digits_value ds)).
Proof.
  intros Hne Hds. unfold Parse.number.
  assert (Parse.take_sign true ds = (false, ds)) as ->.
  { destruct ds as [|c ds]; [done|]. apply Forall_cons in Hds as [Hc _].
    destruct (digit_not_sign c Hc) as (H1 & H2 & _). unfold Parse.take_sign.
    destruct c as [[] [] [] [] [] [] [] []]; try done. }
  rewrite <- (app_nil_r ds) at 1. rewrite span_digits_all by done.
  destruct ds as [|c ds]; [done|]. f_equal. unfold Parse.signed, Parse.decimal_value.
  generalize (Parse.digits_value (c :: ds)). intros v.
  unfold Qplus, Qdiv, Qmult, Qinv, inject_Z. simpl.
  change (Parse.digits_value []) with 0. f_equal. lia.
Qed.

Lemma number_of_integer (n : Z) :
  exists c l,
    PyStr.chars (pretty n) = c :: l
    /\ (PyStr.is_digit c = true \/ c = "-"%char)
    /\ (exists l' d, c :: l = l' ++ [d] /\ PyStr.is_digit d = true)
    /\ Parse.number (c :: l) = Some (inject_Z n).
Proof.
  assert (Hpos : forall x : N, exists c l,
            PyStr.chars (pretty x) = c :: l
            /\ PyStr.is_digit c = true
            /\ (exists l' d, c :: l = l' ++ [d] /\ PyStr.is_digit d = true)
            /\ Forall (fun c => PyStr.is_digit c = true) (c :: l)
            /\ Parse.digits_value (c :: l) = Z.of_N x).
  { intros x. destruct (pretty_N_digits x) as (Hd & Hv & Hne).
    destruct (PyStr.chars (pretty x)) as [|c l] eqn:Hc; [done|].
    exists c, l. split; [done|]. split; [by apply Forall_cons in Hd as [? _]|].
    split; [|done].
    destruct (exists_last (l := c :: l)) as (l' & d & Hl); [done|].
    exists l', d. split; [done|]. rewrite Hl in Hd.
    apply Forall_app in Hd as [_ Hd]. by apply Forall_cons in Hd as [? _]. }
  destruct n as [|p|p].
  - destruct (Hpos 0%N) as (c & l & Hc & Hd & Hlast & Hall & Hv).
    exists c, l. split; [done|]. split; [by left|]. split; [done|].
    rewrite number_of_digits, Hv by done. done.
  - destruct (Hpos (Npos p)) as (c & l & Hc & Hd & Hlast & Hall & Hv).
    exists c, l. split; [done|]. split; [by left|]. split; [done|].
    rewrite number_of_digits, Hv by done. done.
  - destruct (Hpos (Npos p)) as (c & l & Hc & Hd & (l' & d & Hl & Hdd) & Hall & Hv).
    exists "-"%char, (c :: l). split.
    { change (pretty (Z.neg p)) with ("-" +:+ pretty (Npos p)).
      rewrite chars_app. by rewrite Hc. }
    split; [by right|]. split.
    { exists ("-"%char :: l'), d. split; [|done]. simpl. by rewrite Hl. }
    unfold Parse.number. cbn [Parse.take_sign].
    rewrite <- (app_nil_r (c :: l)), span_digits_all by done.
    f_equal. unfold Parse.signed, Parse.decimal_value. rewrite Hv.
    unfold Qopp, Qplus, Qdiv, Qmult, Qinv, inject_Z. simpl.
    change (Parse.digits_value []) with 0. f_equal. lia.
Qed.

Lemma strip_between_blanks k1 k2 b c l l' d :
  b = c :: l -> b = l' ++ [d] ->
  PyStr.is_space c = false -> PyStr.is_space d = false ->
  PyStr.strip (blanks k1 +:+ PyStr.of_chars b +:+ blanks k2) = PyStr.of_chars b.
Proof.
  intros Hb1 Hb2 Hc Hd. unfold PyStr.strip, blanks.
  rewrite !chars_app, !chars_of_chars, lstrip_blanks.
  rewrite Hb1 at 1. rewrite <- app_comm_cons, lstrip_head by done.
  rewrite app_comm_cons, <- Hb1, rstrip_blanks, Hb2. by rewrite rstrip_last.
Qed.

Lemma parse_stripped k1 k2 b c l l' d :
  b = c :: l -> b = l' ++ [d] ->
  PyStr.is_space c = false -> PyStr.is_space d = false ->
  parse_filter_expression (blanks k1 +:+ PyStr.of_chars b +:+ blanks k2)
  = first_match b patterns.
Proof.
  intros Hb1 Hb2 Hc Hd. unfold parse_filter_expression, PyStr.is_blank.
  rewrite (strip_between_blanks k1 k2 b c l l' d) by done.
  rewrite chars_of_chars. rewrite Hb1 at 1. done.
Qed.

Ltac eval_eqb :=
  repeat match goal with
    | |- context [Ascii.eqb ?x ?y] =>
        let b := eval vm_compute in (Ascii.eqb x y) in
        match b with
        | true => change (Ascii.eqb x y) with true
        | false => change (Ascii.eqb x y) with false
        end;
        cbn [PyStr.strip_prefix]
    end.

Lemma first_match_bare c l v :
  PyStr.is_digit c = true \/ c = "-"%char ->
  Parse.number (c :: l) = Some v ->
  first_match (c :: l) patterns = Some (OpEq, v).
Proof.
  intros Hc Hv. unfold patterns, first_match, match_pattern.
  assert (Hnot : c <> "="%char /\ c <> ">"%char /\ c <> "<"%char /\ c <> "!"%char).
  { destruct Hc as [Hc| ->]; [|by repeat split].
    destruct (digit_not_sign c Hc) as (_ & _ & ? & ? & ? & ? & _). done. }
  destruct Hnot as (H1 & H2 & H3 & H4).
  cbn [PyStr.chars list_ascii_of_string PyStr.strip_prefix].
  rewrite !(proj2 (Ascii.eqb_neq _ _)) by (intros ?; by subst).
  by rewrite Hv.
Qed.

Lemma first_match_operator op k c l v :
  PyStr.is_digit c = true \/ c = "-"%char ->
  Parse.number (c :: l) = Some v ->
  first_match (PyStr.chars (operator_text op) ++ repeat " "%char k ++ c :: l) patterns
  = Some (op, v).
Proof.
  intros Hc Hv.
  assert (Hrest : PyStr.lstrip_chars (repeat " "%char k ++ c :: l) = c :: l).
  { rewrite lstrip_blanks. apply lstrip_head.
    destruct Hc as [Hc| ->]; [|done]. by destruct (digit_not_sign c Hc) as (_&_&_&_&_&_&_&?). }
  assert (Hhead : exists a r, repeat " "%char k ++ c :: l = a :: r /\ a <> "="%char).
  { destruct k as [|k]; simpl.
    - exists c, l. split; [done|]. destruct Hc as [Hc| ->]; [|done].
      by destruct (digit_not_sign c Hc) as (_&_&?&_).
    - eexists _, _. split; [done|]. done. }
  destruct Hhead as (a & r & Hr & Ha).
  unfold patterns, first_match, match_pattern.
  destruct op; cbn [operator_text PyStr.chars list_ascii_of_string app
                    PyStr.strip_prefix];
    eval_eqb; rewrite ?Hrest, ?Hv; try done.
  - rewrite Hr. cbn [PyStr.strip_prefix].
    by rewrite (proj2 (Ascii.eqb_neq _ _)) by (intros ?; by subst).
  - rewrite Hr. cbn [PyStr.strip_prefix].
    by rewrite (proj2 (Ascii.eqb_neq _ _)) by (intros ?; by subst).
Qed.


(** *** The magnitude of a number *)

Lemma ilog10_fuel_spec fuel n :
  1 <= n -> n < 2 ^ Z.of_nat fuel ->
  0 <= Fmt.ilog10_fuel fuel n
  /\ 10 ^ Fmt.ilog10_fuel fuel n <= n < 10 ^ (Fmt.ilog10_fuel fuel n + 1).
Proof.
  revert n. induction fuel as [|fuel IH]; intros n H1 Hn.
  - simpl in Hn. lia.
  - cbn [Fmt.ilog10_fuel]. destruct (Z.ltb_spec n 10) as [Hlt|Hge].
    + change (10 ^ 0) with 1. change (10 ^ (0 + 1)) with 10. lia.
    + rewrite Nat2Z.inj_succ, Z.pow_succ_r in Hn by lia.
      assert (Hdiv : 1 <= n / 10) by (apply Z.div_le_lower_bound; lia).
      assert (Hup : n / 10 < 2 ^ Z.of_nat fuel)
        by (apply Z.div_lt_upper_bound; lia).
      destruct (IH (n / 10) Hdiv Hup) as (Hk & Hlo & Hhi).
      set (k := Fmt.ilog10_fuel fuel (n / 10)) in *.
      split; [lia|].
      replace (1 + k) with (Z.succ k) by lia.
      replace (Z.succ k + 1) with (Z.succ (k + 1)) by lia.
      rewrite !Z.pow_succ_r by lia.
      pose proof (Z.mul_div_le n 10 ltac:(lia)).
      pose proof (Z.mul_succ_div_gt n 10 ltac:(lia)). lia.
Qed.

Lemma ilog10_spec n :
  1 <= n ->
  0 <= Fmt.ilog10 n /\ 10 ^ Fmt.ilog10 n <= n < 10 ^ (Fmt.ilog10 n + 1).
Proof.
  intros H. unfold Fmt.ilog10. apply ilog10_fuel_spec; [done|].
  rewrite Nat2Z.inj_succ, Z2Nat.id by apply Z.log2_nonneg.
  apply Z.log2_spec. lia.
Qed.

Lemma Qpower_10_nonneg k : 0 <= k -> (10 ^ k == inject_Z (10 ^ k))%Q.
Proof. intros H. by rewrite (Zpower_Qpower 10 k H). Qed.

Lemma Qpower_10_neg j : 0 <= j -> (10 ^ (- j) == 1 / inject_Z (10 ^ j))%Q.
Proof.
  intros H. rewrite Qpower_opp, (Qpower_10_nonneg j H).
  unfold Qdiv. by rewrite Qmult_1_l.
Qed.

Lemma inject_pow10_pos j : 0 <= j -> (0 < inject_Z (10 ^ j))%Q.
Proof.
  intros H. replace 0%Q with (inject_Z 0) by done. rewrite <- Zlt_Qlt.
  apply Z.pow_pos_nonneg; lia.
Qed.

Lemma floor_log10_spec (a : Q) :
  (0 < a)%Q ->
  (10 ^ Fmt.floor_log10 a <= a)%Q /\ (a < 10 ^ (Fmt.floor_log10 a + 1))%Q.
Proof.
  intros Ha. destruct a as [n d]. unfold Fmt.floor_log10. cbn [Qnum Qden].
  assert (Hn : 0 < n) by (unfold Qlt in Ha; simpl in Ha; lia).
  destruct (Z.leb_spec (Z.pos d) n) as [Hle|Hgt].
  - assert (Hq : 1 <= n / Z.pos d) by (apply Z.div_le_lower_bound; lia).
    destruct (ilog10_spec _ Hq) as (Hk & Hlo & Hhi).
    set (k := Fmt.ilog10 (n / Z.pos d)) in *.
    rewrite !Qpower_10_nonneg by lia.
    pose proof (Z.mul_div_le n (Z.pos d) ltac:(lia)).
    pose proof (Z.mul_succ_div_gt n (Z.pos d) ltac:(lia)).
    unfold Qle, Qlt, inject_Z. cbn [Qnum Qden]. split; nia.
  - assert (Hq : 1 <= (Z.pos d - 1) / n) by (apply Z.div_le_lower_bound; lia).
    destruct (ilog10_spec _ Hq) as (Hk & Hlo & Hhi).
    set (m := Fmt.ilog10 ((Z.pos d - 1) / n)) in *.
    pose proof (Z.mul_div_le (Z.pos d - 1) n ltac:(lia)).
    pose proof (Z.mul_succ_div_gt (Z.pos d - 1) n ltac:(lia)).
    replace (- (m + 1) + 1) with (- m) by lia.
    rewrite !Qpower_10_neg by lia.
    assert (H10m : 0 < 10 ^ m) by (apply Z.pow_pos_nonneg; lia).
    assert (H10m1 : 0 < 10 ^ (m + 1)) by (apply Z.pow_pos_nonneg; lia).
    split.
    + apply Qle_shift_div_r; [apply inject_pow10_pos; lia|].
      unfold Qle, Qmult, inject_Z. cbn [Qnum Qden]. nia.
    + apply Qlt_shift_div_l; [apply inject_pow10_pos; lia|].
      unfold Qlt, Qmult, inject_Z. cbn [Qnum Qden]. nia.
Qed.


Lemma magnitude_unique (a : Q) (m : Z) :
  (0 < a)%Q -> (10 ^ m <= a)%Q -> (a < 10 ^ (m + 1))%Q -> Fmt.floor_log10 a = m.
Proof.
  intros Ha Hlo Hhi.
  destruct (floor_log10_spec a Ha) as [Hlo' Hhi'].
  set (k := Fmt.floor_log10 a) in *.
  assert (H1 : k < m + 1).
  { apply (Qpower_lt_compat_l_inv 10); [|done].
    by apply Qle_lt_trans with a. }
  assert (H2 : m < k + 1).
  { apply (Qpower_lt_compat_l_inv 10); [|done].
    by apply Qle_lt_trans with a. }
  lia.
Qed.

Lemma Qabs_positive (v : Q) : ~ (v == 0)%Q -> (0 < Qabs v)%Q.
Proof.
  destruct v as [n d]. unfold Qabs, Qlt, Qeq. simpl. lia.
Qed.

Lemma format_of_magnitude (v : Q) (m sig_figs : Z) :
  1 <= sig_figs ->
  ~ (v == 0)%Q -> (10 ^ m <= Qabs v)%Q -> (Qabs v < 10 ^ (m + 1))%Q ->
  format_significant_figures v sig_figs
  = if (4 <=? m) || (m <? -2)
    then Fmt.fixed (v / 10 ^ m) (Z.to_nat (sig_figs - 1))
         +:+ "e" +:+ Fmt.plus_d m
    else Fmt.fixed v (Z.to_nat (Z.max 0 (sig_figs - m - 1))).
Proof.
  intros Hs Hnz Hlo Hhi. unfold format_significant_figures, format_body.
  destruct (Qeq_bool v 0) eqn:Hz; [by apply Qeq_bool_iff in Hz|].
  cbv zeta. rewrite (magnitude_unique (Qabs v) m); [|by apply Qabs_positive|done|done].
  unfold Fmt.format_f.
  destruct ((4 <=? m) || (m <? -2)).
  - destruct (Z.ltb_spec (sig_figs - 1) 0); [lia|]. done.
  - destruct (Z.leb_spec 0 m).
    + destruct (Z.ltb_spec (Z.max 0 (sig_figs - m - 1)) 0); [lia|]. done.
    + destruct (Z.ltb_spec (sig_figs - m - 1) 0); [lia|].
      do 2 f_equal. lia.
Qed.


(** *** Rounding and reading back *)

Lemma round_half_even_close (q : Q) :
  2 * Z.abs (Fmt.round_half_even q * Z.pos (Qden q) - Qnum q) <= Z.pos (Qden q).
Proof.
  unfold Fmt.round_half_even. cbv zeta.
  pose proof (Z.div_mod (Qnum q) (Z.pos (Qden q)) ltac:(lia)) as Hdm.
  pose proof (Z.mod_pos_bound (Qnum q) (Z.pos (Qden q)) ltac:(lia)) as Hb.
  destruct (Z.compare_spec (2 * (Qnum q mod Z.pos (Qden q))) (Z.pos (Qden q)));
    [destruct (Z.even _)|..]; nia.
Qed.

Lemma round_half_even_nonneg (q : Q) : (0 <= q)%Q -> 0 <= Fmt.round_half_even q.
Proof.
  intros Hq. unfold Fmt.round_half_even. cbv zeta.
  assert (Hn : 0 <= Qnum q) by (unfold Qle in Hq; simpl in Hq; lia).
  pose proof (Z.div_pos (Qnum q) (Z.pos (Qden q)) Hn ltac:(lia)).
  destruct (_ ?= _); [destruct (Z.even _)|..]; lia.
Qed.

Lemma round_half_even_error (q : Q) :
  (Qabs (inject_Z (Fmt.round_half_even q) - q) <= 1 # 2)%Q.
Proof.
  pose proof (round_half_even_close q) as H.
  apply Qabs_Qle_condition. destruct q as [n d]. cbn [Qnum Qden] in H.
  set (z := Fmt.round_half_even (n # d)) in *.
  unfold Qle, Qminus, Qplus, Qopp, inject_Z. cbn [Qnum Qden]. split; lia.
Qed.

Lemma scaled_nonneg v n : 0 <= Fmt.scaled v n.
Proof.
  unfold Fmt.scaled. apply round_half_even_nonneg.
  apply Qmult_le_0_compat; [apply Qabs_nonneg|].
  replace 0%Q with (inject_Z 0) by done. rewrite <- Zle_Qle.
  unfold Fmt.pow10. apply Z.pow_nonneg. lia.
Qed.

Lemma digits_value_zeros j l :
  Parse.digits_value (repeat "0"%char j ++ l) = Parse.digits_value l.
Proof.
  induction j as [|j IH]; [done|]. cbn [repeat app].
  rewrite digits_value_cons, IH. change (PyStr.digit_value "0") with 0. lia.
Qed.

Lemma padded_digits (w : nat) (M : Z) :
  0 <= M ->
  let ds := Fmt.pad_zeros w (Fmt.digits_of M) in
  Forall (fun c => PyStr.is_digit c = true) ds
  /\ Parse.digits_value ds = M
  /\ (w <= length ds)%nat.
Proof.
  intros HM ds. subst ds. unfold Fmt.pad_zeros, Fmt.digits_of.
  destruct (pretty_N_digits (Z.to_N M)) as (Hd & Hv & _).
  split; [|split].
  - apply Forall_app. split; [|done]. apply Forall_forall. intros c Hc.
    apply list_elem_of_In, repeat_spec in Hc. by subst.
  - rewrite digits_value_zeros, Hv. lia.
  - rewrite length_app, repeat_length. lia.
Qed.

Lemma strip_no_space l :
  Forall (fun c => PyStr.is_space c = false) l ->
  PyStr.strip (PyStr.of_chars l) = PyStr.of_chars l.
Proof.
  intros H. unfold PyStr.strip. rewrite chars_of_chars. f_equal.
  assert (Hl : forall l', Forall (fun c => PyStr.is_space c = false) l' ->
                          PyStr.lstrip_chars l' = l').
  { intros [|c l'] Hl'; [done|]. apply Forall_cons in Hl' as [Hc _].
    by apply lstrip_head. }
  rewrite (Hl l H). unfold PyStr.rstrip_chars.
  rewrite Hl, rev_involutive; [done|]. by apply Forall_rev.
Qed.

Lemma py_float_numeral neg ip fp etail e :
  ip <> [] ->
  Forall (fun c => PyStr.is_digit c = true) ip ->
  Forall (fun c => PyStr.is_digit c = true) fp ->
  Forall (fun c => PyStr.is_space c = false) etail ->
  match etail with c :: _ => c = "e"%char | [] => True end ->
  Parse.exponent etail = Some e ->
  Parse.py_float (PyStr.of_chars (numeral_chars neg ip fp etail))
  = Ok (Parse.signed neg (Parse.decimal_value ip fp * 10 ^ e)%Q).
Proof.
  intros Hne Hip Hfp Hsp He Hexp. unfold Parse.py_float.
  assert (Hdig : forall l, Forall (fun c => PyStr.is_digit c = true) l ->
                           Forall (fun c => PyStr.is_space c = false) l).
  { intros l Hl. eapply Forall_impl; [exact Hl|]. intros c Hc.
    by destruct (digit_not_sign c Hc) as (_&_&_&_&_&_&_&?). }
  rewrite strip_no_space, chars_of_chars.
  2:{ unfold numeral_chars. repeat apply Forall_app_2; try by apply Hdig.
      - destruct neg; by repeat constructor.
      - destruct fp; [constructor|]. constructor; [done|by apply Hdig].
      - done. }
  assert (Hsign : Parse.take_sign false (numeral_chars neg ip fp etail)
                  = (neg, ip ++ match fp with [] => [] | _ :: _ => "."%char :: fp end
                          ++ etail)).
  { unfold numeral_chars. destruct neg; [done|]. cbn [app].
    destruct ip as [|c ip]; [done|]. apply Forall_cons in Hip as [Hc _].
    destruct (digit_not_sign c Hc) as (H1 & H2 & _). cbn [app Parse.take_sign].
    destruct c as [[] [] [] [] [] [] [] []]; try done. }
  rewrite Hsign. cbv beta iota.
  assert (Hnd : PyStr.is_digit "." = false /\ PyStr.is_digit "e" = false) by done.
  rewrite (span_digits_all ip
             (match fp with [] => [] | _ :: _ => "."%char :: fp end ++ etail)).
  2:{ done. }
  2:{ destruct fp; [|apply Hnd]. destruct etail as [|c etail]; [done|].
      simpl in He. subst c. apply Hnd. }
  cbv beta iota. destruct fp as [|f fp].
  - cbn [app]. destruct etail as [|c etail].
    + cbv beta iota. rewrite app_nil_r. destruct ip; [done|]. by rewrite Hexp.
    + simpl in He. subst c. cbv beta iota. rewrite app_nil_r.
      destruct ip; [done|]. by rewrite Hexp.
  - cbn [app]. change (f :: fp ++ etail) with ((f :: fp) ++ etail).
    rewrite (span_digits_all (f :: fp) etail); [|done|].
    2:{ destruct etail as [|c etail]; [done|]. simpl in He. subst c. apply Hnd. }
    cbv beta iota. destruct ip; [done|]. cbn [app]. by rewrite Hexp.
Qed.

Lemma fixed_as_numeral v n :
  exists ip fp,
    Fmt.fixed v n = PyStr.of_chars (numeral_chars (Qlt_bool v 0) ip fp [])
    /\ ip <> []
    /\ Forall (fun c => PyStr.is_digit c = true) ip
    /\ Forall (fun c => PyStr.is_digit c = true) fp
    /\ length fp = n
    /\ Parse.digits_value ip * 10 ^ Z.of_nat n + Parse.digits_value fp
       = Fmt.scaled v n.
Proof.
  destruct (padded_digits (S n) (Fmt.scaled v n) (scaled_nonneg v n))
    as (Hd & Hv & Hlen).
  set (ds := Fmt.pad_zeros (S n) (Fmt.digits_of (Fmt.scaled v n))) in *.
  set (k := (length ds - n)%nat).
  exists (take k ds), (drop k ds).
  assert (Hfp : length (drop k ds) = n) by (rewrite length_drop; lia).
  split; [|split; [|split; [|split; [|split]]]].
  - unfold Fmt.fixed, numeral_chars. fold ds. cbv zeta. fold k. do 3 f_equal.
    rewrite app_nil_r. destruct n as [|n].
    + by destruct (drop k ds).
    + destruct (drop k ds); [done|done].
  - intros Hnil. apply (f_equal length) in Hnil. rewrite length_take in Hnil.
    simpl in Hnil. lia.
  - rewrite <- (take_drop k ds) in Hd. by apply Forall_app in Hd as [? _].
  - rewrite <- (take_drop k ds) in Hd. by apply Forall_app in Hd as [_ ?].
  - done.
  - rewrite <- Hv. rewrite <- (take_drop k ds) at 3.
    by rewrite digits_value_app, Hfp.
Qed.

Lemma decimal_value_eq ip fp n M :
  length fp = n ->
  Parse.digits_value ip * 10 ^ Z.of_nat n + Parse.digits_value fp = M ->
  (Parse.decimal_value ip fp == inject_Z M / inject_Z (Fmt.pow10 n))%Q.
Proof.
  intros Hn HM. unfold Parse.decimal_value. rewrite Hn, <- HM.
  unfold Fmt.pow10. rewrite inject_Z_plus, inject_Z_mult.
  assert (Hp : ~ (inject_Z (10 ^ Z.of_nat n) == 0)%Q).
  { intros H. pose proof (inject_pow10_pos (Z.of_nat n) ltac:(lia)) as Hpos.
    rewrite H in Hpos. by apply Qlt_irrefl in Hpos. }
  by field.
Qed.

Lemma exponent_of_plus_d m :
  Parse.exponent ("e"%char :: PyStr.chars (Fmt.plus_d m)) = Some m
  /\ Forall (fun c => PyStr.is_space c = false)
            ("e"%char :: PyStr.chars (Fmt.plus_d m)).
Proof.
  assert (Hpos : forall x : N,
            let ds := PyStr.chars (pretty x) in
            Parse.span_digits ds = (ds, [])
            /\ ds <> [] /\ Parse.digits_value ds = Z.of_N x
            /\ Forall (fun c => PyStr.is_space c = false) ds).
  { intros x ds. destruct (pretty_N_digits x) as (Hd & Hv & Hne). fold ds in Hd, Hv, Hne.
    split; [|split; [done|split; [done|]]].
    - rewrite <- (app_nil_r ds) at 1. by apply span_digits_all.
    - eapply Forall_impl; [exact Hd|]. intros c Hc.
      by destruct (digit_not_sign c Hc) as (_&_&_&_&_&_&_&?). }
  unfold Fmt.plus_d, Parse.exponent.
  change (Ascii.eqb "e" "e") with true. cbn [orb].
  destruct m as [|p|p].
  - split; [by vm_compute|]. vm_compute. repeat constructor.
  - cbn [Z.leb Z.compare]. rewrite chars_app.
    change (PyStr.chars "+") with ["+"%char]. cbn [app Parse.take_sign].
    change (pretty (Z.pos p)) with (pretty (Npos p)).
    destruct (Hpos (Npos p)) as (Hs & Hne & Hv & Hsp). cbv zeta in *.
    rewrite Hs. destruct (PyStr.chars (pretty (N.pos p))) eqn:Hc; [done|].
    rewrite Hv. split; [reflexivity|].
    constructor; [reflexivity|]. constructor; [reflexivity|]. exact Hsp.
  - cbn [Z.leb Z.compare].
    change (pretty (Z.neg p)) with ("-" +:+ pretty (Npos p)). rewrite chars_app.
    change (PyStr.chars "-") with ["-"%char]. cbn [app Parse.take_sign].
    destruct (Hpos (Npos p)) as (Hs & Hne & Hv & Hsp). cbv zeta in *.
    rewrite Hs. destruct (PyStr.chars (pretty (N.pos p))) eqn:Hc; [done|].
    rewrite Hv. split; [reflexivity|].
    constructor; [reflexivity|]. constructor; [reflexivity|]. exact Hsp.
Qed.

(** Reading back [f"{x:.nf}"] followed by the exponent [e] gives [x * 10^e]
    rounded at the [n]-th decimal of [x]. *)
Lemma read_back x n etail e :
  Forall (fun c => PyStr.is_space c = false) etail ->
  match etail with c :: _ => c = "e"%char | [] => True end ->
  Parse.exponent etail = Some e ->
  exists p,
    parse_formatted_value (Fmt.fixed x n +:+ PyStr.of_chars etail) = p
    /\ (p == Parse.signed (Qlt_bool x 0)
               (inject_Z (Fmt.scaled x n) / inject_Z (Fmt.pow10 n) * 10 ^ e))%Q.
Proof.
  intros Hsp He Hexp.
  destruct (fixed_as_numeral x n) as (ip & fp & Hfix & Hne & Hip & Hfp & Hlen & HM).
  assert (Hstr : Fmt.fixed x n +:+ PyStr.of_chars etail
                 = PyStr.of_chars (numeral_chars (Qlt_bool x 0) ip fp etail)).
  { rewrite Hfix, <- of_chars_app. f_equal. unfold numeral_chars.
    rewrite app_nil_r, <- !app_assoc. done. }
  eexists. split; [done|]. unfold parse_formatted_value.
  rewrite Hstr, (py_float_numeral _ ip fp etail e) by done.
  pose proof (decimal_value_eq ip fp n _ Hlen HM) as Hd.
  unfold Parse.signed. destruct (Qlt_bool x 0); by rewrite Hd.
Qed.

Lemma numeral_error (x : Q) (n : nat) (e : Z) :
  (Qabs (Parse.signed (Qlt_bool x 0)
           (inject_Z (Fmt.scaled x n) / inject_Z (Fmt.pow10 n) * 10 ^ e)
         - x * 10 ^ e)
   <= (1 # 2) * (10 ^ e / inject_Z (Fmt.pow10 n)))%Q.
Proof.
  pose proof (round_half_even_error (Qabs x * inject_Z (Fmt.pow10 n))) as Herr.
  fold (Fmt.scaled x n) in Herr.
  set (M := inject_Z (Fmt.scaled x n)) in *.
  assert (HP : (0 < inject_Z (Fmt.pow10 n))%Q)
    by (apply inject_pow10_pos; lia).
  set (P := inject_Z (Fmt.pow10 n)) in *.
  assert (HE : (0 < 10 ^ e)%Q) by (by apply Qpower_0_lt).
  set (E := (10 ^ e)%Q) in *.
  assert (HPz : ~ (P == 0)%Q).
  { intros H. rewrite H in HP. by apply Qlt_irrefl in HP. }
  assert (Hc : (0 <= E / P)%Q).
  { apply Qle_shift_div_l; [done|]. rewrite Qmult_0_l. by apply Qlt_le_weak. }
  assert (Hsplit : exists c, (Qabs c == E / P)%Q
            /\ (Parse.signed (Qlt_bool x 0) (M / P * E) - x * E
                == c * (M - Qabs x * P))%Q).
  { unfold Qlt_bool, Parse.signed.
    destruct (Qle_bool 0 x) eqn:Hx; cbn [negb].
    - apply Qle_bool_iff in Hx. exists (E / P)%Q. split; [by apply Qabs_pos|].
      rewrite (Qabs_pos x Hx). by field.
    - assert (Hneg : (x <= 0)%Q).
      { apply Qnot_lt_le. intros Hlt. apply Qlt_le_weak, Qle_bool_iff in Hlt.
        by rewrite Hlt in Hx. }
      exists (- (E / P))%Q. split; [by rewrite Qabs_opp, Qabs_pos|].
      rewrite (Qabs_neg x Hneg). by field. }
  destruct Hsplit as (c & Hc1 & Hc2).
  rewrite Hc2, Qabs_Qmult, Hc1, (Qmult_comm (E / P)).
  by apply Qmult_le_compat_r.
Qed.

Lemma pow10_ratio (e k : Z) :
  0 <= k ->
  (10 ^ e / inject_Z (Fmt.pow10 (Z.to_nat k)) == 10 ^ (e - k))%Q.
Proof.
  intros Hk. unfold Fmt.pow10. rewrite Z2Nat.id by done.
  rewrite <- (Qpower_10_nonneg k Hk).
  replace (e - k) with (e + - k) by lia.
  rewrite Qpower_plus by done. by rewrite Qpower_opp.
Qed.

Lemma append_empty (s : string) : s +:+ "" = s.
Proof. induction s as [|c s IH]; [done|]. change (String c (s +:+ "") = String c s). by rewrite IH. Qed.

Lemma read_back_error (v : Q) (m sig_figs : Z) :
  4 <= sig_figs ->
  ~ (v == 0)%Q -> (10 ^ m <= Qabs v)%Q -> (Qabs v < 10 ^ (m + 1))%Q ->
  (Qabs (parse_formatted_value (format_significant_figures v sig_figs) - v)
   <= (1 # 2) * 10 ^ (m - sig_figs + 1))%Q.
Proof.
  intros Hs Hnz Hlo Hhi.
  rewrite (format_of_magnitude v m sig_figs) by (done || lia).
  destruct ((4 <=? m) || (m <? -2)) eqn:Hb.
  - destruct (exponent_of_plus_d m) as [Hexp Hsp].
    destruct (read_back (v / 10 ^ m) (Z.to_nat (sig_figs - 1))
                ("e"%char :: PyStr.chars (Fmt.plus_d m)) m Hsp eq_refl Hexp)
      as (p & Hp & Hpv).
    change (PyStr.of_chars ("e"%char :: PyStr.chars (Fmt.plus_d m)))
      with (String "e" (PyStr.of_chars (PyStr.chars (Fmt.plus_d m)))) in Hp.
    rewrite of_chars_chars in Hp.
    change (String "e" (Fmt.plus_d m)) with ("e" +:+ Fmt.plus_d m) in Hp.
    rewrite Hp, Hpv.
    assert (Hv : (v == v / 10 ^ m * 10 ^ m)%Q).
    { field. intros H0. pose proof (Qpower_0_lt 10 m ltac:(done)) as H1.
      rewrite H0 in H1. by apply Qlt_irrefl in H1. }
    rewrite Hv at 3.
    replace (m - sig_figs + 1) with (m - (sig_figs - 1)) by lia.
    rewrite <- (pow10_ratio m (sig_figs - 1)) by lia.
    apply numeral_error.
  - destruct (read_back v (Z.to_nat (Z.max 0 (sig_figs - m - 1))) [] 0
                (Forall_nil_2 _) I eq_refl) as (p & Hp & Hpv).
    change (PyStr.of_chars []) with "" in Hp. rewrite append_empty in Hp.
    rewrite Hp, Hpv.
    assert (Hm : m <= 3).
    { apply orb_false_iff in Hb as [H1 _]. apply Z.leb_gt in H1. lia. }
    assert (Hv : (v == v * 10 ^ 0)%Q) by (cbn; ring).
    rewrite Hv at 3.
    replace (m - sig_figs + 1) with (0 - Z.max 0 (sig_figs - m - 1)) by lia.
    rewrite <- (pow10_ratio 0 (Z.max 0 (sig_figs - m - 1))) by lia.
    apply numeral_error.
Qed.



(** *** The ten kinds of plot *)

Lemma linspace_bounds (start stop : Q) (n : nat) (v : Q) :
  (start <= stop)%Q -> In v (Np.linspace start stop n) ->
  (start <= v)%Q /\ (v <= stop)%Q.
Proof.
  intros Hle Hin. unfold Np.linspace in Hin. cbv zeta in Hin.
  apply in_map_iff in Hin as (i & <- & Hi). apply in_seq in Hi.
  set (k := (n - 1)%nat).
  assert (Hik : (i <= k)%nat) by (subst k; lia).
  assert (Ha : (0 <= stop - start)%Q).
  { apply (Qplus_le_l _ _ start). ring_simplify. done. }
  set (a := (stop - start)%Q) in *.
  assert (H : (0 <= inject_Z (Z.of_nat i) * (a / inject_Z (Z.of_nat k)))%Q
              /\ (inject_Z (Z.of_nat i) * (a / inject_Z (Z.of_nat k)) <= a)%Q).
  { destruct (Nat.eq_dec k 0%nat) as [Hk|Hk].
    - assert (i = 0%nat) as -> by lia. rewrite Qmult_0_l. done.
    - assert (Hkpos : (0 < inject_Z (Z.of_nat k))%Q).
      { replace 0%Q with (inject_Z 0) by done. rewrite <- Zlt_Qlt. lia. }
      assert (Hi0 : (0 <= inject_Z (Z.of_nat i))%Q).
      { replace 0%Q with (inject_Z 0) by done. rewrite <- Zle_Qle. lia. }
      assert (Hq : (0 <= a / inject_Z (Z.of_nat k))%Q).
      { apply Qle_shift_div_l; [done|]. by rewrite Qmult_0_l. }
      split; [by apply Qmult_le_0_compat|].
      apply Qle_trans with (inject_Z (Z.of_nat k) * (a / inject_Z (Z.of_nat k)))%Q.
      + apply Qmult_le_compat_r; [|done]. rewrite <- Zle_Qle. lia.
      + assert (Hne : ~ (inject_Z (Z.of_nat k) == 0)%Q).
        { intros H0. rewrite H0 in Hkpos. by apply Qlt_irrefl in Hkpos. }
        apply Qle_lteq. right. by field. }
  destruct H as [H1 H2]. split.
  - rewrite <- (Qplus_0_r start) at 1. by apply Qplus_le_r.
  - apply Qle_trans with (start + a)%Q; [by apply Qplus_le_r|].
    subst a. apply Qle_lteq. right. ring.
Qed.

Ltac kind_shape n g :=
  destruct (random_sample n g) as [? ?];
  cbn [fst single plot_x line_type_of title_of];
  split; [apply linspace_length|];
  split; [done|]; split; [done|];
  apply Forall_forall; intros v Hv; apply list_elem_of_In in Hv;
  by apply linspace_bounds in Hv.

Lemma kind_shape_cases (k : nat) plot_num specimen g :
  (k < 10)%nat ->
  let d := (nth k plot_types _generate_sin_data plot_num specimen g).1 in
  length (plot_x d) = nth k points_of_kind 0%nat
  /\ line_type_of d = (if (k =? 2)%nat then multi_line else single_line)
  /\ title_of d = "Plot " +:+ pretty plot_num +:+ " - " +:+ specimen
  /\ Forall (within (nth k x_interval_of_kind None)) (plot_x d).
Proof.
  intros Hk.
  destruct k as [|[|[|[|[|[|[|[|[|[|k]]]]]]]]]]; [| | | | | | | | | |lia];
    cbn [nth plot_types points_of_kind x_interval_of_kind Nat.eqb within].
  - unfold _generate_sin_data. kind_shape 50%nat g.
  - unfold _generate_exp_data. kind_shape 30%nat g.
  - unfold _generate_multi_line_data.
    destruct (random_sample 40 g) as [? g1].
    destruct (random_sample 40 g1) as [? ?].
    cbn [fst plot_x line_type_of title_of].
    split; [apply linspace_length|]. split; [done|]. split; [done|].
    apply Forall_forall. intros v Hv. apply list_elem_of_In in Hv.
    by apply linspace_bounds in Hv.
  - unfold _generate_polynomial_data. kind_shape 25%nat g.
  - unfold _generate_gaussian_data. kind_shape 100%nat g.
  - unfold _generate_log_data. kind_shape 35%nat g.
  - unfold _generate_damped_oscillation_data. kind_shape 50%nat g.
  - unfold _generate_spiral_data.
    destruct (random_sample 50 g) as [? ?].
    cbn [fst single plot_x line_type_of title_of].
    split; [by rewrite length_map, linspace_length|].
    split; [done|]. split; [done|]. by apply Forall_forall.
  - unfold _generate_noise_data.
    destruct (normal_sample 0 0.5 30 g) as [? ?].
    cbn [fst single plot_x line_type_of title_of].
    split; [apply linspace_length|]. split; [done|]. split; [done|].
    apply Forall_forall. intros v Hv. apply list_elem_of_In in Hv.
    by apply linspace_bounds in Hv.
  - unfold _generate_step_data. kind_shape 50%nat g.
Qed.

Lemma plot_shape i specimen site g :
  let d := (_generate_single_plot_data i specimen site g).1 in
  length (plot_x d) = nth (i mod 10) points_of_kind 0%nat
  /\ line_type_of d = (if (i mod 10 =? 2)%nat then multi_line else single_line)
  /\ title_of d = "Plot " +:+ pretty (S i) +:+ " - " +:+ specimen
  /\ Forall (within (nth (i mod 10) x_interval_of_kind None)) (plot_x d).
Proof.
  unfold _generate_single_plot_data. cbv zeta.
  change (length plot_types) with 10%nat.
  apply kind_shape_cases. apply Nat.mod_upper_bound. lia.
Qed.

(** The plot at index [i] is of the kind [i mod 10] of the ten generators,
    whatever the specimen, its site and the random draws: the kind fixes the
    number of points, the plot has two series exactly when the kind is the
    third one, its title is ["Plot <i+1> - <specimen>"], and, the spiral
    apart, its x values lie in the interval of the kind. *)
Theorem plots_cycle_through_ten_kinds i specimen site g :
  let d := (_generate_single_plot_data i specimen site g).1 in
  length (plot_x d) = nth (i mod 10) points_of_kind 0%nat
  /\ line_type_of d = (if (i mod 10 =? 2)%nat then multi_line else single_line)
  /\ title_of d = "Plot " +:+ pretty (S i) +:+ " - " +:+ specimen
  /\ Forall (within (nth (i mod 10) x_interval_of_kind None)) (plot_x d).
Proof. apply plot_shape. Qed.

Lemma no_point_in_window (l : list Q) (lo hi : Q) (range_down range_up : Z) :
  Forall (within (Some (lo, hi))) l ->
  (hi < inject_Z range_down)%Q \/ (inject_Z range_up < lo)%Q ->
  List.filter (in_window range_down range_up) l = [].
Proof.
  intros Hl Hout. induction Hl as [|v l [Hlo Hhi] _ IH]; [done|].
  cbn [List.filter]. rewrite IH.
  assert (in_window range_down range_up v = false) as ->; [|done].
  unfold in_window. apply andb_false_iff.
  destruct Hout as [Hd|Hu]; [left|right];
    (destruct (Qle_bool _ _) eqn:Hb; [|done]); apply Qle_bool_iff in Hb.
  - exfalso. apply (Qlt_irrefl hi).
    apply Qlt_le_trans with (inject_Z range_down); [done|].
    by apply Qle_trans with v.
  - exfalso. apply (Qlt_irrefl lo).
    apply Qle_lt_trans with (inject_Z range_up); [|done].
    by apply Qle_trans with v.
Qed.

(** A window that lies off the x values of a plot shows ["N/A"].  When the
    data of the plot [i] are the generator's and the window ends before, or
    begins after, the interval of the x values of its kind, the summary has
    ["N/A"] for the parameter [i]: with the default kinds no plot but the
    spiral has a point beyond [x = 10]. *)
Theorem window_off_the_x_values_shows_NA self site specimen st g (i : nat)
    label lo hi range_up range_down :
  cache_ok self st ->
  labels_ok self ->
  data_display_labels self !! i = Some label ->
  (i < num_plots self)%nat ->
  (generate_specimen_data_for_data_box self site specimen st).1 !! plot_key i
  = Some (_generate_single_plot_data i specimen site g).1 ->
  nth (i mod 10) x_interval_of_kind None = Some (lo, hi) ->
  (hi < inject_Z range_down)%Q \/ (inject_Z range_up < lo)%Q ->
  exists summary,
    (get_range_based_specimen_summary self site specimen range_up range_down st).1
    = Ok summary
    /\ summary !! label = Some "N/A".
Proof.
  intros Hc Hl Hlabel Hi Hd Hkind Hout.
  destruct (summary_from_data self site specimen range_up range_down st Hc Hl)
    as (summary & Hs & Hval).
  exists summary. split; [done|]. rewrite (Hval _ _ Hlabel).
  unfold shown_text. destruct (Nat.ltb_spec i (num_plots self)); [|lia].
  rewrite Hd. unfold points_in_window.
  destruct (plot_shape i specimen site g) as (_ & _ & _ & Hx).
  rewrite Hkind in Hx.
  by rewrite (no_point_in_window _ lo hi range_down range_up Hx Hout).
Qed.

(** *** The overall statistics *)

Lemma y_in_window_length d range_down range_up :
  plot_data_ok d ->
  length (y_in_window d range_down range_up)
  = (series_of d * points_in_window d range_down range_up)%nat.
Proof.
  intros Hok. unfold y_in_window, points_in_window. cbv zeta.
  destruct d as [x y ? ? ?|x y1 y2 ? ? ?]; cbn [plot_data_ok plot_x series_of] in *.
  - rewrite <- select_mask, select_length by done. lia.
  - destruct Hok as [H1 H2].
    rewrite length_app, <- !select_mask, !select_length by done. lia.
Qed.

Lemma pooled_length sd range_down range_up (indices : list nat) :
  (forall i d, In i indices -> sd !! plot_key i = Some d -> plot_data_ok d) ->
  length (flat_map (pooled_of sd range_down range_up) indices)
  = list_sum (map (pooled_points sd range_down range_up) indices).
Proof.
  induction indices as [|i rest IH]; intros Hok; [done|].
  cbn [flat_map map].
  assert (Hcons : forall a l, list_sum (a :: l) = (a + list_sum l)%nat) by done.
  rewrite Hcons, length_app, IH.
  - f_equal. unfold pooled_of, pooled_points.
    destruct (sd !! plot_key i) as [d|] eqn:Hd; [|done].
    apply y_in_window_length. apply (Hok i); [by left|done].
  - intros j d Hj. apply Hok. by right.
Qed.

Lemma filter_length_Permutation {A} (f : A -> bool) (l l' : list A) :
  l ≡ₚ l' -> length (List.filter f l) = length (List.filter f l').
Proof.
  induction 1 as [|x l l' _ IH|x y l|l l' l'' _ IH1 _ IH2]; cbn [List.filter].
  - done.
  - destruct (f x); cbn [length]; by rewrite IH.
  - by destruct (f x), (f y).
  - by rewrite IH1.
Qed.

Lemma valid_plots_count (averages : gmap string plot_average) (n : nat)
    (entry : nat -> plot_average) :
  (forall i, (i < n)%nat -> averages !! plot_key i = Some (entry i)) ->
  (forall key, (forall i, (i < n)%nat -> plot_key i <> key) ->
               averages !! key = None) ->
  valid_plots_of averages
  = length (List.filter (fun i => negb (has_error (entry i))) (seq 0 n)).
Proof.
  intros Hin Hout.
  set (l := map (fun i => (plot_key i, entry i)) (seq 0 n)).
  assert (Hnd : NoDup l.*1).
  { subst l. rewrite <- list_fmap_compose.
    apply NoDup_fmap_2; [|apply NoDup_ListNoDup, seq_NoDup].
    intros i j. apply plot_key_inj. }
  assert (Hmap : averages = list_to_map l).
  { apply map_eq. intros key.
    destruct (list_to_map l !! key) as [e|] eqn:He.
    - apply elem_of_list_to_map in He; [|done].
      subst l. apply list_elem_of_In, in_map_iff in He as (i & Hi & Hseq).
      injection Hi as <- <-. apply Hin. apply in_seq in Hseq. lia.
    - apply not_elem_of_list_to_map in He. apply Hout.
      intros i Hi <-. apply He. subst l.
      apply list_elem_of_fmap. exists (plot_key i, entry i). split; [done|].
      apply list_elem_of_In, in_map_iff. exists i. split; [done|].
      apply in_seq. lia. }
  unfold valid_plots_of.
  rewrite (filter_length_Permutation _ (map_to_list averages) l).
  - subst l. clear. induction (seq 0 n) as [|i rest IH]; [done|].
    cbn [map List.filter snd]. destruct (has_error (entry i)); cbn [negb length];
      by rewrite IH.
  - rewrite Hmap. by apply map_to_list_to_map.
Qed.

Lemma range_averages_of_keys self sd site specimen range_up range_down ra key :
  plots_ok (num_plots self) sd ->
  range_averages_of self sd site specimen range_up range_down = Ok ra ->
  (forall i, (i < num_plots self)%nat -> plot_key i <> key) ->
  plot_averages ra !! key = None.
Proof.
  intros Hok Hra Hkey. unfold range_averages_of in Hra.
  destruct (aggregate_plots_spec sd range_up range_down
              (seq 0 (num_plots self)) ∅ [])
    as (averages & Hrun & _ & _ & Hother).
  { apply NoDup_ListNoDup, seq_NoDup. }
  { intros i d Hi. apply Hok. apply in_seq in Hi. lia. }
  rewrite Hrun in Hra. cbn in Hra. injection Hra as <-. cbn.
  rewrite Hother; [apply lookup_empty|].
  intros i Hi. apply Hkey. apply in_seq in Hi. lia.
Qed.

Lemma calculate_result self site specimen range_up range_down st :
  (calculate_range_based_averages self site specimen range_up range_down st).1
  = range_averages_of self
      (generate_specimen_data_for_data_box self site specimen st).1
      site specimen range_up range_down.
Proof.
  unfold calculate_range_based_averages.
  by destruct (generate_specimen_data_for_data_box self site specimen st).
Qed.

Lemma pooled_nil_iff sd range_down range_up (indices : list nat) :
  (forall i d, In i indices -> sd !! plot_key i = Some d -> plot_data_ok d) ->
  flat_map (pooled_of sd range_down range_up) indices = []
  <-> List.filter
        (fun i => match sd !! plot_key i with
                  | Some d => negb (points_in_window d range_down range_up =? 0)%nat
                  | None => false
                  end) indices = [].
Proof.
  induction indices as [|i rest IH]; intros Hok; [done|].
  cbn [flat_map List.filter].
  assert (Hrest : forall j d, In j rest -> sd !! plot_key j = Some d -> plot_data_ok d).
  { intros j d Hj. apply Hok. by right. }
  specialize (IH Hrest). unfold pooled_of at 1.
  destruct (sd !! plot_key i) as [d|] eqn:Hd; [|by rewrite app_nil_l].
  pose proof (y_in_window_length d range_down range_up
                (Hok i d ltac:(by left) Hd)) as Hlen.
  destruct (Nat.eqb_spec (points_in_window d range_down range_up) 0) as [Hz|Hnz];
    cbn [negb].
  - rewrite (y_in_window_none _ _ _ Hz), app_nil_l. done.
  - split; [|done]. intros Happ. apply app_eq_nil in Happ as [Hnil _].
    rewrite Hnil in Hlen. cbn [length] in Hlen. destruct d; cbn [series_of] in Hlen; lia.
Qed.

(** The overall statistics describe the pooled values.  When some plot has a
    point in the window, the number of data points counts every point in
    the window once for each series of its plot, the overall average lies
    between the overall minimum and maximum, the standard deviation is not
    negative, and [valid_plots] is the number of plots that have a point in
    the window, at least one; otherwise the statistics are the error entry
    and no plot has a point in the window. *)
Theorem overall_statistics_describe_the_pool self site specimen
    range_up range_down st :
  cache_ok self st ->
  let sd := (generate_specimen_data_for_data_box self site specimen st).1 in
  exists ra,
    (calculate_range_based_averages self site specimen range_up range_down st).1
    = Ok ra
    /\ match overall ra with
       | Overall n average std y_min y_max _ coverage valid =>
           n = list_sum (map (pooled_points sd range_down range_up)
                           (seq 0 (num_plots self)))
           /\ (y_min <= average <= y_max)%Q
           /\ (0 <= std)%Q
           /\ valid = length (plots_in_window sd range_down range_up (num_plots self))
           /\ (1 <= valid <= num_plots self)%nat
           /\ coverage = pretty range_down +:+ " to " +:+ pretty range_up
       | OverallError =>
           plots_in_window sd range_down range_up (num_plots self) = []
       end.
Proof.
  intros Hc sd.
  destruct (calculate_spec self site specimen range_up range_down st Hc)
    as (ra & Hra & Hov & Hin). fold sd in Hov, Hin.
  exists ra. split; [done|].
  assert (Hok : forall i d, In i (seq 0 (num_plots self)) ->
                  sd !! plot_key i = Some d -> plot_data_ok d).
  { intros i d Hi Hd. apply in_seq in Hi.
    destruct (Hin i ltac:(lia)) as (d' & _ & _ & Hd' & Hok & _). congruence. }
  pose proof (pooled_nil_iff sd range_down range_up _ Hok) as Hnil.
  pose proof (pooled_length sd range_down range_up _ Hok) as Hlen.
  fold (plots_in_window sd range_down range_up (num_plots self)) in Hnil.
  rewrite Hov. unfold overall_of.
  destruct (flat_map _ _) as [|v pooled] eqn:Hpool; [by apply Hnil|].
  assert (Hvalid : valid_plots_of (plot_averages ra)
                   = length (plots_in_window sd range_down range_up (num_plots self))).
  { set (entry := fun i =>
      match sd !! plot_key i with
      | Some d =>
          match aggregate_plot d range_up range_down with
          | Ok (e, _) => e
          | Raise _ => NoPoints single_line
          end
      | None => NoPoints single_line
      end).
    rewrite (valid_plots_count _ (num_plots self) entry).
    - unfold plots_in_window. clear -Hin.
      assert (Hext : forall i, In i (seq 0 (num_plots self)) ->
                negb (has_error (entry i))
                = match sd !! plot_key i with
                  | Some d => negb (points_in_window d range_down range_up =? 0)%nat
                  | None => false
                  end).
      { intros i Hi. apply in_seq in Hi.
        destruct (Hin i ltac:(lia)) as (d & e & ys & Hd & Hok & Hagg & _).
        subst entry. cbv beta. rewrite Hd, Hagg.
        destruct (aggregate_plot_ok d range_up range_down Hok) as (e' & He' & H0 & H1).
        rewrite Hagg in He'. injection He' as <- _.
        destruct (Nat.eqb_spec (points_in_window d range_down range_up) 0) as [Hz|Hnz].
        - by rewrite (H0 Hz).
        - specialize (H1 Hnz). by destruct e. }
      by rewrite (filter_ext_in _ _ _ Hext).
    - intros i Hi. destruct (Hin i Hi) as (d & e & ys & Hd & _ & Hagg & He).
      subst entry. cbv beta. by rewrite Hd, Hagg.
    - intros key Hkey.
      pose proof (calculate_result self site specimen range_up range_down st) as Hres.
      rewrite Hra in Hres. symmetry in Hres.
      apply (range_averages_of_keys self sd site specimen range_up range_down ra key);
        [|done|done].
      intros i d Hi. apply Hok. apply in_seq. lia. }
  split; [done|]. split; [by apply mean_between_min_and_max|].
  split; [apply std_nonneg|]. split; [done|]. split; [|done].
  rewrite Hvalid. split.
  - assert (Hne : plots_in_window sd range_down range_up (num_plots self) <> []).
    { intros Hp. by apply Hnil in Hp. }
    destruct (plots_in_window sd range_down range_up (num_plots self));
      [done|cbn [length]; lia].
  - unfold plots_in_window.
    pose proof (filter_length_le
      (fun i => match sd !! plot_key i with
                | Some d => negb (points_in_window d range_down range_up =? 0)%nat
                | None => false
                end) (seq 0 (num_plots self))) as Hle.
    by rewrite length_seq in Hle.
Qed.

End Proofs.

(** * The theorems at work on the reference runtime *)

Section Instances.
#[local] Existing Instance Reference.runtime.

Lemma default_app_cache_ok : cache_ok default_app.1 default_app.2.
Proof. apply TestData_init_ok. Defined.

Lemma default_app_labels_ok : labels_ok default_app.1.
Proof.
  split; [reflexivity|]. split; [reflexivity|].
  apply (bool_decide_unpack (NoDup (data_display_labels default_app.1))).
  vm_compute. exact I.
Defined.

Lemma empty_window_is_an_error_entry_witness :
  cache_ok default_app.1 default_app.2
  /\ exists ra,
       (calculate_range_based_averages default_app.1 "Site A" "Sample A1"
          20 11 default_app.2).1 = Ok ra.
Proof.
  split; [apply default_app_cache_ok|].
  destruct (empty_window_is_an_error_entry default_app.1 "Site A" "Sample A1"
              20 11 default_app.2 default_app_cache_ok) as (ra & H & _).
  by exists ra.
Defined.

Lemma reversed_window_is_empty_witness :
  cache_ok default_app.1 default_app.2
  /\ 1 < 100
  /\ exists ra,
       (calculate_range_based_averages default_app.1 "Site A" "Sample A1"
          1 100 default_app.2).1 = Ok ra
       /\ overall ra = OverallError.
Proof.
  split; [apply default_app_cache_ok|]. split; [lia|].
  destruct (reversed_window_is_empty default_app.1 "Site A" "Sample A1"
              1 100 default_app.2 default_app_cache_ok ltac:(lia))
    as (ra & H & _ & Hov).
  exists ra. exact (conj H Hov).
Defined.




Lemma site_statistics_count_every_specimen_witness :
  cache_ok default_app.1 default_app.2
  /\ labels_ok default_app.1
  /\ exists r,
       (generate_single_site_plot_data default_app.1 "Site A"
          [ItemStr "Site A → Sample A1"; ItemStr "Site A → Sample A2"]
          100 1 default_app.2).1 = Ok r.
Proof.
  split; [apply default_app_cache_ok|]. split; [apply default_app_labels_ok|].
  destruct (site_statistics_count_every_specimen default_app.1 "Site A"
              [ItemStr "Site A → Sample A1"; ItemStr "Site A → Sample A2"]
              100 1 default_app.2 default_app_cache_ok default_app_labels_ok)
    as (r & H & _).
  exists r. exact H.
Defined.


(** C2 as stated fails where a summary shows ["N/A"]: with the window
    [11, 20] neither specimen has a value for any parameter, and every
    bundle still counts 2. *)
Lemma count_includes_specimens_without_value :
  let shown specimen :=
    match (get_range_based_specimen_summary default_app.1 "Site A" specimen
             20 11 default_app.2).1 with
    | Ok summary => map_to_list summary
    | Raise _ => []
    end in
  let na := [("Current", "N/A"); ("Voltage", "N/A"); ("Temperature", "N/A");
             ("Humidity", "N/A"); ("Pressure", "N/A")] in
  shown "Sample A1" = na
  /\ shown "Sample A2" = na
  /\ match (generate_single_site_plot_data default_app.1 "Site A"
              [ItemStr "Site A → Sample A1"; ItemStr "Site A → Sample A2"]
              20 11 default_app.2).1 with
     | Ok (Some pd) => map stat_count (parameter_stats pd) = [2; 2; 2; 2; 2]%nat
     | _ => False
     end.
Proof. vm_compute. repeat split. Qed.


(** ** Further properties at work *)

Lemma catalogue_specimens_are_cached_witness :
  In ("Site A", ["Sample A1"; "Sample A2"; "Sample A3"]) (sites default_app.1)
  /\ In "Sample A1" ["Sample A1"; "Sample A2"; "Sample A3"]
  /\ generate_specimen_data_for_data_box default_app.1 "Site A" "Sample A1"
       default_app.2
     = ((generate_specimen (RT := Reference.runtime) default_app.1
         "Sample A1" "Site A" 7%Z).1,
        default_app.2).
Proof.
  split; [left; reflexivity|]. split; [left; reflexivity|].
  apply (catalogue_specimens_are_cached (RT := Reference.runtime) 8 5 None 0%Z 7%Z "Site A"
           ["Sample A1"; "Sample A2"; "Sample A3"] "Sample A1");
    left; reflexivity.
Defined.

Lemma unknown_specimen_makes_cache_incomplete_witness :
  cache_key "Site X" "Sample X1" ∉ catalogue_keys (sites default_app.1)
  /\ cache_complete
       (get_cache_info default_app.1
          (generate_specimen_data_for_data_box default_app.1
             "Site X" "Sample X1" default_app.2).2) = false.
Proof.
  assert (H : cache_key "Site X" "Sample X1" ∉ catalogue_keys (sites default_app.1)).
  { apply (bool_decide_unpack _). vm_compute. exact I. }
  split; [exact H|].
  exact (proj2 (unknown_specimen_makes_cache_incomplete (RT := Reference.runtime)
                  8 5 None 0%Z
                  "Site X" "Sample X1" H)).
Defined.


Lemma wider_window_keeps_values_witness :
  cache_ok default_app.1 default_app.2
  /\ labels_ok default_app.1
  /\ 1 <= 5 /\ 20 <= 100
  /\ exists narrow wide,
       (get_range_based_specimen_summary default_app.1 "Site A" "Sample A1"
          20 5 default_app.2).1 = Ok narrow
       /\ (get_range_based_specimen_summary default_app.1 "Site A" "Sample A1"
             100 1 default_app.2).1 = Ok wide.
Proof.
  split; [apply default_app_cache_ok|]. split; [apply default_app_labels_ok|].
  split; [lia|]. split; [lia|].
  destruct (wider_window_keeps_values default_app.1 "Site A" "Sample A1"
              default_app.2 20 5 100 1
              default_app_cache_ok default_app_labels_ok ltac:(lia) ltac:(lia))
    as (narrow & wide & H1 & H2 & _).
  exists narrow, wide. exact (conj H1 H2).
Defined.

Lemma reads_do_not_interfere_witness :
  cache_key "Site A" "Sample A1" <> cache_key "Site B" "Sample B1"
  /\ (get_range_based_specimen_summary default_app.1 "Site B" "Sample B1" 100 1
        (get_range_based_specimen_summary default_app.1 "Site A" "Sample A1"
           20 5 default_app.2).2).1
     = (get_range_based_specimen_summary default_app.1 "Site B" "Sample B1" 100 1
          default_app.2).1.
Proof.
  assert (H : cache_key "Site A" "Sample A1" <> cache_key "Site B" "Sample B1").
  { intros Heq. vm_compute in Heq. discriminate Heq. }
  split; [exact H|].
  exact (reads_do_not_interfere default_app.1 "Site A" "Sample A1" 20 5
           "Site B" "Sample B1" 100 1 default_app.2 (or_introl H)).
Defined.

Lemma all_sites_statistics_witness :
  cache_ok default_app.1 default_app.2
  /\ labels_ok default_app.1
  /\ exists pd,
       (generate_all_sites_plot_data default_app.1
          [ItemStr "Site A → Sample A1"; ItemStr "Site B → Sample B1"]
          100 1 default_app.2).1 = Ok pd.
Proof.
  split; [apply default_app_cache_ok|]. split; [apply default_app_labels_ok|].
  destruct (all_sites_statistics default_app.1
              [ItemStr "Site A → Sample A1"; ItemStr "Site B → Sample B1"]
              100 1 default_app.2 default_app_cache_ok default_app_labels_ok)
    as (pd & H & _).
  exists pd. exact H.
Defined.




Lemma plot_of_the_default_app :
  (generate_specimen_data_for_data_box default_app.1 "Site A" "Sample A1"
     default_app.2).1 !! plot_key 0
  = Some (_generate_single_plot_data (RT := Reference.runtime) 0
            "Sample A1" "Site A" 0%Z).1.
Proof. vm_compute. reflexivity. Defined.


Lemma window_off_the_x_values_shows_NA_witness :
  data_display_labels default_app.1 !! 0%nat = Some "Temperature"
  /\ nth (0 mod 10) x_interval_of_kind None = Some (0%Q, 10%Q)
  /\ (10 < inject_Z 11)%Q
  /\ exists summary,
       (get_range_based_specimen_summary default_app.1 "Site A" "Sample A1"
          20 11 default_app.2).1 = Ok summary
       /\ summary !! "Temperature" = Some "N/A".
Proof.
  split; [reflexivity|]. split; [reflexivity|]. split; [reflexivity|].
  apply (window_off_the_x_values_shows_NA (RT := Reference.runtime) default_app.1 "Site A" "Sample A1"
           default_app.2 0%Z 0%nat "Temperature" 0%Q 10%Q 20 11
           default_app_cache_ok default_app_labels_ok).
  - reflexivity.
  - vm_compute. lia.
  - exact plot_of_the_default_app.
  - reflexivity.
  - left. reflexivity.
Defined.

Lemma overall_statistics_describe_the_pool_witness :
  cache_ok default_app.1 default_app.2
  /\ exists ra,
       (calculate_range_based_averages default_app.1 "Site A" "Sample A1"
          100 1 default_app.2).1 = Ok ra.
Proof.
  split; [apply default_app_cache_ok|].
  destruct (overall_statistics_describe_the_pool default_app.1 "Site A" "Sample A1"
              100 1 default_app.2 default_app_cache_ok) as (ra & H & _).
  exists ra. exact H.
Defined.

End Instances.
